(** * timesheet.py: the worklog allocator and its calendar helpers

    A shallow embedding of [src/timesheet.py]: [subtract_one_month],
    [working_days], [build_day_payloads] and the per-day body of the fill
    loop of [main], together with the part of Python's [datetime],
    [calendar] and [random] modules these functions call; then the
    settings ([load_env_file], [parse_positive_int_env]), the prompts
    ([ask_weight], [ask_int]), the table of open issues, and the tracker
    client (the three paged fetches and
    [calculate_logged_seconds_for_day]), the tracker itself being an
    oracle that answers the requests.

    Python integers are unbounded, so they are [Z].  A Python exception is
    an explicit [Raised] outcome.  The two [while] loops are run with a
    fuel counter; [OutOfFuel] is the outcome of a run that was cut short,
    and the theorems give the fuel that suffices. *)

From Stdlib Require Import ZArith List String Bool Lia Sorted.
Import ListNotations.
Local Open Scope Z_scope.

(** ** Outcomes of a Python call *)

Inductive exn : Type :=
| ValueError
| IndexError
| OverflowError
| RuntimeError.

Inductive outcome (A : Type) : Type :=
| Returned (a : A)
| Raised (e : exn)
| OutOfFuel.

Arguments Returned {A} a.
Arguments Raised {A} e.
Arguments OutOfFuel {A}.

Definition bind {A B : Type} (m : outcome A) (k : A -> outcome B) : outcome B :=
  match m with
  | Returned a => k a
  | Raised e => Raised e
  | OutOfFuel => OutOfFuel
  end.

Notation "x <- m ;; k" := (bind m (fun x => k))
  (at level 61, m at next level, right associativity).
Notation "' p <- m ;; k" := (bind m (fun p => k))
  (at level 61, p pattern, m at next level, right associativity).

(** ** Python's [datetime] module: the proleptic Gregorian calendar *)

Module PyDatetime.

Definition MINYEAR : Z := 1.
Definition MAXYEAR : Z := 9999.
Definition _MAXORDINAL : Z := 3652059.

(** [_DAYS_IN_MONTH[month]]; the placeholder of index 0, and any other
    index, is [-1] here (the callers check [1 <= month <= 12] first). *)
Definition _DAYS_IN_MONTH (month : Z) : Z :=
  match month with
  | 1 => 31 | 2 => 28 | 3 => 31 | 4 => 30 | 5 => 31 | 6 => 30
  | 7 => 31 | 8 => 31 | 9 => 30 | 10 => 31 | 11 => 30 | 12 => 31
  | _ => -1
  end.

Definition _DAYS_BEFORE_MONTH (month : Z) : Z :=
  match month with
  | 1 => 0 | 2 => 31 | 3 => 59 | 4 => 90 | 5 => 120 | 6 => 151
  | 7 => 181 | 8 => 212 | 9 => 243 | 10 => 273 | 11 => 304 | 12 => 334
  | _ => -1
  end.

Definition _is_leap (year : Z) : bool :=
  (year mod 4 =? 0) && (negb (year mod 100 =? 0) || (year mod 400 =? 0)).

Definition _days_before_year (year : Z) : Z :=
  let y := year - 1 in
  y * 365 + y / 4 - y / 100 + y / 400.

Definition _days_in_month (year month : Z) : Z :=
  if (month =? 2) && _is_leap year then 29 else _DAYS_IN_MONTH month.

Definition _days_before_month (year month : Z) : Z :=
  _DAYS_BEFORE_MONTH month + (if (2 <? month) && _is_leap year then 1 else 0).

Definition _ymd2ord (year month day : Z) : Z :=
  _days_before_year year + _days_before_month year month + day.

Definition _DI400Y : Z := 146097.
Definition _DI100Y : Z := 36524.
Definition _DI4Y : Z := 1461.

(** [_ord2ymd]: ordinal to (year, month, day), 01-Jan-0001 being day 1. *)
Definition _ord2ymd (n0 : Z) : Z * Z * Z :=
  let n := n0 - 1 in
  let n400 := n / _DI400Y in
  let n := n mod _DI400Y in
  let year := n400 * 400 + 1 in
  let n100 := n / _DI100Y in
  let n := n mod _DI100Y in
  let n4 := n / _DI4Y in
  let n := n mod _DI4Y in
  let n1 := n / 365 in
  let n := n mod 365 in
  let year := year + (n100 * 100 + n4 * 4 + n1) in
  if (n1 =? 4) || (n100 =? 4) then (year - 1, 12, 31)
  else
    let leapyear := (n1 =? 3) && (negb (n4 =? 24) || (n100 =? 3)) in
    let month := Z.shiftr (n + 50) 5 in
    let preceding :=
      _DAYS_BEFORE_MONTH month + (if (2 <? month) && leapyear then 1 else 0) in
    let '(month, preceding) :=
      if n <? preceding
      then (month - 1,
            preceding - (_DAYS_IN_MONTH (month - 1)
                         + (if (month - 1 =? 2) && leapyear then 1 else 0)))
      else (month, preceding) in
    (year, month, n - preceding + 1).

(** *** [date] *)

Record date : Type := mkdate { year : Z; month : Z; day : Z }.

(** What [_check_date_fields] accepts. *)
Definition valid_dateb (d : date) : bool :=
  (MINYEAR <=? year d) && (year d <=? MAXYEAR)
  && (1 <=? month d) && (month d <=? 12)
  && (1 <=? day d) && (day d <=? _days_in_month (year d) (month d)).

Definition valid_date (d : date) : Prop := valid_dateb d = true.

(** The constructor [date(year, month, day)]. *)
Definition new_date (y m d : Z) : outcome date :=
  if valid_dateb (mkdate y m d) then Returned (mkdate y m d)
  else Raised ValueError.

(** [date.max] *)
Definition date_max : date := mkdate MAXYEAR 12 31.

Definition toordinal (d : date) : Z := _ymd2ord (year d) (month d) (day d).

Definition fromordinal (n : Z) : date :=
  let '(y, m, d) := _ord2ymd n in mkdate y m d.

Definition weekday (d : date) : Z := (toordinal d + 6) mod 7.

(** Dates compare as the triples (year, month, day). *)
Definition date_cmp (a b : date) : comparison :=
  match year a ?= year b with
  | Eq => match month a ?= month b with
          | Eq => day a ?= day b
          | c => c
          end
  | c => c
  end.

Definition date_leb (a b : date) : bool :=
  match date_cmp a b with Gt => false | _ => true end.

Definition date_le (a b : date) : Prop := date_leb a b = true.

(** *** [timedelta], without microseconds: [0 <= td_seconds < 86400] *)

Record timedelta : Type := mktimedelta { td_days : Z; td_seconds : Z }.

(** The normalising constructor; [OverflowError] beyond 999999999 days. *)
Definition new_timedelta (days seconds : Z) : outcome timedelta :=
  let d := days + seconds / 86400 in
  let s := seconds mod 86400 in
  if (Z.abs d >? 999999999) then Raised OverflowError
  else Returned (mktimedelta d s).

Definition timedelta_add (a b : timedelta) : outcome timedelta :=
  new_timedelta (td_days a + td_days b) (td_seconds a + td_seconds b).

(** [date + timedelta] *)
Definition date_add (d : date) (t : timedelta) : outcome date :=
  let o := toordinal d + td_days t in
  if (0 <? o) && (o <=? _MAXORDINAL) then Returned (fromordinal o)
  else Raised OverflowError.

(** *** [datetime] with a fixed-offset [tzinfo], without microseconds *)

Record datetime : Type := mkdatetime {
  dt_date : date;
  hour : Z;
  minute : Z;
  second : Z;
  utcoffset : Z   (* seconds east of UTC *)
}.

(** [datetime.combine(day, time(h, m, s)).replace(tzinfo=timezone(off))] *)
Definition combine (d : date) (h m s off : Z) : datetime :=
  mkdatetime d h m s off.

(** [datetime + timedelta] *)
Definition datetime_add (t : datetime) (other : timedelta) : outcome datetime :=
  delta0 <- new_timedelta (toordinal (dt_date t))
                          (hour t * 3600 + minute t * 60 + second t) ;;
  delta <- timedelta_add delta0 other ;;
  let h := td_seconds delta / 3600 in
  let rem := td_seconds delta mod 3600 in
  let mi := rem / 60 in
  let s := rem mod 60 in
  if (0 <? td_days delta) && (td_days delta <=? _MAXORDINAL)
  then Returned (mkdatetime (fromordinal (td_days delta)) h mi s (utcoffset t))
  else Raised OverflowError.

(** Seconds from midnight of ordinal 0 to the wall-clock reading. *)
Definition local_seconds (t : datetime) : Z :=
  toordinal (dt_date t) * 86400 + hour t * 3600 + minute t * 60 + second t.

(** Seconds from midnight of ordinal 0, UTC: the instant [t] denotes. *)
Definition utc_seconds (t : datetime) : Z := local_seconds t - utcoffset t.

End PyDatetime.

(** ** Python's [calendar] module *)

Module PyCalendar.

Definition isleap (year : Z) : bool :=
  (year mod 4 =? 0) && (negb (year mod 100 =? 0) || (year mod 400 =? 0)).

Definition mdays (month : Z) : Z :=
  match month with
  | 1 => 31 | 2 => 28 | 3 => 31 | 4 => 30 | 5 => 31 | 6 => 30
  | 7 => 31 | 8 => 31 | 9 => 30 | 10 => 31 | 11 => 30 | 12 => 31
  | _ => 0
  end.

(** [calendar.monthrange(year, month)[1]]: the number of days of the month.
    ([IllegalMonthError] is a subclass of [ValueError].) *)
Definition monthrange_ndays (year month : Z) : outcome Z :=
  if (1 <=? month) && (month <=? 12)
  then Returned (mdays month + (if (month =? 2) && isleap year then 1 else 0))
  else Raised ValueError.

End PyCalendar.

(** ** Python's [random] module

    The generator is an abstract state threaded through the calls.  All
    that is assumed of it is the documented range of its draws:
    [randint(a, b)] lies in [[a, b]], and [choices] picks a member of the
    population.  The floating-point arithmetic by which [choices] turns the
    weights into an index is not modelled, [draw_index] stands for it; what
    is modelled of it is its one failure, the conversion of the total
    weight to a float. *)

Module PyRandom.

(** The least integer that no longer converts to a float: the largest
    float is [2^1024 - 2^971], and an integer halfway between it and
    [2^1024], or beyond, rounds to [2^1024]. *)
Definition FLOAT_LIMIT : Z := 2 ^ 1024 - 2 ^ 970.

(** Whether [n + 0.0] raises [OverflowError], for an [int] [n]. *)
Definition float_overflows (n : Z) : bool := FLOAT_LIMIT <=? Z.abs n.

Class RandomSource : Type := {
  rng : Type;
  draw_int : Z -> Z -> rng -> Z * rng;
  draw_index : list Z -> rng -> nat * rng;
  draw_int_range :
    forall a b g, a <= b -> a <= fst (draw_int a b g) <= b;
  draw_index_range :
    forall w g, w <> [] -> (fst (draw_index w g) < List.length w)%nat
}.

Section Random.
Context {RS : RandomSource}.

(** [random.randint(a, b)]: [ValueError] on an empty range. *)
Definition randint (a b : Z) (g : rng) : outcome (Z * rng) :=
  if a <=? b then Returned (draw_int a b g) else Raised ValueError.

Definition total_weight (weights : list Z) : Z := fold_right Z.add 0 weights.

(** [random.choices(population, weights=weights, k=1)[0]]: the weights
    are accumulated, their number is compared with the population's, the
    last cumulative weight is converted to a float ([cum_weights[-1] + 0.0])
    and must be positive. *)
Definition choices (population : list string) (weights : list Z) (g : rng)
  : outcome (string * rng) :=
  if negb (Nat.eqb (List.length weights) (List.length population)) then Raised ValueError
  else
    match population with
    | [] => Raised IndexError
    | _ :: _ =>
        let total := total_weight weights in
        if float_overflows total then Raised OverflowError
        else if total <=? 0 then Raised ValueError
        else
          let '(i, g') := draw_index weights g in
          Returned (nth i population EmptyString, g')
    end.

End Random.
End PyRandom.

(** ** [timesheet.py] *)

Module Timesheet.
Import PyDatetime PyCalendar PyRandom.

Record Issue : Type := mkIssue {
  key : string;
  summary : string;
  weight : Z
}.

(** The worklog payload posted to the tracker.  The source stores under
    ["started"] the text [current_dt.strftime("%Y-%m-%dT%H:%M:%S.000%z")];
    the record keeps the [datetime] that text renders. *)
Record payload : Type := mkpayload {
  comment : string;
  started : datetime;
  timeSpentSeconds : Z
}.

Definition subtract_one_month (today : date) : outcome date :=
  let y := year today in
  let m := month today - 1 in
  let '(m, y) := if m =? 0 then (12, y - 1) else (m, y) in
  ndays <- monthrange_ndays y m ;;
  let d := Z.min (day today) ndays in
  new_date y m d.

(** The [while current <= end_date] loop of [working_days]; one unit of
    fuel per iteration. *)
Fixpoint working_days_loop (fuel : nat) (current end_date : date)
    (days : list date) : outcome (list date) :=
  if date_leb current end_date then
    match fuel with
    | O => OutOfFuel
    | S fuel' =>
        let days := if weekday current <? 5 then days ++ [current] else days in
        one_day <- new_timedelta 1 0 ;;
        current <- date_add current one_day ;;
        working_days_loop fuel' current end_date days
    end
  else Returned days.

Definition working_days (fuel : nat) (start_date end_date : date)
  : outcome (list date) :=
  working_days_loop fuel start_date end_date [].

Section Allocator.
Context {RS : RandomSource}.

Definition hour_seconds : Z := 3600.

Record loop_state : Type := mkstate {
  remaining_seconds : Z;
  current_dt : datetime;
  payloads : list (string * payload);
  gen : rng
}.

(** One iteration of the [while remaining_seconds >= hour_seconds] loop. *)
Definition loop_body (issue_keys : list string) (issue_weights : list Z)
    (max_chunk_seconds : Z) (st : loop_state) : outcome loop_state :=
  let max_allowed := Z.min max_chunk_seconds (remaining_seconds st) in
  let max_hours := max_allowed / hour_seconds in
  '(chunk_hours, g1) <- randint 1 max_hours (gen st) ;;
  let chunk_seconds := chunk_hours * hour_seconds in
  '(issue_key, g2) <- choices issue_keys issue_weights g1 ;;
  let p := mkpayload ("Work on task " ++ issue_key) (current_dt st) chunk_seconds in
  step <- new_timedelta 0 chunk_seconds ;;
  next_dt <- datetime_add (current_dt st) step ;;
  Returned (mkstate (remaining_seconds st - chunk_seconds) next_dt
                    (payloads st ++ [(issue_key, p)]) g2).

Fixpoint while_loop (fuel : nat) (issue_keys : list string)
    (issue_weights : list Z) (max_chunk_seconds : Z) (st : loop_state)
  : outcome loop_state :=
  if hour_seconds <=? remaining_seconds st then
    match fuel with
    | O => OutOfFuel
    | S fuel' =>
        st' <- loop_body issue_keys issue_weights max_chunk_seconds st ;;
        while_loop fuel' issue_keys issue_weights max_chunk_seconds st'
    end
  else Returned st.

(** [build_day_payloads]; the generator's final state is returned with the
    list, for the next call. *)
Definition build_day_payloads (fuel : nat) (day : date) (issues : list Issue)
    (remaining : Z) (max_task_hours : Z) (g : rng)
  : outcome (list (string * payload) * rng) :=
  let max_chunk_seconds := max_task_hours * hour_seconds in
  let issue_keys := map key issues in
  let issue_weights := map weight issues in
  let start_dt := combine day 10 0 0 (3 * 3600) in
  st <- while_loop fuel issue_keys issue_weights max_chunk_seconds
                   (mkstate remaining start_dt [] g) ;;
  Returned (payloads st, gen st).

(** *** The per-day body of the fill loop of [main] *)

Record counters : Type := mkcounters {
  created : Z;
  skipped_days : Z;
  errors : Z
}.

(** The [for issue_key, payload in payloads] loop: [post] is
    [post_worklog] against the tracker, which returns or raises. *)
Definition submit (dry_run : bool) (post : string -> payload -> outcome unit)
    (c : counters) (entry : string * payload) : outcome counters :=
  if dry_run
  then Returned (mkcounters (created c + 1) (skipped_days c) (errors c))
  else
    match post (fst entry) (snd entry) with
    | Returned _ => Returned (mkcounters (created c + 1) (skipped_days c) (errors c))
    | Raised RuntimeError =>
        Returned (mkcounters (created c) (skipped_days c) (errors c + 1))
    | Raised e => Raised e
    | OutOfFuel => OutOfFuel
    end.

Fixpoint submit_all (dry_run : bool) (post : string -> payload -> outcome unit)
    (c : counters) (entries : list (string * payload)) : outcome counters :=
  match entries with
  | [] => Returned c
  | e :: rest => c' <- submit dry_run post c e ;; submit_all dry_run post c' rest
  end.

(** The body of [for day in days]: [logged] is the outcome of
    [calculate_logged_seconds_for_day] for that day.  Returned with the
    counters and the generator: the worklog entries generated for the day. *)
Definition fill_day (fuel : nat) (dry_run : bool)
    (post : string -> payload -> outcome unit) (logged : outcome Z)
    (day : date) (weighted_issues : list Issue)
    (daily_hours max_task_hours : Z) (c : counters) (g : rng)
  : outcome (counters * rng * list (string * payload)) :=
  match logged with
  | Raised RuntimeError =>
      Returned (mkcounters (created c) (skipped_days c) (errors c + 1), g, [])
  | Raised e => Raised e
  | OutOfFuel => OutOfFuel
  | Returned logged_seconds =>
      let target_seconds := daily_hours * 3600 in
      let remaining := target_seconds - logged_seconds in
      if remaining <? 3600
      then Returned (mkcounters (created c) (skipped_days c + 1) (errors c), g, [])
      else
        '(ps, g') <- build_day_payloads fuel day weighted_issues remaining
                                        max_task_hours g ;;
        match ps with
        | [] => Returned (mkcounters (created c) (skipped_days c + 1) (errors c),
                          g', [])
        | _ :: _ =>
            c' <- submit_all dry_run post c ps ;;
            Returned (c', g', ps)
        end
  end.

End Allocator.
End Timesheet.

(** ** Vocabulary of the statements *)

Module Spec.
Import PyDatetime PyRandom Timesheet.

Definition year_length (y : Z) : Z := if _is_leap y then 366 else 365.

(** The month and the day of the [n]-th day (from 0) of a year, as the
    second half of [_ord2ymd] finds them. *)
Definition month_part (leapyear : bool) (n : Z) : Z * Z :=
  let month := Z.shiftr (n + 50) 5 in
  let preceding :=
    _DAYS_BEFORE_MONTH month + (if (2 <? month) && leapyear then 1 else 0) in
  let '(month, preceding) :=
    if n <? preceding
    then (month - 1,
          preceding - (_DAYS_IN_MONTH (month - 1)
                       + (if (month - 1 =? 2) && leapyear then 1 else 0)))
    else (month, preceding) in
  (month, n - preceding + 1).

Definition month_part_ok (leapyear : bool) (n : Z) : bool :=
  let '(m, d) := month_part leapyear n in
  (1 <=? m) && (m <=? 12) && (1 <=? d)
  && (d <=? (if (m =? 2) && leapyear then 29 else _DAYS_IN_MONTH m))
  && (_DAYS_BEFORE_MONTH m + (if (2 <? m) && leapyear then 1 else 0) + d =? n + 1).

Fixpoint all_below (k : nat) (p : Z -> bool) : bool :=
  match k with
  | O => true
  | S k' => p (Z.of_nat k') && all_below k' p
  end.

Definition date_lt (a b : date) : Prop := date_cmp a b = Lt.

(** A [datetime] object: a valid date and a time of day. *)
Definition valid_datetime (t : datetime) : Prop :=
  valid_date (dt_date t)
  /\ 0 <= hour t < 24 /\ 0 <= minute t < 60 /\ 0 <= second t < 60.

(** One past the last second a [datetime] can hold (the end of
    9999-12-31), counted like [local_seconds]. *)
Definition END_OF_TIME : Z := (_MAXORDINAL + 1) * 86400.

(** [t + timedelta(seconds=c)], as [build_day_payloads] computes it. *)
Definition advance (t : datetime) (c : Z) : outcome datetime :=
  step <- new_timedelta 0 c ;; datetime_add t step.

(** The dates of the ordinals [a], [a + 1], ..., [n] of them. *)
Fixpoint dates_from (a : Z) (n : nat) : list date :=
  match n with
  | O => []
  | S n' => fromordinal a :: dates_from (a + 1) n'
  end.

(** The Monday-to-Friday dates from [start_date] to [end_date] inclusive,
    in calendar order. *)
Definition weekdays_between (start_date end_date : date) : list date :=
  filter (fun d => weekday d <? 5)
         (dates_from (toordinal start_date)
                     (Z.to_nat (toordinal end_date - toordinal start_date + 1))).

Definition duration (e : string * payload) : Z := timeSpentSeconds (snd e).

Definition total_duration (ps : list (string * payload)) : Z :=
  fold_right (fun e acc => duration e + acc) 0 ps.

(** A positive whole number of hours, at most [max_chunk_seconds]. *)
Definition entry_ok (max_chunk_seconds : Z) (e : string * payload) : Prop :=
  0 < duration e /\ duration e mod 3600 = 0 /\ duration e <= max_chunk_seconds.

(** The instants (UTC seconds) at which the entries start. *)
Definition starts (ps : list (string * payload)) : list Z :=
  map (fun e => utc_seconds (started (snd e))) ps.

(** The entries start one after the other from the wall-clock second [s],
    each where its predecessor ends, all at the UTC offset [off]. *)
Fixpoint tiles (s off : Z) (ps : list (string * payload)) : Prop :=
  match ps with
  | [] => True
  | e :: rest =>
      local_seconds (started (snd e)) = s
      /\ utcoffset (started (snd e)) = off
      /\ tiles (s + duration e) off rest
  end.

Definition labelled (keys : list string) (e : string * payload) : Prop :=
  In (fst e) keys /\ comment (snd e) = ("Work on task " ++ fst e)%string.

(** The preconditions of the allocator. *)
Definition preconditions (issues : list Issue) (remaining max_task_hours : Z)
  : Prop :=
  0 <= remaining /\ 1 <= max_task_hours /\ issues <> []
  /\ Forall (fun i => 0 < weight i) issues.

(** The clock, started at 10:00 of [day] and advanced by the whole hours of
    [remaining], stays within what a [datetime] can hold. *)
Definition clock_in_range (day : date) (remaining : Z) : Prop :=
  local_seconds (combine day 10 0 0 (3 * 3600)) + 3600 * (remaining / 3600)
  < END_OF_TIME.

(** The weights total within what [random.choices] can convert to a
    float. *)
Definition weights_in_float_range (issues : list Issue) : Prop :=
  Z.abs (total_weight (map weight issues)) < FLOAT_LIMIT.

(** One unit of fuel for each whole hour of the budget. *)
Definition enough_fuel (remaining : Z) (fuel : nat) : Prop :=
  (Z.to_nat (remaining / 3600) <= fuel)%nat.

Section Invariant.
Context {RS : RandomSource}.

(** The invariant of the allocator's loop, relative to the budget [R] and
    to the reading [dt0] the clock starts from. *)
Definition invariant (issue_keys : list string) (max_chunk_seconds : Z)
    (R : Z) (dt0 : datetime) (st : loop_state) : Prop :=
  0 <= remaining_seconds st
  /\ remaining_seconds st + total_duration (payloads st) = R
  /\ valid_datetime (current_dt st)
  /\ local_seconds (current_dt st)
     = local_seconds dt0 + total_duration (payloads st)
  /\ utcoffset (current_dt st) = utcoffset dt0
  /\ Forall (entry_ok max_chunk_seconds) (payloads st)
  /\ Forall (labelled issue_keys) (payloads st)
  /\ tiles (local_seconds dt0) (utcoffset dt0) (payloads st)
  /\ match payloads st with
     | [] => current_dt st = dt0
     | e :: _ => started (snd e) = dt0
     end.

End Invariant.
End Spec.

(** ** Two random sources, and sample inputs *)

Module Sources.
Import PyDatetime PyRandom Timesheet.

(** Always the largest number of hours, always the first issue. *)
Definition greedy_source : RandomSource.
Proof.
  refine {| rng := unit;
            draw_int := fun a b g => (Z.max a b, g);
            draw_index := fun w g => (O, g) |}.
  - intros a b g Hab. cbn [fst]. lia.
  - intros w g Hw. cbn [fst]. destruct w; [contradiction | cbn; lia].
Defined.

(** Draws read off a tape of raw numbers, reduced into the range asked
    for; the low end of the range once the tape is used up. *)
Definition tape_source : RandomSource.
Proof.
  refine {| rng := list Z;
            draw_int := fun a b g =>
              match g with
              | [] => (a, [])
              | x :: g' => (a + x mod (b - a + 1), g')
              end;
            draw_index := fun w g =>
              match g with
              | [] => (O, [])
              | x :: g' => (Z.to_nat (x mod Z.of_nat (List.length w)), g')
              end |}.
  - intros a b g Hab. destruct g as [| x g']; cbn [fst]; [lia |].
    pose proof (Z.mod_pos_bound x (b - a + 1)). lia.
  - intros w g Hw. destruct w as [| w0 w]; [contradiction |].
    destruct g as [| x g']; cbn [fst]; [cbn; lia |].
    pose proof (Z.mod_pos_bound x (Z.of_nat (List.length (w0 :: w)))) as Hb.
    cbn [List.length] in *. lia.
Defined.

Definition monday : date := mkdate 2025 1 6.
Definition sunday : date := mkdate 2025 1 12.
Definition last_day : date := date_max.

Definition two_issues : list Issue :=
  [mkIssue "PRJ-1" "first task" 5; mkIssue "PRJ-2" "second task" 1].

(** No tracker behind it: every post succeeds. *)
Definition post_ok (issue_key : string) (p : payload) : outcome unit :=
  Returned tt.

End Sources.

(** ** Python's [str]

    A [str] is its sequence of code points, so that [len], the slices and
    [strip] count characters as Python does. *)

Module PyStr.

Definition str : Type := list N.

(** An ASCII literal. *)
Definition lit (s : string) : str :=
  map Ascii.N_of_ascii (list_ascii_of_string s).

(** The code points for which [str.isspace] holds, those [str.strip()]
    removes. *)
Definition whitespace : list N :=
  [9; 10; 11; 12; 13; 28; 29; 30; 31; 32; 133; 160; 5760;
   8192; 8193; 8194; 8195; 8196; 8197; 8198; 8199; 8200; 8201; 8202;
   8232; 8233; 8239; 8287; 12288]%N.

Definition member (c : N) (chars : list N) : bool := existsb (N.eqb c) chars.

Definition isspace (c : N) : bool := member c whitespace.

Fixpoint lstrip (p : N -> bool) (s : str) : str :=
  match s with
  | [] => []
  | c :: rest => if p c then lstrip p rest else s
  end.

Definition rstrip (p : N -> bool) (s : str) : str := rev (lstrip p (rev s)).

(** [s.strip()] *)
Definition strip (s : str) : str := rstrip isspace (lstrip isspace s).

(** [s.strip(chars)] *)
Definition strip_chars (chars : str) (s : str) : str :=
  rstrip (fun c => member c chars) (lstrip (fun c => member c chars) s).

Fixpoint eqb (a b : str) : bool :=
  match a, b with
  | [], [] => true
  | x :: a', y :: b' => N.eqb x y && eqb a' b'
  | _, _ => false
  end.

(** [s.startswith(prefix)] *)
Fixpoint startswith (prefix s : str) : bool :=
  match prefix, s with
  | [], _ => true
  | x :: prefix', y :: s' => N.eqb x y && startswith prefix' s'
  | _ :: _, [] => false
  end.

(** [s.split(sep, 1)] for a one-character [sep] that occurs in [s]: what
    stands before its first occurrence, and what stands after. *)
Fixpoint split_once (sep : N) (s : str) : str * str :=
  match s with
  | [] => ([], [])
  | c :: rest =>
      if N.eqb c sep then ([], rest)
      else let '(before, after) := split_once sep rest in (c :: before, after)
  end.

End PyStr.

(** ** The settings: [load_env_file] and [parse_positive_int_env] *)

Module Env.
Import PyStr.

(** [os.environ] *)
Definition environ : Type := str -> option str.

(** [os.environ[key] = value], which refuses an embedded null. *)
Definition setitem (env : environ) (key value : str) : outcome environ :=
  if member 0%N key || member 0%N value then Raised ValueError
  else Returned (fun k => if eqb k key then Some value else env k).

(** The [for raw_line in env_file] loop. *)
Fixpoint load_lines (lines : list str) (env : environ) : outcome environ :=
  match lines with
  | [] => Returned env
  | raw_line :: rest =>
      let line := strip raw_line in
      if eqb line [] || startswith (lit "#") line || negb (member 61%N line)
      then load_lines rest env
      else
        let '(key, value) := split_once 61%N line in
        let key := strip key in
        let value := strip_chars [39%N] (strip_chars [34%N] (strip value)) in
        if negb (eqb key [])
           && match env key with None => true | Some _ => false end
        then env' <- setitem env key value ;; load_lines rest env'
        else load_lines rest env
  end.

(** [load_env_file]: [file] is the decoded lines of the file, [None] when
    [open] raises [FileNotFoundError]. *)
Definition load_env_file (file : option (list str)) (env : environ)
  : outcome environ :=
  match file with
  | None => Returned env
  | Some lines => load_lines lines env
  end.

(** [parse_positive_int_env]: [int_of] is [int] on a text, [None] for its
    [ValueError]. *)
Definition parse_positive_int_env (int_of : str -> option Z) (env : environ)
    (var_name : str) (fallback : Z) : Z :=
  let raw_value :=
    strip (match env var_name with
           | Some (c :: v) => c :: v
           | _ => []
           end) in
  match raw_value with
  | [] => fallback
  | _ :: _ =>
      match int_of raw_value with
      | None => fallback
      | Some parsed => if parsed <? 1 then fallback else parsed
      end
  end.

Definition DEFAULT_HOURS (int_of : str -> option Z) (env : environ) : Z :=
  parse_positive_int_env int_of env (lit "DEFAULT_HOURS") 4.

Definition DEFAULT_MAX_DURATION (int_of : str -> option Z) (env : environ) : Z :=
  parse_positive_int_env int_of env (lit "DEFAULT_MAX_DURATION") 2.

End Env.

(** ** The prompts *)

Module Console.
Import PyStr Timesheet.

(** What a prompt yields from the lines still to be typed: an answer and
    the lines left, or the [EOFError] of [input] when none is left, or the
    [ValueError] of [int]. *)
Inductive told (A : Type) : Type :=
| Told (a : A) (rest : list str)
| RaisedEOFError
| RaisedValueError.

Arguments Told {A} a rest.
Arguments RaisedEOFError {A}.
Arguments RaisedValueError {A}.

(** [ask_weight]: the answers ["1"] to ["5"] are the code points 49 to 53. *)
Fixpoint ask_weight (inputs : list str) : told Z :=
  match inputs with
  | [] => RaisedEOFError
  | line :: rest =>
      match strip line with
      | [c] =>
          if (49 <=? c)%N && (c <=? 53)%N then Told (Z.of_N c - 48) rest
          else ask_weight rest
      | _ => ask_weight rest
      end
  end.

(** [ask_int]: [isdigit] is [str.isdigit], [int_of] is [int]. *)
Fixpoint ask_int (isdigit : str -> bool) (int_of : str -> option Z)
    (inputs : list str) (default min_value : Z) : told Z :=
  match inputs with
  | [] => RaisedEOFError
  | line :: rest =>
      match strip line with
      | [] => Told default rest
      | value =>
          if isdigit value then
            match int_of value with
            | None => RaisedValueError
            | Some n =>
                if min_value <=? n then Told n rest
                else ask_int isdigit int_of rest default min_value
            end
          else ask_int isdigit int_of rest default min_value
      end
  end.

(** The loop of [main] that asks a weight for each row. *)
Fixpoint weigh_issues (issue_rows : list (string * string))
    (weighted_issues : list Issue) (inputs : list str) : told (list Issue) :=
  match issue_rows with
  | [] => Told weighted_issues inputs
  | (key, summary) :: rows =>
      match ask_weight inputs with
      | Told weight rest =>
          weigh_issues rows (weighted_issues ++ [mkIssue key summary weight]) rest
      | RaisedEOFError => RaisedEOFError
      | RaisedValueError => RaisedValueError
      end
  end.

(** Step 3 of [main], the daily workload settings: the hours per day and
    the maximum per entry, or the exit code 1. *)
Definition workload_settings (isdigit : str -> bool)
    (int_of : str -> option Z) (use_defaults : bool)
    (default_hours default_max_duration : Z) (inputs : list str)
  : told (Z * Z + Z) :=
  let check (daily_hours max_task_hours : Z) (rest : list str) :=
    if daily_hours <? max_task_hours then Told (inr 1) rest
    else Told (inl (daily_hours, max_task_hours)) rest in
  if use_defaults then check default_hours default_max_duration inputs
  else
    match ask_int isdigit int_of inputs default_hours 1 with
    | Told daily_hours rest =>
        match ask_int isdigit int_of rest default_max_duration 1 with
        | Told max_task_hours rest' => check daily_hours max_task_hours rest'
        | RaisedEOFError => RaisedEOFError
        | RaisedValueError => RaisedValueError
        end
    | RaisedEOFError => RaisedEOFError
    | RaisedValueError => RaisedValueError
    end.

End Console.

(** ** The table of open issues *)

Module Table.
Import PyStr.

(** [str(n)] for [n >= 0]: the decimal digits; [fuel] bounds their number. *)
Fixpoint digits (fuel : nat) (n : Z) : str :=
  match fuel with
  | O => []
  | S fuel' =>
      if n <? 10 then [Z.to_N (48 + n)]
      else digits fuel' (n / 10) ++ [Z.to_N (48 + n mod 10)]
  end.

Definition str_of_nat (n : nat) : str := digits (S n) (Z.of_nat n).

(** [s.ljust(width)] *)
Definition ljust (width : nat) (s : str) : str :=
  s ++ repeat 32%N (width - List.length s).

(** ['-' * n] *)
Definition dashes (n : nat) : str := repeat 45%N n.

Definition summary_width : nat := 90.

(** [max(len(key) for key, _ in issues)], of a non-empty list. *)
Definition max_key_len (issues : list (str * str)) : nat :=
  fold_right (fun row m => Nat.max (List.length (fst row)) m) O issues.

Definition row_line (index_width key_width : nat)
    (index key summary : str) : str :=
  lit "| " ++ ljust index_width index ++ lit " | " ++ ljust key_width key
  ++ lit " | " ++ ljust summary_width summary ++ lit " |".

(** The [for index, (key, summary) in enumerate(issues, start=1)] loop:
    the lines it prints. *)
Fixpoint row_lines (index_width key_width : nat) (index : nat)
    (issues : list (str * str)) : list str :=
  match issues with
  | [] => []
  | (key, summary) :: rest =>
      let summary_value :=
        if (List.length summary <=? summary_width)%nat then summary
        else firstn (summary_width - 3) summary ++ lit "..." in
      row_line index_width key_width (str_of_nat index) key summary_value
      :: row_lines index_width key_width (S index) rest
  end.

(** [print_issues_table]: the texts it prints, one per [print]. *)
Definition print_issues_table (issues : list (str * str)) : list str :=
  match issues with
  | [] => []
  | _ :: _ =>
      let index_width :=
        Nat.max (List.length (lit "#"))
                (List.length (str_of_nat (List.length issues))) in
      let key_width :=
        Nat.max (List.length (lit "Issue Key")) (max_key_len issues) in
      let separator :=
        lit "+-" ++ dashes index_width ++ lit "-+-" ++ dashes key_width
        ++ lit "-+-" ++ dashes summary_width ++ lit "-+" in
      [(10%N :: lit "Open issues:"); separator;
       row_line index_width key_width (lit "#") (lit "Issue Key")
                (lit "Summary");
       separator]
      ++ row_lines index_width key_width 1 issues
      ++ [separator]
  end.

End Table.

(** ** The tracker client: pagination and the day's logged time *)

Module Tracker.
Import PyDatetime.

(** The parsed body of a paged response, as the fetchers read it with
    [payload.get(name, default)]: each field present or absent, [p_items]
    being ["issues"] or ["worklogs"].  (A field present with a value of
    another JSON type is outside the model.) *)
Record page (A : Type) : Type := mkpage {
  p_items : option (list A);
  p_startAt : option Z;
  p_maxResults : option Z;
  p_total : option Z
}.

Arguments mkpage {A} _ _ _ _.
Arguments p_items {A} _.
Arguments p_startAt {A} _.
Arguments p_maxResults {A} _.
Arguments p_total {A} _.

(** [d.get(name, default)] *)
Definition get {A : Type} (field : option A) (default : A) : A :=
  match field with
  | Some v => v
  | None => default
  end.

Definition len {A : Type} (l : list A) : Z := Z.of_nat (List.length l).

(** [fetch_open_issues]: [request startAt] is [request_json] for the search
    with that ["startAt"]; one unit of fuel per request. *)
Fixpoint fetch_open_issues_loop {A : Type} (fuel : nat)
    (request : Z -> outcome (page A)) (startAt : Z) (issues : list A)
  : outcome (list A) :=
  match fuel with
  | O => OutOfFuel
  | S fuel' =>
      payload <- request startAt ;;
      let page_items := get (p_items payload) [] in
      let issues := issues ++ page_items in
      let start_at := get (p_startAt payload) 0 in
      let max_results := get (p_maxResults payload) (len page_items) in
      let total := get (p_total payload) (len page_items) in
      if total <=? start_at + max_results then Returned issues
      else fetch_open_issues_loop fuel' request (start_at + max_results) issues
  end.

Definition fetch_open_issues {A : Type} (fuel : nat)
    (request : Z -> outcome (page A)) : outcome (list A) :=
  fetch_open_issues_loop fuel request 0 [].

(** An issue of a search result, of which only ["key"] is read. *)
Record found_issue : Type := mkfound { found_key : option string }.

(** [for issue in payload.get("issues", []): ... keys.append(key)] *)
Fixpoint append_keys (keys : list string) (items : list found_issue)
  : list string :=
  match items with
  | [] => keys
  | issue :: rest =>
      match found_key issue with
      | Some key =>
          if (key =? "")%string then append_keys keys rest
          else append_keys (keys ++ [key]) rest
      | None => append_keys keys rest
      end
  end.

Fixpoint fetch_day_issue_keys_loop (fuel : nat)
    (request : Z -> outcome (page found_issue)) (startAt : Z)
    (keys : list string) : outcome (list string) :=
  match fuel with
  | O => OutOfFuel
  | S fuel' =>
      payload <- request startAt ;;
      let keys := append_keys keys (get (p_items payload) []) in
      let start_at := get (p_startAt payload) 0 in
      let max_results := get (p_maxResults payload) 0 in
      let total := get (p_total payload) (len keys) in
      if total <=? start_at + max_results then Returned keys
      else fetch_day_issue_keys_loop fuel' request (start_at + max_results) keys
  end.

Definition fetch_day_issue_keys (fuel : nat)
    (request : Z -> outcome (page found_issue)) : outcome (list string) :=
  fetch_day_issue_keys_loop fuel request 0 [].


Fixpoint fetch_issue_worklogs_loop {A : Type} (fuel : nat)
    (request : Z -> outcome (page A)) (start_at : Z) (all_logs : list A)
  : outcome (list A) :=
  match fuel with
  | O => OutOfFuel
  | S fuel' =>
      payload <- request start_at ;;
      let logs := get (p_items payload) [] in
      let all_logs := all_logs ++ logs in
      let total := get (p_total payload) (len all_logs) in
      let returned := get (p_maxResults payload) (len logs) in
      if total <=? start_at + returned then Returned all_logs
      else fetch_issue_worklogs_loop fuel' request (start_at + returned) all_logs
  end.

Definition fetch_issue_worklogs {A : Type} (fuel : nat)
    (request : Z -> outcome (page A)) : outcome (list A) :=
  fetch_issue_worklogs_loop fuel request 0 [].

(** A worklog of the tracker: ["started"] absent or a text,
    ["timeSpentSeconds"] absent (or null) or an integer. *)
Record worklog : Type := mkworklog {
  wl_started : option string;
  wl_timeSpentSeconds : option Z
}.

(** The tracker as the day usage calculator sees it: the search for the
    issues with worklogs of a day (given as [day.isoformat()]) and the
    worklogs of an issue, both paged by ["startAt"]. *)
Record tracker : Type := mktracker {
  search_day : string -> Z -> outcome (page found_issue);
  issue_worklogs : string -> Z -> outcome (page worklog)
}.

Definition digit (n : Z) : string :=
  String (Ascii.ascii_of_N (Z.to_N (48 + n mod 10))) EmptyString.

(** [date.isoformat()]: ["%04d-%02d-%02d"]. *)
Definition isoformat (d : date) : string :=
  (digit (year d / 1000) ++ digit (year d / 100) ++ digit (year d / 10)
   ++ digit (year d) ++ "-" ++ digit (month d / 10) ++ digit (month d)
   ++ "-" ++ digit (day d / 10) ++ digit (day d))%string.

Definition date_eqb (a b : date) : bool :=
  match date_cmp a b with Eq => true | _ => false end.

(** The [for worklog in worklogs] loop: [strptime] is
    [parse_started_datetime], [None] for its [ValueError]. *)
Fixpoint add_worklogs (strptime : string -> option datetime) (day : date)
    (worklogs : list worklog) (total_seconds : Z) : Z :=
  match worklogs with
  | [] => total_seconds
  | w :: rest =>
      let seconds := get (wl_timeSpentSeconds w) 0 in
      match wl_started w with
      | None => add_worklogs strptime day rest total_seconds
      | Some started =>
          if (started =? "")%string || (seconds <=? 0)
          then add_worklogs strptime day rest total_seconds
          else
            match strptime started with
            | None => add_worklogs strptime day rest total_seconds
            | Some started_dt =>
                if date_eqb (dt_date started_dt) day
                then add_worklogs strptime day rest (total_seconds + seconds)
                else add_worklogs strptime day rest total_seconds
            end
      end
  end.

(** The [for key in keys] loop, [seen] being the set of keys met. *)
Fixpoint add_issues (fuel : nat) (tr : tracker)
    (strptime : string -> option datetime) (day : date)
    (keys : list string) (seen : list string) (total_seconds : Z)
  : outcome Z :=
  match keys with
  | [] => Returned total_seconds
  | key :: rest =>
      if existsb (String.eqb key) seen
      then add_issues fuel tr strptime day rest seen total_seconds
      else
        let seen := key :: seen in
        match fetch_issue_worklogs fuel (issue_worklogs tr key) with
        | Raised RuntimeError =>
            add_issues fuel tr strptime day rest seen total_seconds
        | Raised e => Raised e
        | OutOfFuel => OutOfFuel
        | Returned worklogs =>
            add_issues fuel tr strptime day rest seen
                       (add_worklogs strptime day worklogs total_seconds)
        end
  end.

Definition calculate_logged_seconds_for_day (fuel : nat) (tr : tracker)
    (strptime : string -> option datetime) (day : date) : outcome Z :=
  let day_iso := isoformat day in
  keys <- fetch_day_issue_keys fuel (search_day tr day_iso) ;;
  match keys with
  | [] => Returned 0
  | _ :: _ => add_issues fuel tr strptime day keys [] 0
  end.

End Tracker.

(** ** Vocabulary of the tracker's properties *)

Module TrackerSpec.
Import PyDatetime Tracker.

(** A server that holds the list [all] and serves it in pages of at most
    [L] items: asked for ["startAt"] [s], it answers with the items from
    position [s], and echoes [s], its page size and the total. *)
Definition serves {A : Type} (all : list A) (L : Z)
    (request : Z -> outcome (page A)) : Prop :=
  forall s, 0 <= s ->
    request s
    = Returned (mkpage (Some (firstn (Z.to_nat L) (skipn (Z.to_nat s) all)))
                       (Some s) (Some L) (Some (len all))).

(** The same, of a server that may echo any ["startAt"] or none. *)
Definition serves_slices {A : Type} (all : list A) (L : Z)
    (request : Z -> outcome (page A)) : Prop :=
  forall s, 0 <= s ->
    exists echo,
      request s
      = Returned (mkpage (Some (firstn (Z.to_nat L) (skipn (Z.to_nat s) all)))
                         echo (Some L) (Some (len all))).


(** The non-empty keys of a list of found issues, in order. *)
Definition present_keys (items : list found_issue) : list string :=
  flat_map (fun issue =>
              match found_key issue with
              | Some key => if (key =? "")%string then [] else [key]
              | None => []
              end) items.

(** A worklog counts for [day]: it has a start text that parses to a
    moment of that day, and a positive duration. *)
Definition counts (strptime : string -> option datetime) (day : date)
    (w : worklog) : bool :=
  match wl_started w with
  | None => false
  | Some started =>
      negb (started =? "")%string
      && (0 <? get (wl_timeSpentSeconds w) 0)
      && match strptime started with
         | Some started_dt => date_eqb (dt_date started_dt) day
         | None => false
         end
  end.

Definition zsum (l : list Z) : Z := fold_right Z.add 0 l.

(** The seconds of the worklogs that count for [day]. *)
Definition day_seconds (strptime : string -> option datetime) (day : date)
    (worklogs : list worklog) : Z :=
  zsum (map (fun w => get (wl_timeSpentSeconds w) 0)
           (filter (counts strptime day) worklogs)).

(** What an issue adds to the day: the seconds of its worklogs, or nothing
    when they cannot be fetched. *)
Definition issue_seconds (fuel : nat) (tr : tracker)
    (strptime : string -> option datetime) (day : date) (key : string) : Z :=
  match fetch_issue_worklogs fuel (issue_worklogs tr key) with
  | Returned worklogs => day_seconds strptime day worklogs
  | _ => 0
  end.

(** The keys not met yet. *)
Definition unseen (seen : list string) (key : string) : bool :=
  negb (existsb (String.eqb key) seen).

(** Every fetch of worklogs returns or raises [RuntimeError]. *)
Definition fetches_settle (fuel : nat) (tr : tracker) (keys : list string)
  : Prop :=
  forall key, In key keys ->
    (exists worklogs,
        fetch_issue_worklogs fuel (issue_worklogs tr key) = Returned worklogs)
    \/ fetch_issue_worklogs fuel (issue_worklogs tr key) = Raised RuntimeError.

End TrackerSpec.

(** ** Vocabulary of the settings' and the prompts' properties *)

Module ConsoleSpec.
Import PyStr Env Console.

(** The variable a line of the settings file sets and its value, if the
    line sets one. *)
Definition assignment (raw_line : str) : option (str * str) :=
  let line := strip raw_line in
  if eqb line [] || startswith (lit "#") line || negb (member 61%N line)
  then None
  else
    let '(key, value) := split_once 61%N line in
    if eqb (strip key) [] then None
    else Some (strip key,
               strip_chars [39%N] (strip_chars [34%N] (strip value))).

(** The value the first line of [lines] that sets [k] gives it. *)
Fixpoint file_value (lines : list str) (k : str) : option str :=
  match lines with
  | [] => None
  | raw_line :: rest =>
      match assignment raw_line with
      | Some (key, value) =>
          if eqb key k then Some value else file_value rest k
      | None => file_value rest k
      end
  end.

(** A line that answers [ask_weight]: one of ["1"] to ["5"], spaces
    around it apart. *)
Definition answers_weight (line : str) : bool :=
  match strip line with
  | [c] => (49 <=? c)%N && (c <=? 53)%N
  | _ => false
  end.

End ConsoleSpec.

(** ** Vocabulary of the fill loop's properties *)

Module DaySpec.
Import Timesheet.

(** The entries a post accepts. *)
Definition accepted (post : string -> payload -> outcome unit)
    (ps : list (string * payload)) : list (string * payload) :=
  filter (fun e => match post (fst e) (snd e) with
                   | Returned _ => true
                   | _ => false
                   end) ps.

End DaySpec.

(** ** Vocabulary of the table's properties *)

Module TableSpec.
Import PyStr.

(** What a row shows of a summary: the summary itself when it has at most
    90 characters, else its first 87 characters and three dots. *)
Definition shown_summary (summary : str) : str :=
  if (90 <? List.length summary)%nat
  then firstn 87 summary ++ lit "..."
  else summary.

End TableSpec.

(** ** Sample trackers, settings and answers *)

Module Samples.
Import PyDatetime Timesheet PyStr Env Console Tracker.

(** [str.isdigit] and [int] on ASCII digits. *)
Definition ascii_isdigit (s : str) : bool :=
  negb (eqb s []) && forallb (fun c => (48 <=? c)%N && (c <=? 57)%N) s.

Definition ascii_int (s : str) : option Z :=
  if ascii_isdigit s
  then Some (fold_left (fun acc c => acc * 10 + (Z.of_N c - 48)) s 0)
  else None.

(** [int] on an optional sign followed by ASCII digits. *)
Definition signed_int (s : str) : option Z :=
  match s with
  | 45%N :: digits => option_map Z.opp (ascii_int digits)
  | 43%N :: digits => ascii_int digits
  | _ => ascii_int s
  end.

(** A server that pages [all] by [L]. *)
Definition paged {A : Type} (all : list A) (L : Z) (s : Z) : outcome (page A) :=
  Returned (mkpage (Some (firstn (Z.to_nat L) (skipn (Z.to_nat s) all)))
                   (Some s) (Some L) (Some (len all))).



Definition sample_strptime (started : string) : option datetime :=
  if (started =? "2025-01-06T10:00:00.000+0300")%string
  then Some (mkdatetime (mkdate 2025 1 6) 10 0 0 10800)
  else if (started =? "2025-01-07T09:30:00.000+0300")%string
  then Some (mkdatetime (mkdate 2025 1 7) 9 30 0 10800)
  else None.

Definition sample_worklogs : list worklog :=
  [mkworklog (Some "2025-01-06T10:00:00.000+0300"%string) (Some 3600);
   mkworklog (Some "2025-01-07T09:30:00.000+0300"%string) (Some 7200);
   mkworklog (Some "2025-01-06T10:00:00.000+0300"%string) (Some 1800);
   mkworklog (Some "yesterday"%string) (Some 600);
   mkworklog None (Some 600);
   mkworklog (Some "2025-01-06T10:00:00.000+0300"%string) None].

(** Two issues found for the day, one of them twice; the worklogs of the
    second cannot be fetched. *)
Definition sample_tracker : tracker :=
  mktracker
    (fun day_iso =>
       paged [mkfound (Some "PRJ-1"%string); mkfound (Some "PRJ-2"%string);
              mkfound None; mkfound (Some "PRJ-1"%string)] 2)
    (fun key =>
       if (key =? "PRJ-1")%string then paged sample_worklogs 4
       else fun _ => Raised RuntimeError).

(** A tracker that refuses the posts to PRJ-2. *)
Definition post_flaky (issue_key : string) (p : payload) : outcome unit :=
  if (issue_key =? "PRJ-2")%string then Raised RuntimeError else Returned tt.

Definition sample_environ : environ :=
  fun k => if eqb k (lit "DEFAULT_HOURS") then Some (lit "6") else None.

Definition sample_file : list str :=
  [lit "# settings"; lit "DEFAULT_HOURS=8"; lit " DEFAULT_MAX_DURATION = '3' ";
   lit "DEFAULT_MAX_DURATION=5"; lit "no assignment here"].

End Samples.

(** ** The embedding at work *)

Module Examples.
Import PyDatetime PyRandom Timesheet Spec Sources.

Example monday_ordinal :
  toordinal monday = 739257 /\ fromordinal 739257 = monday
  /\ weekday monday = 0 /\ weekday sunday = 6.
Proof. repeat split; reflexivity. Qed.

Example date_max_ordinal :
  toordinal date_max = _MAXORDINAL /\ fromordinal 1 = mkdate 1 1 1
  /\ weekday date_max = 4.
Proof. repeat split; reflexivity. Qed.

Example subtract_one_month_samples :
  subtract_one_month (mkdate 2024 3 31) = Returned (mkdate 2024 2 29)
  /\ subtract_one_month (mkdate 2025 3 31) = Returned (mkdate 2025 2 28)
  /\ subtract_one_month (mkdate 2025 1 31) = Returned (mkdate 2024 12 31)
  /\ subtract_one_month (mkdate 2025 7 15) = Returned (mkdate 2025 6 15).
Proof. repeat split; reflexivity. Qed.

(** The scenario of a 4-hour target with 1 hour logged and entries of at
    most 2 hours: 10800 seconds to place, here as 2 hours then 1 hour. *)
Example three_hours_on_monday :
  @build_day_payloads tape_source 3 monday two_issues 10800 2 [1; 7; 0; 3; 5]
  = Returned
      ([("PRJ-2"%string,
         mkpayload "Work on task PRJ-2" (mkdatetime monday 10 0 0 10800) 7200);
        ("PRJ-2"%string,
         mkpayload "Work on task PRJ-2" (mkdatetime monday 12 0 0 10800) 3600)],
       [5]).
Proof. vm_compute. reflexivity. Qed.

(** Outside the preconditions the draws raise. *)
Example allocator_raises :
  @build_day_payloads tape_source 1 monday two_issues 3600 0 [1]
  = Raised ValueError
  /\ @build_day_payloads tape_source 1 monday [] 3600 1 [1]
     = Raised IndexError
  /\ @build_day_payloads tape_source 1 monday [mkIssue "PRJ-1" "task" 0]
       3600 1 [1]
     = Raised ValueError.
Proof. repeat split; vm_compute; reflexivity. Qed.

(** A weight that no float can hold makes [random.choices] raise; the
    largest one below it does not. *)
Example allocator_heavy_weights :
  @build_day_payloads tape_source 1 monday
     [mkIssue "PRJ-1" "task" FLOAT_LIMIT] 3600 1 [1]
  = Raised OverflowError
  /\ @build_day_payloads tape_source 1 monday
       [mkIssue "PRJ-1" "task" (FLOAT_LIMIT - 1)] 3600 1 [1]
     = Returned
         ([("PRJ-1"%string,
            mkpayload "Work on task PRJ-1" (mkdatetime monday 10 0 0 10800)
                      3600)],
          []).
Proof. split; vm_compute; reflexivity. Qed.

(** A day filled in full, posted entry by entry. *)
Example fill_monday :
  @fill_day tape_source 4 false post_ok (Returned 3600) monday two_issues
    4 2 (mkcounters 0 0 0) [1; 7; 0; 3; 5]
  = Returned
      (mkcounters 2 0 0, [5],
       [("PRJ-2"%string,
         mkpayload "Work on task PRJ-2" (mkdatetime monday 10 0 0 10800) 7200);
        ("PRJ-2"%string,
         mkpayload "Work on task PRJ-2" (mkdatetime monday 12 0 0 10800) 3600)]).
Proof. vm_compute. reflexivity. Qed.

End Examples.

(** ** Facts about the calendar *)

Module CalendarFacts.
Import PyDatetime Spec.

Ltac month_cases m :=
  let H := fresh in
  assert (H : m = 1 \/ m = 2 \/ m = 3 \/ m = 4 \/ m = 5 \/ m = 6 \/ m = 7
              \/ m = 8 \/ m = 9 \/ m = 10 \/ m = 11 \/ m = 12) by lia;
  repeat (destruct H as [H | H]; [subst m | ]); [ .. | subst m].

Ltac table := cbv -[Z.add Z.sub Z.le Z.lt Z.mul] in *.

Ltac euclid := Z.to_euclidean_division_equations; lia.

Lemma is_leap_spec y :
  _is_leap y = true <-> (y mod 4 = 0 /\ (y mod 100 <> 0 \/ y mod 400 = 0)).
Proof.
  unfold _is_leap.
  rewrite andb_true_iff, orb_true_iff, negb_true_iff, !Z.eqb_eq, Z.eqb_neq.
  tauto.
Qed.

Lemma days_before_year_succ y :
  _days_before_year (y + 1) = _days_before_year y + year_length y.
Proof.
  unfold _days_before_year, year_length.
  replace (y + 1 - 1) with y by lia.
  destruct (_is_leap y) eqn:E.
  - apply is_leap_spec in E. euclid.
  - assert (H : ~ (y mod 4 = 0 /\ (y mod 100 <> 0 \/ y mod 400 = 0)))
      by (rewrite <- is_leap_spec; congruence).
    euclid.
Qed.

Lemma days_before_year_mono y k :
  0 <= k -> _days_before_year y + 365 * k <= _days_before_year (y + k).
Proof.
  intros Hk. revert k Hk. apply natlike_ind.
  - replace (y + 0) with y by lia. lia.
  - intros k Hk IH.
    replace (y + Z.succ k) with ((y + k) + 1) by lia.
    rewrite days_before_year_succ. unfold year_length.
    destruct (_is_leap (y + k)); lia.
Qed.

Lemma valid_date_iff d :
  valid_date d <->
  (MINYEAR <= year d <= MAXYEAR /\ 1 <= month d <= 12
   /\ 1 <= day d <= _days_in_month (year d) (month d)).
Proof.
  unfold valid_date, valid_dateb.
  rewrite !andb_true_iff, !Z.leb_le. tauto.
Qed.

Lemma day_of_year_bounds y m d :
  1 <= m <= 12 -> 1 <= d <= _days_in_month y m ->
  1 <= _days_before_month y m + d <= year_length y.
Proof.
  intros Hm Hd. unfold _days_before_month, _days_in_month, year_length in *.
  destruct (_is_leap y); month_cases m; table; lia.
Qed.

Lemma days_before_month_mono y m1 m2 :
  1 <= m1 -> m1 < m2 -> m2 <= 12 ->
  _days_before_month y m1 + _days_in_month y m1 <= _days_before_month y m2.
Proof.
  intros H1 H12 H2. unfold _days_before_month, _days_in_month.
  destruct (_is_leap y); month_cases m1; month_cases m2; table; lia.
Qed.

(** The ordinal grows with the date. *)
Lemma toordinal_lt a b :
  valid_date a -> valid_date b -> date_lt a b -> toordinal a < toordinal b.
Proof.
  rewrite !valid_date_iff. intros (Hya & Hma & Hda) (Hyb & Hmb & Hdb).
  unfold date_lt, date_cmp, toordinal, _ymd2ord.
  destruct (Z.compare_spec (year a) (year b)) as [Ey | Ly | Gy]; try discriminate.
  - rewrite Ey in *.
    destruct (Z.compare_spec (month a) (month b)) as [Em | Lm | Gm];
      try discriminate.
    + rewrite Em. intros Hd. rewrite Z.compare_lt_iff in Hd. lia.
    + intros _.
      pose proof (days_before_month_mono (year b) (month a) (month b)).
      lia.
  - intros _.
    pose proof (day_of_year_bounds _ _ _ Hma Hda) as Ha.
    pose proof (day_of_year_bounds _ _ _ Hmb Hdb) as Hb.
    pose proof (days_before_year_succ (year a)) as Hs.
    pose proof (days_before_year_mono (year a + 1) (year b - (year a + 1)))
      as Hmono.
    replace (year a + 1 + (year b - (year a + 1))) with (year b) in Hmono by lia.
    lia.
Qed.

Lemma date_cmp_antisym a b : date_cmp b a = CompOpp (date_cmp a b).
Proof.
  unfold date_cmp.
  rewrite (Z.compare_antisym (year a) (year b)).
  rewrite (Z.compare_antisym (month a) (month b)).
  rewrite (Z.compare_antisym (day a) (day b)).
  destruct (year a ?= year b), (month a ?= month b), (day a ?= day b);
    reflexivity.
Qed.

Lemma date_cmp_eq a b : date_cmp a b = Eq -> a = b.
Proof.
  unfold date_cmp. destruct a as [y1 m1 d1], b as [y2 m2 d2]; cbn [year month day].
  destruct (Z.compare_spec y1 y2); try discriminate.
  destruct (Z.compare_spec m1 m2); try discriminate.
  intros H1. apply Z.compare_eq in H1. congruence.
Qed.

Lemma date_cmp_toordinal a b :
  valid_date a -> valid_date b ->
  date_cmp a b = (toordinal a ?= toordinal b).
Proof.
  intros Ha Hb. destruct (date_cmp a b) eqn:E.
  - apply date_cmp_eq in E. subst. symmetry. apply Z.compare_refl.
  - symmetry. apply Z.compare_lt_iff. now apply toordinal_lt.
  - symmetry. apply Z.compare_gt_iff. apply toordinal_lt; auto.
    unfold date_lt. rewrite date_cmp_antisym, E. reflexivity.
Qed.

Lemma date_leb_toordinal a b :
  valid_date a -> valid_date b ->
  date_leb a b = (toordinal a <=? toordinal b).
Proof.
  intros Ha Hb. unfold date_leb, Z.leb. now rewrite date_cmp_toordinal.
Qed.

Lemma toordinal_inj a b :
  valid_date a -> valid_date b -> toordinal a = toordinal b -> a = b.
Proof.
  intros Ha Hb E. apply date_cmp_eq.
  rewrite date_cmp_toordinal, E by assumption. apply Z.compare_refl.
Qed.

Lemma toordinal_bounds d :
  valid_date d -> 1 <= toordinal d <= _MAXORDINAL.
Proof.
  intros Hd. apply valid_date_iff in Hd. destruct Hd as (Hy & Hm & Hday).
  unfold MINYEAR, MAXYEAR in Hy.
  pose proof (day_of_year_bounds _ _ _ Hm Hday) as Hb.
  unfold toordinal, _ymd2ord.
  pose proof (days_before_year_mono 1 (year d - 1)) as H1.
  replace (1 + (year d - 1)) with (year d) in H1 by lia.
  pose proof (days_before_year_succ (year d)) as Hs.
  pose proof (days_before_year_mono (year d + 1) (9999 - year d)) as H2.
  replace (year d + 1 + (9999 - year d)) with 10000 in H2 by lia.
  change (_days_before_year 1) with 0 in H1.
  change (_days_before_year 10000) with 3652059 in H2.
  unfold _MAXORDINAL. lia.
Qed.

(** *** [_ord2ymd] inverts [_ymd2ord] *)

Lemma all_below_spec k p :
  all_below k p = true -> forall n, 0 <= n < Z.of_nat k -> p n = true.
Proof.
  induction k as [| k IH]; cbn [all_below]; intros H n Hn; [lia |].
  apply andb_true_iff in H. destruct H as [Hk Hr].
  destruct (Z.eq_dec n (Z.of_nat k)) as [-> | Hne]; [assumption |].
  apply IH; [assumption | lia].
Qed.

(** Checked on each of the 365 days, for both kinds of year. *)
Lemma month_part_table leapyear n :
  0 <= n < 365 -> month_part_ok leapyear n = true.
Proof.
  intros Hn.
  assert (H : all_below 365 (month_part_ok leapyear) = true)
    by (destruct leapyear; vm_compute; reflexivity).
  apply (all_below_spec 365 _ H). exact Hn.
Qed.

Lemma month_part_spec y n :
  0 <= n < 365 ->
  let '(m, d) := month_part (_is_leap y) n in
  1 <= m <= 12 /\ 1 <= d <= _days_in_month y m
  /\ _days_before_month y m + d = n + 1.
Proof.
  intros Hn. pose proof (month_part_table (_is_leap y) n Hn) as H.
  unfold month_part_ok in H. destruct (month_part (_is_leap y) n) as [m d].
  rewrite !andb_true_iff, !Z.leb_le, Z.eqb_eq in H.
  unfold _days_in_month, _days_before_month. lia.
Qed.

Lemma ord2ymd_unfold n0 :
  _ord2ymd n0 =
  let n := n0 - 1 in
  let n400 := n / _DI400Y in
  let r400 := n mod _DI400Y in
  let n100 := r400 / _DI100Y in
  let r100 := r400 mod _DI100Y in
  let n4 := r100 / _DI4Y in
  let r4 := r100 mod _DI4Y in
  let n1 := r4 / 365 in
  let r1 := r4 mod 365 in
  let y := n400 * 400 + 1 + (n100 * 100 + n4 * 4 + n1) in
  if (n1 =? 4) || (n100 =? 4) then (y - 1, 12, 31)
  else
    let '(m, d) :=
      month_part ((n1 =? 3) && (negb (n4 =? 24) || (n100 =? 3))) r1 in
    (y, m, d).
Proof.
  unfold _ord2ymd, month_part. cbv zeta.
  destruct ((_ =? 4) || (_ =? 4)); [reflexivity |].
  match goal with |- context [if ?c then (_, _) else _] => destruct c end;
    reflexivity.
Qed.

Lemma fromordinal_ok n0 :
  1 <= n0 <= _MAXORDINAL ->
  valid_date (fromordinal n0) /\ toordinal (fromordinal n0) = n0.
Proof.
  intros Hn. unfold fromordinal. rewrite ord2ymd_unfold. cbv zeta.
  unfold _MAXORDINAL, _DI400Y, _DI100Y, _DI4Y in *.
  set (n := n0 - 1).
  set (n400 := n / 146097). set (r400 := n mod 146097).
  set (n100 := r400 / 36524). set (r100 := r400 mod 36524).
  set (n4 := r100 / 1461). set (r4 := r100 mod 1461).
  set (n1 := r4 / 365). set (r1 := r4 mod 365).
  assert (E400 : n = 146097 * n400 + r400 /\ 0 <= r400 < 146097)
    by (subst n400 r400; split; [apply Z.div_mod | apply Z.mod_pos_bound]; lia).
  assert (E100 : r400 = 36524 * n100 + r100 /\ 0 <= r100 < 36524)
    by (subst n100 r100; split; [apply Z.div_mod | apply Z.mod_pos_bound]; lia).
  assert (E4 : r100 = 1461 * n4 + r4 /\ 0 <= r4 < 1461)
    by (subst n4 r4; split; [apply Z.div_mod | apply Z.mod_pos_bound]; lia).
  assert (E1 : r4 = 365 * n1 + r1 /\ 0 <= r1 < 365)
    by (subst n1 r1; split; [apply Z.div_mod | apply Z.mod_pos_bound]; lia).
  assert (Hn0 : n0 = n + 1) by (subst n; lia).
  clearbody n n400 r400 n100 r100 n4 r4 n1 r1.
  set (y := n400 * 400 + 1 + (n100 * 100 + n4 * 4 + n1)).
  assert (B : 0 <= n400 <= 24 /\ 0 <= n100 <= 4 /\ 0 <= n4 <= 24 /\ 0 <= n1 <= 4)
    by lia.
  destruct ((n1 =? 4) || (n100 =? 4)) eqn:Esp.
  - (* the last day of a leap year *)
    apply orb_true_iff in Esp. rewrite !Z.eqb_eq in Esp.
    assert (Hy : y - 1 = 400 * n400 + 100 * n100 + 4 * n4 + n1) by (subst y; lia).
    assert (Hleap : _is_leap (y - 1) = true)
      by (apply is_leap_spec; rewrite Hy; euclid).
    split.
    + apply valid_date_iff. cbn [year month day].
      unfold _days_in_month, MINYEAR, MAXYEAR. rewrite Hleap.
      cbv -[Z.le Z.sub Z.add Z.mul y]. subst y. lia.
    + unfold toordinal, _ymd2ord, _days_before_month, _days_before_year.
      cbn [year month day]. rewrite Hleap.
      change (_DAYS_BEFORE_MONTH 12 + (if (2 <? 12) && true then 1 else 0))
        with 335.
      replace (y - 1 - 1) with (400 * n400 + 100 * n100 + 4 * n4 + n1 - 1) by lia.
      euclid.
  - apply orb_false_iff in Esp. rewrite !Z.eqb_neq in Esp.
    assert (Hleap : (n1 =? 3) && (negb (n4 =? 24) || (n100 =? 3)) = _is_leap y).
    { apply eq_true_iff_eq. rewrite is_leap_spec.
      rewrite andb_true_iff, orb_true_iff, negb_true_iff, !Z.eqb_eq, Z.eqb_neq.
      subst y. euclid. }
    rewrite Hleap.
    pose proof (month_part_spec y r1 (proj2 E1)) as Hmp.
    destruct (month_part (_is_leap y) r1) as [m d].
    destruct Hmp as (Hm & Hd & Hsum).
    assert (Hdby : _days_before_year y = n - r1).
    { unfold _days_before_year.
      replace (y - 1) with (400 * n400 + 100 * n100 + 4 * n4 + n1)
        by (subst y; lia).
      euclid. }
    split.
    + apply valid_date_iff. cbn [year month day].
      unfold MINYEAR, MAXYEAR. repeat split; try lia; subst y; lia.
    + unfold toordinal, _ymd2ord. cbn [year month day]. lia.
Qed.

Lemma fromordinal_toordinal d : valid_date d -> fromordinal (toordinal d) = d.
Proof.
  intros Hd. pose proof (toordinal_bounds d Hd) as Hb.
  destruct (fromordinal_ok _ Hb) as [Hv Ho].
  now apply toordinal_inj.
Qed.

(** *** [datetime + timedelta] *)

Lemma local_seconds_bounds t :
  valid_datetime t -> 86400 <= local_seconds t < END_OF_TIME.
Proof.
  intros (Hd & Hh & Hm & Hs). apply toordinal_bounds in Hd.
  unfold local_seconds, END_OF_TIME, _MAXORDINAL in *. lia.
Qed.

(** The sum of [t] and [c] seconds, as days and seconds of the day. *)
Lemma advance_unfold t c :
  valid_datetime t -> 0 <= c ->
  exists D S,
    D * 86400 + S = local_seconds t + c /\ 0 <= S < 86400 /\ 1 <= D
    /\ advance t c =
       if Z.abs (0 + c / 86400) >? 999999999 then Raised OverflowError
       else if Z.abs D >? 999999999 then Raised OverflowError
       else if (0 <? D) && (D <=? _MAXORDINAL)
       then Returned (mkdatetime (fromordinal D) (S / 3600) (S mod 3600 / 60)
                                 ((S mod 3600) mod 60) (utcoffset t))
       else Raised OverflowError.
Proof.
  intros (Hd & Hh & Hm & Hs) Hc. apply toordinal_bounds in Hd.
  unfold local_seconds, _MAXORDINAL in *.
  remember (hour t * 3600 + minute t * 60 + second t) as secs eqn:Esecs.
  assert (Hsecs : 0 <= secs < 86400) by lia.
  remember (toordinal (dt_date t)) as o eqn:Eo.
  exists (o + (0 + c / 86400) + (secs + c mod 86400) / 86400),
         ((secs + c mod 86400) mod 86400).
  split; [euclid |]. split; [euclid |]. split; [euclid |].
  unfold advance, new_timedelta.
  destruct (Z.abs (0 + c / 86400) >? 999999999); [reflexivity |].
  cbn [bind]. unfold datetime_add, new_timedelta.
  rewrite <- Esecs, <- Eo.
  assert (Hq : secs / 86400 = 0) by (apply Z.div_small; lia).
  assert (Hr0 : secs mod 86400 = secs) by (apply Z.mod_small; lia).
  rewrite Hq, Hr0, Z.add_0_r.
  destruct (Z.gtb_spec (Z.abs o) 999999999) as [Hbig | _]; [exfalso; lia |].
  cbn [bind]. unfold timedelta_add, new_timedelta. cbn [td_days td_seconds].
  destruct (Z.abs _ >? 999999999); reflexivity.
Qed.

Lemma advance_in_range t c :
  valid_datetime t -> 0 <= c -> local_seconds t + c < END_OF_TIME ->
  exists t', advance t c = Returned t'
             /\ valid_datetime t'
             /\ local_seconds t' = local_seconds t + c
             /\ utcoffset t' = utcoffset t.
Proof.
  intros Hv Hc Hr. pose proof (local_seconds_bounds t Hv) as Hb.
  destruct (advance_unfold t c Hv Hc) as (D & S & HDS & HS & HD & ->).
  unfold END_OF_TIME, _MAXORDINAL in *.
  destruct (Z.gtb_spec (Z.abs (0 + c / 86400)) 999999999) as [Hbig | _];
    [exfalso; euclid |].
  destruct (Z.gtb_spec (Z.abs D) 999999999) as [Hbig | _]; [exfalso; lia |].
  replace ((0 <? D) && (D <=? 3652059)) with true
    by (symmetry; apply andb_true_iff; rewrite Z.ltb_lt, Z.leb_le; lia).
  eexists. split; [reflexivity |].
  assert (HD' : 1 <= D <= 3652059) by lia.
  destruct (fromordinal_ok D HD') as [Hvd Hod].
  unfold valid_datetime, local_seconds.
  cbn [dt_date hour minute second utcoffset]. rewrite Hod.
  unfold local_seconds in HDS.
  repeat split; try assumption; try euclid.
Qed.

Lemma advance_overflow t c :
  valid_datetime t -> 0 <= c -> END_OF_TIME <= local_seconds t + c ->
  advance t c = Raised OverflowError.
Proof.
  intros Hv Hc Hr.
  destruct (advance_unfold t c Hv Hc) as (D & S & HDS & HS & HD & ->).
  unfold END_OF_TIME, _MAXORDINAL in *.
  destruct (Z.abs (0 + c / 86400) >? 999999999); [reflexivity |].
  destruct (Z.abs D >? 999999999); [reflexivity |].
  replace ((0 <? D) && (D <=? 3652059)) with false; [reflexivity |].
  symmetry. apply andb_false_iff. right. apply Z.leb_gt. lia.
Qed.

End CalendarFacts.

(** ** Facts about the allocator's loop *)

Module AllocatorFacts.
Import PyDatetime PyRandom Timesheet Spec CalendarFacts.

Lemma bind_returned {A B} (m : outcome A) (k : A -> outcome B) b :
  bind m k = Returned b -> exists a, m = Returned a /\ k a = Returned b.
Proof. destruct m; cbn [bind]; intros H; try discriminate. eauto. Qed.

Lemma total_duration_app ps qs :
  total_duration (ps ++ qs) = total_duration ps + total_duration qs.
Proof.
  induction ps as [| e ps IH]; cbn [app total_duration fold_right];
    [reflexivity |].
  fold (total_duration (ps ++ qs)). fold (total_duration ps). lia.
Qed.

Lemma tiles_snoc s off ps e :
  tiles s off ps ->
  local_seconds (started (snd e)) = s + total_duration ps ->
  utcoffset (started (snd e)) = off ->
  tiles s off (ps ++ [e]).
Proof.
  revert s. induction ps as [| p ps IH]; cbn [app tiles]; intros s Ht Hs Ho.
  - cbn [total_duration fold_right] in Hs. repeat split; [lia | assumption].
  - destruct Ht as (H1 & H2 & H3). repeat split; try assumption.
    apply IH; [assumption | | assumption].
    cbn [total_duration fold_right] in Hs. fold (total_duration ps) in Hs. lia.
Qed.

Lemma total_duration_hours maxc ps :
  Forall (entry_ok maxc) ps ->
  total_duration ps mod 3600 = 0
  /\ 3600 * Z.of_nat (List.length ps) <= total_duration ps.
Proof.
  induction 1 as [| e ps (Hpos & Hmod & _) _ [IHm IHl]].
  - cbn. split; [reflexivity | lia].
  - cbn [total_duration fold_right List.length].
    fold (total_duration ps). split.
    + rewrite Z.add_mod, Hmod, IHm by lia. reflexivity.
    + assert (3600 <= duration e) by euclid. lia.
Qed.

(** Entries that tile time, each of positive duration, start at strictly
    increasing instants, none before the clock's start. *)
Lemma tiles_increasing maxc s off ps :
  tiles s off ps -> Forall (entry_ok maxc) ps ->
  Forall (fun x => s - off <= x) (starts ps)
  /\ StronglySorted Z.lt (starts ps).
Proof.
  revert s. induction ps as [| e ps IH]; cbn [tiles starts map]; intros s Ht Hok.
  - split; constructor.
  - destruct Ht as (Hs & Ho & Hrest).
    apply Forall_cons_iff in Hok. destruct Hok as [(Hpos & _) Hok'].
    destruct (IH _ Hrest Hok') as [Hlow Hsorted]. fold (starts ps).
    assert (Hstart : utc_seconds (started (snd e)) = s - off)
      by (unfold utc_seconds; lia).
    split.
    + constructor; [lia |].
      eapply Forall_impl; [| exact Hlow]. cbn beta. intros x Hx. lia.
    + constructor; [assumption |].
      eapply Forall_impl; [| exact Hlow]. cbn beta. intros x Hx. lia.
Qed.

(** Consecutive entries of a tiling: the later starts where the earlier
    ends. *)
Lemma tiles_consecutive s off ps i e1 e2 :
  tiles s off ps ->
  nth_error ps i = Some e1 -> nth_error ps (S i) = Some e2 ->
  utc_seconds (started (snd e2)) = utc_seconds (started (snd e1)) + duration e1.
Proof.
  revert s i. induction ps as [| p ps IH]; intros s i Ht H1 H2.
  - destruct i; discriminate.
  - destruct Ht as (Hs & Ho & Hrest). destruct i as [| i].
    + cbn [nth_error] in H1, H2. injection H1 as <-.
      destruct ps as [| q ps]; [discriminate |].
      cbn [nth_error] in H2. injection H2 as <-.
      destruct Hrest as (Hs2 & Ho2 & _). unfold utc_seconds. lia.
    + cbn [nth_error] in H1. change (nth_error ps (S i) = Some e2) in H2.
      exact (IH _ _ Hrest H1 H2).
Qed.

Section Loop.
Context {RS : RandomSource}.

Lemma randint_returned a b g x g' :
  randint a b g = Returned (x, g') -> a <= x <= b.
Proof.
  unfold randint. destruct (Z.leb_spec a b) as [Hab | Hab]; [| discriminate].
  intros H. injection H as H. pose proof (draw_int_range a b g Hab) as Hr.
  rewrite H in Hr. exact Hr.
Qed.

Lemma choices_returned population weights g k g' :
  choices population weights g = Returned (k, g') -> In k population.
Proof.
  unfold choices.
  destruct (Nat.eqb_spec (List.length weights) (List.length population))
    as [Hlen | Hlen]; [| discriminate].
  cbn [negb]. destruct population as [| p population]; [discriminate |].
  cbv zeta. destruct (float_overflows (total_weight weights)); [discriminate |].
  destruct (total_weight weights <=? 0); [discriminate |].
  pose proof (draw_index_range weights g) as Hr.
  destruct (draw_index weights g) as [i g0]. intros H. injection H as Hk Hg.
  subst k. change (In (nth i (p :: population) EmptyString) (p :: population)).
  apply nth_In. rewrite <- Hlen. apply Hr.
  intros ->. discriminate.
Qed.

Lemma choices_returns population weights g :
  population <> [] -> List.length weights = List.length population ->
  0 < total_weight weights -> total_weight weights < FLOAT_LIMIT ->
  exists k g', choices population weights g = Returned (k, g').
Proof.
  intros Hne Hlen Htot Hfloat. unfold choices, float_overflows.
  rewrite Hlen, Nat.eqb_refl. cbn [negb].
  destruct population as [| p population]; [contradiction |].
  cbv zeta.
  destruct (Z.leb_spec FLOAT_LIMIT (Z.abs (total_weight weights))); [lia |].
  destruct (Z.leb_spec (total_weight weights) 0); [lia |].
  destruct (draw_index weights g) as [i g0]. eauto.
Qed.

(** A total weight that no float can hold: [choices] raises. *)
Lemma choices_overflows population weights g :
  population <> [] -> List.length weights = List.length population ->
  FLOAT_LIMIT <= Z.abs (total_weight weights) ->
  choices population weights g = Raised OverflowError.
Proof.
  intros Hne Hlen Hfloat. unfold choices, float_overflows.
  rewrite Hlen, Nat.eqb_refl. cbn [negb].
  destruct population as [| p population]; [contradiction |].
  cbv zeta.
  destruct (Z.leb_spec FLOAT_LIMIT (Z.abs (total_weight weights))); [| lia].
  reflexivity.
Qed.

Variables (issue_keys : list string) (issue_weights : list Z).
Variable max_chunk_seconds : Z.

(** What one iteration does, when it returns. *)
Lemma loop_body_returned st st' :
  loop_body issue_keys issue_weights max_chunk_seconds st = Returned st' ->
  exists h k,
    1 <= h <= Z.min max_chunk_seconds (remaining_seconds st) / 3600
    /\ In k issue_keys
    /\ remaining_seconds st' = remaining_seconds st - h * 3600
    /\ payloads st' =
       payloads st
       ++ [(k, mkpayload ("Work on task " ++ k) (current_dt st) (h * 3600))]
    /\ advance (current_dt st) (h * 3600) = Returned (current_dt st').
Proof.
  unfold loop_body, hour_seconds. intros H.
  apply bind_returned in H. destruct H as ([h g1] & Hrand & H).
  apply bind_returned in H. destruct H as ([k g2] & Hch & H).
  apply bind_returned in H. destruct H as (step & Hstep & H).
  apply bind_returned in H. destruct H as (next_dt & Hadd & H).
  injection H as H. subst st'. cbn [remaining_seconds payloads current_dt].
  exists h, k. repeat split.
  - apply (randint_returned _ _ _ _ _ Hrand).
  - apply (randint_returned _ _ _ _ _ Hrand).
  - apply (choices_returned _ _ _ _ _ Hch).
  - unfold advance. rewrite Hstep. exact Hadd.
Qed.

Lemma loop_body_invariant R dt0 st st' :
  invariant issue_keys max_chunk_seconds R dt0 st ->
  loop_body issue_keys issue_weights max_chunk_seconds st = Returned st' ->
  invariant issue_keys max_chunk_seconds R dt0 st'
  /\ remaining_seconds st' <= remaining_seconds st - 3600.
Proof.
  intros (Hrem & Hsum & Hvalid & Hclock & Hoff & Hok & Hlab & Htiles & Hhead) Hbody.
  apply loop_body_returned in Hbody.
  destruct Hbody as (h & k & Hh & Hk & Hrem' & Hps & Hadv).
  assert (Hchunk : h * 3600 <= max_chunk_seconds
                   /\ h * 3600 <= remaining_seconds st) by euclid.
  assert (Hend : local_seconds (current_dt st) + h * 3600 < END_OF_TIME).
  { destruct (Z.lt_ge_cases (local_seconds (current_dt st) + h * 3600)
                            END_OF_TIME) as [Hlt | Hge]; [exact Hlt |].
    rewrite (advance_overflow _ _ Hvalid) in Hadv by lia. discriminate. }
  destruct (advance_in_range _ (h * 3600) Hvalid ltac:(lia) Hend)
    as (t' & Ht' & Hv' & Hs' & Ho').
  rewrite Ht' in Hadv. injection Hadv as Hcur. subst t'.
  split; [| lia].
  unfold invariant. rewrite Hps, total_duration_app.
  cbn [total_duration fold_right duration snd timeSpentSeconds].
  refine (conj _ (conj _ (conj Hv' (conj _ (conj _ (conj _ (conj _
           (conj _ _))))))));
    try lia; try congruence.
  - apply Forall_app. split; [assumption |]. constructor; [| constructor].
    unfold entry_ok, duration. cbn [snd timeSpentSeconds].
    repeat split; try lia. apply Z.mod_mul. lia.
  - apply Forall_app. split; [assumption |]. constructor; [| constructor].
    split; [exact Hk | reflexivity].
  - apply tiles_snoc; [assumption | cbn [snd started]; lia
                      | cbn [snd started]; lia].
  - destruct (payloads st); cbn [app snd started]; assumption.
Qed.

Lemma while_loop_invariant R dt0 fuel st st' :
  invariant issue_keys max_chunk_seconds R dt0 st ->
  while_loop fuel issue_keys issue_weights max_chunk_seconds st = Returned st' ->
  invariant issue_keys max_chunk_seconds R dt0 st'
  /\ remaining_seconds st' < 3600.
Proof.
  revert st. induction fuel as [| fuel IH]; intros st Hinv; cbn [while_loop];
    unfold hour_seconds;
    destruct (Z.leb_spec 3600 (remaining_seconds st)) as [Hge | Hlt];
    intros H; try discriminate;
    try (injection H as <-; split; [assumption | lia]).
  apply bind_returned in H. destruct H as (st1 & Hbody & Hloop).
  destruct (loop_body_invariant _ _ _ _ Hinv Hbody) as [Hinv1 _].
  exact (IH st1 Hinv1 Hloop).
Qed.

Lemma invariant_whole_hours R dt0 st :
  invariant issue_keys max_chunk_seconds R dt0 st ->
  total_duration (payloads st) mod 3600 = 0
  /\ 3600 * Z.of_nat (List.length (payloads st)) <= total_duration (payloads st).
Proof.
  intros (_ & _ & _ & _ & _ & Hok & _). exact (total_duration_hours _ _ Hok).
Qed.

Hypothesis max_chunk_hour : 3600 <= max_chunk_seconds.
Hypothesis keys_nonempty : issue_keys <> [].
Hypothesis weights_length : List.length issue_weights = List.length issue_keys.

(** With weights whose total no float can hold, the first iteration
    raises [OverflowError], once its hours are drawn. *)
Lemma while_loop_heavy fuel st :
  FLOAT_LIMIT <= Z.abs (total_weight issue_weights) ->
  3600 <= remaining_seconds st ->
  while_loop (S fuel) issue_keys issue_weights max_chunk_seconds st
  = Raised OverflowError.
Proof.
  intros Hfloat Hge. cbn [while_loop]. unfold hour_seconds.
  destruct (Z.leb_spec 3600 (remaining_seconds st)) as [_ | Hlt]; [| lia].
  unfold loop_body, hour_seconds.
  set (max_hours := Z.min max_chunk_seconds (remaining_seconds st) / 3600).
  assert (Hmh : 1 <= max_hours) by (subst max_hours; euclid).
  unfold randint. destruct (Z.leb_spec 1 max_hours) as [_ | Hlt]; [| lia].
  destruct (draw_int 1 max_hours (gen st)) as [h g1]. cbn [bind].
  rewrite (choices_overflows issue_keys issue_weights g1
             keys_nonempty weights_length Hfloat).
  reflexivity.
Qed.

Hypothesis weights_total : 0 < total_weight issue_weights.
Hypothesis weights_float : total_weight issue_weights < FLOAT_LIMIT.

(** An iteration draws some [h] hours; it returns when the clock can be
    advanced by them, and raises [OverflowError] when it cannot. *)
Lemma loop_body_cases R dt0 st :
  invariant issue_keys max_chunk_seconds R dt0 st ->
  3600 <= remaining_seconds st ->
  exists h,
    1 <= h <= Z.min max_chunk_seconds (remaining_seconds st) / 3600
    /\ ((local_seconds (current_dt st) + h * 3600 < END_OF_TIME
         /\ exists st',
              loop_body issue_keys issue_weights max_chunk_seconds st
              = Returned st')
        \/ (END_OF_TIME <= local_seconds (current_dt st) + h * 3600
            /\ loop_body issue_keys issue_weights max_chunk_seconds st
               = Raised OverflowError)).
Proof.
  intros (Hrem & Hsum & Hvalid & Hclock & Hoff & Hok & Hlab & Htiles & Hhead) Hge.
  unfold loop_body, hour_seconds.
  set (max_hours := Z.min max_chunk_seconds (remaining_seconds st) / 3600).
  assert (Hmh : 1 <= max_hours) by (subst max_hours; euclid).
  unfold randint. destruct (Z.leb_spec 1 max_hours) as [_ | Hlt]; [| lia].
  pose proof (draw_int_range 1 max_hours (gen st) Hmh) as Hh.
  destruct (draw_int 1 max_hours (gen st)) as [h g1]. cbn [fst] in Hh.
  exists h. split; [exact Hh |]. cbn [bind].
  destruct (choices_returns issue_keys issue_weights g1
              keys_nonempty weights_length weights_total weights_float)
    as (k & g2 & Hch).
  rewrite Hch. cbn [bind].
  fold (advance (current_dt st) (h * 3600)).
  destruct (Z.lt_ge_cases (local_seconds (current_dt st) + h * 3600) END_OF_TIME)
    as [Hin | Hout].
  - left. split; [exact Hin |].
    destruct (advance_in_range _ (h * 3600) Hvalid ltac:(lia) Hin)
      as (t' & Ht' & _).
    unfold advance in Ht'.
    destruct (new_timedelta 0 (h * 3600)) as [step | e |]; try discriminate.
    cbn [bind] in *. rewrite Ht'. cbn [bind]. eauto.
  - right. split; [exact Hout |].
    pose proof (advance_overflow _ (h * 3600) Hvalid ltac:(lia) Hout) as Ht'.
    unfold advance in Ht'.
    destruct (new_timedelta 0 (h * 3600)) as [step | e |]; try discriminate.
    + cbn [bind] in *. rewrite Ht'. reflexivity.
    + cbn [bind] in *. congruence.
Qed.

Lemma while_loop_returns R dt0 fuel st :
  invariant issue_keys max_chunk_seconds R dt0 st ->
  local_seconds dt0 + 3600 * (R / 3600) < END_OF_TIME ->
  enough_fuel (remaining_seconds st) fuel ->
  exists st',
    while_loop fuel issue_keys issue_weights max_chunk_seconds st = Returned st'.
Proof.
  unfold enough_fuel. intros Hinv Hend. revert st Hinv.
  induction fuel as [| fuel IH]; intros st Hinv Hfuel; cbn [while_loop];
    unfold hour_seconds;
    destruct (Z.leb_spec 3600 (remaining_seconds st)) as [Hge | Hlt];
    eauto.
  - exfalso. assert (1 <= remaining_seconds st / 3600) by euclid. lia.
  - destruct (loop_body_cases _ _ _ Hinv Hge)
      as (h & Hh & [(_ & st1 & Hbody) | (Hout & _)]).
    + rewrite Hbody. cbn [bind].
      destruct (loop_body_invariant _ _ _ _ Hinv Hbody) as [Hinv1 Hdec].
      apply IH; [exact Hinv1 |].
      destruct Hinv1 as (Hrem1 & _).
      assert (remaining_seconds st1 / 3600 <= remaining_seconds st / 3600 - 1)
        by euclid.
      lia.
    + exfalso. destruct (invariant_whole_hours _ _ _ Hinv) as [Hmod _].
      destruct Hinv as (Hrem & Hsum & _ & Hclock & _).
      revert Hout Hend. rewrite Hclock. euclid.
Qed.

Lemma while_loop_overflows R dt0 fuel st :
  invariant issue_keys max_chunk_seconds R dt0 st ->
  END_OF_TIME <= local_seconds dt0 + 3600 * (R / 3600) ->
  enough_fuel (remaining_seconds st) fuel ->
  while_loop fuel issue_keys issue_weights max_chunk_seconds st
  = Raised OverflowError.
Proof.
  unfold enough_fuel. intros Hinv Hend. revert st Hinv.
  assert (Hstop : forall st,
             invariant issue_keys max_chunk_seconds R dt0 st ->
             remaining_seconds st < 3600 -> False).
  { intros st Hinv Hlt.
    destruct (invariant_whole_hours _ _ _ Hinv) as [Hmod _].
    destruct Hinv as (Hrem & Hsum & Hvalid & Hclock & _).
    apply local_seconds_bounds in Hvalid.
    revert Hvalid Hend. rewrite Hclock. euclid. }
  induction fuel as [| fuel IH]; intros st Hinv Hfuel; cbn [while_loop];
    unfold hour_seconds;
    destruct (Z.leb_spec 3600 (remaining_seconds st)) as [Hge | Hlt];
    try (exfalso; exact (Hstop st Hinv Hlt)).
  - exfalso. assert (1 <= remaining_seconds st / 3600) by euclid. lia.
  - destruct (loop_body_cases _ _ _ Hinv Hge)
      as (h & Hh & [(_ & st1 & Hbody) | (_ & Hraise)]).
    + rewrite Hbody. cbn [bind].
      destruct (loop_body_invariant _ _ _ _ Hinv Hbody) as [Hinv1 Hdec].
      apply IH; [exact Hinv1 |].
      destruct Hinv1 as (Hrem1 & _).
      assert (remaining_seconds st1 / 3600 <= remaining_seconds st / 3600 - 1)
        by euclid.
      lia.
    + rewrite Hraise. reflexivity.
Qed.

End Loop.
End AllocatorFacts.

(** ** Facts about [build_day_payloads] *)

Module BuildFacts.
Import PyDatetime PyRandom Timesheet Spec CalendarFacts AllocatorFacts.

Lemma start_of_day_valid day :
  valid_date day -> valid_datetime (combine day 10 0 0 (3 * 3600)).
Proof.
  intros Hd. unfold valid_datetime, combine.
  cbn [dt_date hour minute second]. repeat split; try assumption; lia.
Qed.

Lemma total_weight_positive issues :
  issues <> [] -> Forall (fun i => 0 < weight i) issues ->
  0 < total_weight (map weight issues).
Proof.
  intros Hne Hpos.
  assert (H : 0 <= total_weight (map weight issues)
              /\ (issues <> [] -> 0 < total_weight (map weight issues))).
  { clear Hne. induction Hpos as [| i issues Hi _ [IH0 IH1]].
    - split; [cbn; lia | congruence].
    - cbn [map total_weight fold_right].
      fold (total_weight (map weight issues)). split; intros; lia. }
  exact (proj2 H Hne).
Qed.

Section Build.
Context {RS : RandomSource}.

Lemma initial_invariant keys maxc day R g :
  valid_date day -> 0 <= R ->
  invariant keys maxc R (combine day 10 0 0 (3 * 3600))
            (mkstate R (combine day 10 0 0 (3 * 3600)) [] g).
Proof.
  intros Hd HR. unfold invariant.
  cbn [remaining_seconds payloads current_dt total_duration fold_right tiles].
  refine (conj HR (conj _ (conj (start_of_day_valid day Hd)
           (conj _ (conj _ (conj _ (conj _ (conj I _))))))));
    try constructor; try lia.
Qed.

(** A budget under one hour: no iteration, no entry, the generator
    untouched. *)
Lemma build_day_payloads_small fuel day issues R mth g :
  R < 3600 -> build_day_payloads fuel day issues R mth g = Returned ([], g).
Proof.
  intros HR. unfold build_day_payloads.
  destruct fuel; cbn [while_loop remaining_seconds]; unfold hour_seconds;
    destruct (Z.leb_spec 3600 R); try lia; reflexivity.
Qed.

(** Whatever [build_day_payloads] returns was left by the loop in a state
    that satisfies the invariant, with under one hour remaining. *)
Lemma build_day_payloads_returned fuel day issues R mth g ps g' :
  valid_date day -> 0 <= R ->
  build_day_payloads fuel day issues R mth g = Returned (ps, g') ->
  exists st',
    invariant (map key issues) (mth * 3600) R
              (combine day 10 0 0 (3 * 3600)) st'
    /\ remaining_seconds st' < 3600 /\ payloads st' = ps.
Proof.
  intros Hd HR H. unfold build_day_payloads, hour_seconds in H.
  apply bind_returned in H. destruct H as (st' & Hloop & H).
  injection H as Hps Hg. exists st'.
  destruct (while_loop_invariant _ _ _ _ _ _ _ _
              (initial_invariant _ _ day R g Hd HR) Hloop) as [Hinv Hlt].
  auto.
Qed.

Lemma weights_in_float_range_total issues :
  issues <> [] -> Forall (fun i => 0 < weight i) issues ->
  weights_in_float_range issues ->
  total_weight (map weight issues) < FLOAT_LIMIT.
Proof.
  intros Hne Hw Hfloat. unfold weights_in_float_range in Hfloat.
  pose proof (total_weight_positive issues Hne Hw). lia.
Qed.

Lemma build_day_payloads_returns fuel day issues R mth g :
  valid_date day -> preconditions issues R mth -> clock_in_range day R ->
  weights_in_float_range issues -> enough_fuel R fuel ->
  exists ps g', build_day_payloads fuel day issues R mth g = Returned (ps, g').
Proof.
  intros Hd (HR & Hm & Hne & Hw) Hclock Hfloat Hfuel.
  unfold build_day_payloads, hour_seconds.
  destruct (while_loop_returns (map key issues) (map weight issues)
              (mth * 3600) ltac:(lia)
              ltac:(destruct issues; [congruence | discriminate])
              ltac:(now rewrite !length_map)
              (total_weight_positive issues Hne Hw)
              (weights_in_float_range_total issues Hne Hw Hfloat)
              R _ fuel _ (initial_invariant _ _ day R g Hd HR) Hclock Hfuel)
    as (st' & ->).
  cbn [bind]. eauto.
Qed.

Lemma build_day_payloads_raises fuel day issues R mth g :
  valid_date day -> preconditions issues R mth -> ~ clock_in_range day R ->
  weights_in_float_range issues -> enough_fuel R fuel ->
  build_day_payloads fuel day issues R mth g = Raised OverflowError.
Proof.
  intros Hd (HR & Hm & Hne & Hw) Hclock Hfloat Hfuel.
  unfold build_day_payloads, hour_seconds.
  rewrite (while_loop_overflows (map key issues) (map weight issues)
             (mth * 3600) ltac:(lia)
             ltac:(destruct issues; [congruence | discriminate])
             ltac:(now rewrite !length_map)
             (total_weight_positive issues Hne Hw)
             (weights_in_float_range_total issues Hne Hw Hfloat)
             R _ fuel _ (initial_invariant _ _ day R g Hd HR)).
  - reflexivity.
  - unfold clock_in_range in Hclock. lia.
  - exact Hfuel.
Qed.

(** Weights whose total no float can hold: with an hour or more to place
    the allocator raises [OverflowError] in its first iteration. *)
Lemma build_day_payloads_heavy fuel day issues R mth g :
  preconditions issues R mth -> ~ weights_in_float_range issues ->
  3600 <= R ->
  build_day_payloads (S fuel) day issues R mth g = Raised OverflowError.
Proof.
  intros (HR & Hm & Hne & Hw) Hfloat Hge.
  unfold build_day_payloads, hour_seconds.
  rewrite (while_loop_heavy (map key issues) (map weight issues)
             (mth * 3600) ltac:(lia)
             ltac:(destruct issues; [congruence | discriminate])
             ltac:(now rewrite !length_map)).
  - reflexivity.
  - unfold weights_in_float_range in Hfloat. lia.
  - cbn [remaining_seconds]. exact Hge.
Qed.

End Build.
End BuildFacts.

(** ** Facts about [working_days] *)

Module WorkingDaysFacts.
Import PyDatetime Timesheet Spec CalendarFacts.

Lemma date_lt_toordinal a b :
  valid_date a -> valid_date b -> (date_lt a b <-> toordinal a < toordinal b).
Proof.
  intros Ha Hb. unfold date_lt. rewrite date_cmp_toordinal by assumption.
  apply Z.compare_lt_iff.
Qed.

Lemma date_le_toordinal a b :
  valid_date a -> valid_date b -> (date_le a b <-> toordinal a <= toordinal b).
Proof.
  intros Ha Hb. unfold date_le. rewrite date_leb_toordinal by assumption.
  apply Z.leb_le.
Qed.

Lemma StronglySorted_filter {A} (R : A -> A -> Prop) (p : A -> bool) l :
  StronglySorted R l -> StronglySorted R (filter p l).
Proof.
  induction 1 as [| a l Hs IH Hall]; cbn [filter]; [constructor |].
  destruct (p a); [| exact IH].
  constructor; [exact IH |].
  rewrite Forall_forall in *. intros x Hx. apply Hall.
  apply filter_In in Hx. tauto.
Qed.

(** The dates of the ordinals from [a]: valid, in calendar order, and every
    ordinal of the range among them. *)
Lemma dates_from_spec n : forall a,
  1 <= a -> a + Z.of_nat n - 1 <= _MAXORDINAL ->
  Forall (fun d => valid_date d /\ a <= toordinal d < a + Z.of_nat n)
         (dates_from a n)
  /\ StronglySorted date_lt (dates_from a n)
  /\ (forall o, a <= o < a + Z.of_nat n -> In (fromordinal o) (dates_from a n)).
Proof.
  induction n as [| n IH]; intros a Ha Hmax; cbn [dates_from].
  - repeat split; [constructor | constructor | intros o Ho; lia].
  - destruct (IH (a + 1) ltac:(lia) ltac:(lia)) as (Hall & Hsorted & Hin).
    destruct (fromordinal_ok a ltac:(lia)) as [Hva Hoa].
    repeat split.
    + constructor; [split; [assumption | lia] |].
      eapply Forall_impl; [| exact Hall]. cbn beta. intros d [Hd Hr].
      split; [assumption | lia].
    + constructor; [assumption |].
      eapply Forall_impl; [| exact Hall]. cbn beta. intros d [Hd Hr].
      apply date_lt_toordinal; [assumption | assumption | lia].
    + intros o Ho. destruct (Z.eq_dec o a) as [-> | Hne]; [now left |].
      right. apply Hin. lia.
Qed.

(** [weekdays_between] holds exactly the Monday-to-Friday dates of the
    range, in calendar order. *)
Lemma weekdays_between_spec start_date end_date :
  valid_date start_date -> valid_date end_date ->
  (forall d, In d (weekdays_between start_date end_date) <->
             valid_date d /\ date_le start_date d /\ date_le d end_date
             /\ weekday d < 5)
  /\ StronglySorted date_lt (weekdays_between start_date end_date).
Proof.
  intros Hs He. unfold weekdays_between.
  pose proof (toordinal_bounds _ Hs) as Bs.
  pose proof (toordinal_bounds _ He) as Be.
  set (n := Z.to_nat (toordinal end_date - toordinal start_date + 1)).
  assert (Hn : toordinal start_date + Z.of_nat n - 1 <= _MAXORDINAL)
    by (subst n; lia).
  destruct (dates_from_spec n (toordinal start_date) ltac:(lia) Hn)
    as (Hall & Hsorted & Hin).
  split; [| now apply StronglySorted_filter].
  intros d. rewrite filter_In, Z.ltb_lt. split.
  - intros [Hd Hw]. rewrite Forall_forall in Hall.
    destruct (Hall d Hd) as [Hv Hr].
    repeat split; try assumption;
      apply date_le_toordinal; try assumption; subst n; lia.
  - intros (Hv & Hsd & Hde & Hw). split; [| assumption].
    apply date_le_toordinal in Hsd; [| assumption | assumption].
    apply date_le_toordinal in Hde; [| assumption | assumption].
    rewrite <- (fromordinal_toordinal d Hv). apply Hin. subst n. lia.
Qed.

(** The loop, from [current] on, appends the weekdays up to [end_date];
    one unit of fuel per day of the range suffices, when the day after
    [end_date] exists. *)
Lemma working_days_loop_returns fuel : forall current end_date days,
  valid_date current -> valid_date end_date ->
  toordinal end_date < _MAXORDINAL ->
  (Z.to_nat (toordinal end_date - toordinal current + 1) <= fuel)%nat ->
  working_days_loop fuel current end_date days
  = Returned (days ++ weekdays_between current end_date).
Proof.
  induction fuel as [| fuel IH]; intros current end_date days Hc He Hmax Hfuel;
    cbn [working_days_loop]; rewrite (date_leb_toordinal _ _ Hc He);
    destruct (Z.leb_spec (toordinal current) (toordinal end_date)) as [Hle | Hgt];
    try lia.
  - unfold weekdays_between.
    replace (Z.to_nat _) with O by lia. cbn. now rewrite app_nil_r.
  - change (new_timedelta 1 0) with (Returned (mktimedelta 1 0)).
    cbn [bind]. unfold date_add. cbn [td_days].
    pose proof (toordinal_bounds _ Hc) as Bc.
    replace ((0 <? toordinal current + 1)
             && (toordinal current + 1 <=? _MAXORDINAL)) with true
      by (symmetry; apply andb_true_iff; rewrite Z.ltb_lt, Z.leb_le; lia).
    cbn [bind].
    destruct (fromordinal_ok (toordinal current + 1) ltac:(lia)) as [Hv Ho].
    rewrite (IH _ _ _ Hv He Hmax) by (rewrite Ho; lia).
    f_equal. unfold weekdays_between. rewrite Ho.
    replace (Z.to_nat (toordinal end_date - toordinal current + 1))
      with (S (Z.to_nat (toordinal end_date - (toordinal current + 1) + 1)))
      by lia.
    cbn [dates_from filter]. rewrite (fromordinal_toordinal _ Hc).
    destruct (weekday current <? 5); [| reflexivity].
    now rewrite <- app_assoc.
  - unfold weekdays_between.
    replace (Z.to_nat _) with O by lia. cbn. now rewrite app_nil_r.
Qed.

End WorkingDaysFacts.

(** ** The allocator: [build_day_payloads] *)

Import PyDatetime PyCalendar PyRandom Timesheet Spec Sources.
Import CalendarFacts AllocatorFacts BuildFacts WorkingDaysFacts.

Ltac sample_preconditions :=
  unfold preconditions, two_issues; repeat split; try lia;
  [discriminate | repeat constructor].

(** C1, as amended.  For a budget [R >= 0], a per-entry maximum of
    [mth >= 1] hours and a non-empty issue list with positive weights, when
    the clock, advanced from 10:00 of [day] by the whole hours of [R],
    stays within what a [datetime] can hold, and when the weights total
    less than the least integer that no float can hold: the allocator
    returns, and the durations it emits sum to at most [R] (so to less
    than [R + 3600]) and to at least [R - 3599]. *)
Theorem build_day_payloads_exhausts_budget {RS : RandomSource}
    (fuel : nat) (day : date) (issues : list Issue) (R mth : Z) (g : rng) :
  valid_date day -> preconditions issues R mth -> clock_in_range day R ->
  weights_in_float_range issues -> enough_fuel R fuel ->
  exists ps g',
    build_day_payloads fuel day issues R mth g = Returned (ps, g')
    /\ R - 3599 <= total_duration ps
    /\ total_duration ps <= R
    /\ total_duration ps < R + 3600.
Proof.
  intros Hd Hpre Hclock Hfloat Hfuel.
  destruct (build_day_payloads_returns fuel day issues R mth g
              Hd Hpre Hclock Hfloat Hfuel) as (ps & g' & Hrun).
  exists ps, g'. split; [exact Hrun |].
  destruct Hpre as (HR & _).
  destruct (build_day_payloads_returned _ _ _ _ _ _ _ _ Hd HR Hrun)
    as (st' & (Hrem & Hsum & _) & Hlt & <-).
  lia.
Qed.

Lemma build_day_payloads_exhausts_budget_witness :
  valid_date monday /\ preconditions two_issues 10800 2
  /\ clock_in_range monday 10800 /\ weights_in_float_range two_issues
  /\ enough_fuel 10800 3
  /\ exists ps g',
       @build_day_payloads tape_source 3 monday two_issues 10800 2 [1; 7; 0; 3]
       = Returned (ps, g')
       /\ 10800 - 3599 <= total_duration ps
       /\ total_duration ps <= 10800
       /\ total_duration ps < 10800 + 3600.
Proof.
  assert (Hd : valid_date monday) by reflexivity.
  assert (Hpre : preconditions two_issues 10800 2) by sample_preconditions.
  assert (Hclock : clock_in_range monday 10800) by (vm_compute; reflexivity).
  assert (Hfloat : weights_in_float_range two_issues)
    by (vm_compute; reflexivity).
  assert (Hfuel : enough_fuel 10800 3) by (vm_compute; lia).
  refine (conj Hd (conj Hpre (conj Hclock (conj Hfloat (conj Hfuel _))))).
  exact (@build_day_payloads_exhausts_budget tape_source 3 monday two_issues
           10800 2 [1; 7; 0; 3] Hd Hpre Hclock Hfloat Hfuel).
Defined.

(** C1 as stated fails: on 9999-12-31, with a budget of 14 hours and a
    maximum of 14 hours per entry, the preconditions hold and the allocator
    raises [OverflowError] when the clock, started at 10:00, reaches the
    next midnight: at once with a generator that draws the 14 hours in one
    entry, and sooner or later with any generator.  It returns nothing
    whose durations could be summed. *)
Lemma build_day_payloads_budget_overflow :
  valid_date last_day /\ preconditions two_issues 50400 14
  /\ (forall fuel,
        @build_day_payloads greedy_source (S fuel) last_day two_issues 50400 14 tt
        = Raised OverflowError)
  /\ (forall (RS : RandomSource) (g : rng) (fuel : nat),
        enough_fuel 50400 fuel ->
        build_day_payloads fuel last_day two_issues 50400 14 g
        = Raised OverflowError)
  /\ (forall fuel,
        ~ exists ps g',
            @build_day_payloads greedy_source fuel last_day two_issues 50400 14 tt
            = Returned (ps, g')
            /\ 50400 - 3599 <= total_duration ps
            /\ total_duration ps <= 50400).
Proof.
  assert (Hd : valid_date last_day) by reflexivity.
  assert (Hpre : preconditions two_issues 50400 14) by sample_preconditions.
  assert (Hraise : forall fuel,
             @build_day_payloads greedy_source (S fuel) last_day two_issues
               50400 14 tt = Raised OverflowError)
    by (intros fuel; lazy; reflexivity).
  refine (conj Hd (conj Hpre (conj Hraise (conj _ _)))).
  - intros RS g fuel Hfuel.
    apply (build_day_payloads_raises fuel last_day two_issues 50400 14 g
             Hd Hpre); [| vm_compute; reflexivity | exact Hfuel].
    vm_compute. discriminate.
  - intros [| fuel] (ps & g' & Hrun & _).
    + lazy in Hrun. discriminate.
    + rewrite Hraise in Hrun. discriminate.
Qed.

(** C2.  Every entry the allocator emits lasts a positive whole number of
    hours, at most [mth * 3600] seconds; and the allocator does emit its
    entries whenever the clock stays within range and the weights total
    within what a float can hold. *)
Theorem build_day_payloads_whole_hours {RS : RandomSource}
    (day : date) (issues : list Issue) (R mth : Z) (g : rng) :
  valid_date day -> preconditions issues R mth ->
  (forall fuel ps g',
      build_day_payloads fuel day issues R mth g = Returned (ps, g') ->
      Forall (fun e => 0 < duration e /\ duration e mod 3600 = 0
                       /\ duration e <= mth * 3600) ps)
  /\ (clock_in_range day R -> weights_in_float_range issues ->
      forall fuel, enough_fuel R fuel ->
      exists ps g',
        build_day_payloads fuel day issues R mth g = Returned (ps, g')).
Proof.
  intros Hd Hpre. split.
  - intros fuel ps g' Hrun. destruct Hpre as (HR & _).
    destruct (build_day_payloads_returned _ _ _ _ _ _ _ _ Hd HR Hrun)
      as (st' & (_ & _ & _ & _ & _ & Hok & _) & _ & <-).
    exact Hok.
  - intros Hclock Hfloat fuel Hfuel.
    exact (build_day_payloads_returns fuel day issues R mth g
             Hd Hpre Hclock Hfloat Hfuel).
Qed.

Lemma build_day_payloads_whole_hours_witness :
  valid_date monday /\ preconditions two_issues 14400 2
  /\ exists ps g',
       @build_day_payloads tape_source 4 monday two_issues 14400 2
         [0; 1; 1; 0; 1; 1] = Returned (ps, g')
       /\ List.length ps = 3%nat
       /\ Forall (fun e => 0 < duration e /\ duration e mod 3600 = 0
                           /\ duration e <= 2 * 3600) ps.
Proof.
  assert (Hd : valid_date monday) by reflexivity.
  assert (Hpre : preconditions two_issues 14400 2) by sample_preconditions.
  destruct (@build_day_payloads_whole_hours tape_source monday two_issues
              14400 2 [0; 1; 1; 0; 1; 1] Hd Hpre) as [Hall _].
  refine (conj Hd (conj Hpre _)).
  eexists _, _. split; [vm_compute; reflexivity |].
  split; [reflexivity |].
  eapply (Hall 4%nat). vm_compute. reflexivity.
Defined.

(** C3.  With under one hour of budget (zero and negative budgets
    included) the allocator returns the empty list, whatever the day, the
    issues and the per-entry maximum. *)
Theorem build_day_payloads_under_one_hour {RS : RandomSource}
    (fuel : nat) (day : date) (issues : list Issue) (R mth : Z) (g : rng) :
  R < 3600 ->
  build_day_payloads fuel day issues R mth g = Returned ([], g).
Proof. apply build_day_payloads_small. Qed.

Lemma build_day_payloads_under_one_hour_witness :
  3599 < 3600
  /\ @build_day_payloads tape_source 0 monday [] 3599 0 [4; 2]
     = Returned ([], [4; 2]).
Proof.
  assert (H : 3599 < 3600) by lia.
  exact (conj H (@build_day_payloads_under_one_hour tape_source 0 monday []
                   3599 0 [4; 2] H)).
Defined.

(** C4.  The loop terminates: with one unit of fuel for each whole hour of
    the budget the run is never cut short, and it returns whenever the
    clock stays within range and the weights total within what a float can
    hold; each iteration that completes lowers the remaining budget by at
    least 3600 seconds; and the entries returned, one per iteration, are
    at most [R / 3600]. *)
Theorem build_day_payloads_terminates {RS : RandomSource}
    (day : date) (issues : list Issue) (R mth : Z) (g : rng) :
  valid_date day -> preconditions issues R mth ->
  (forall fuel, enough_fuel R fuel ->
      build_day_payloads fuel day issues R mth g <> OutOfFuel)
  /\ (clock_in_range day R -> weights_in_float_range issues ->
      forall fuel, enough_fuel R fuel ->
      exists ps g',
        build_day_payloads fuel day issues R mth g = Returned (ps, g'))
  /\ (forall st st',
        loop_body (map key issues) (map weight issues) (mth * hour_seconds) st
        = Returned st' ->
        remaining_seconds st' <= remaining_seconds st - 3600)
  /\ (forall fuel ps g',
        build_day_payloads fuel day issues R mth g = Returned (ps, g') ->
        Z.of_nat (List.length ps) <= R / 3600).
Proof.
  intros Hd Hpre. split; [| split; [| split]].
  - intros fuel Hfuel.
    destruct (Z.lt_ge_cases
                (Z.abs (total_weight (map weight issues))) FLOAT_LIMIT)
      as [Hfloat | Hheavy].
    + destruct (Z.lt_ge_cases
                  (local_seconds (combine day 10 0 0 (3 * 3600))
                   + 3600 * (R / 3600)) END_OF_TIME) as [Hin | Hout].
      * destruct (build_day_payloads_returns fuel day issues R mth g
                    Hd Hpre Hin Hfloat Hfuel) as (ps & g' & ->).
        discriminate.
      * rewrite (build_day_payloads_raises fuel day issues R mth g Hd Hpre);
          [discriminate | unfold clock_in_range; lia | exact Hfloat
           | exact Hfuel].
    + destruct (Z.lt_ge_cases R 3600) as [Hsmall | Hbig].
      * rewrite (build_day_payloads_small fuel day issues R mth g Hsmall).
        discriminate.
      * destruct fuel as [| fuel].
        -- exfalso. unfold enough_fuel in Hfuel.
           assert (1 <= R / 3600) by euclid. lia.
        -- rewrite (build_day_payloads_heavy fuel day issues R mth g Hpre);
             [discriminate | unfold weights_in_float_range; lia | exact Hbig].
  - intros Hclock Hfloat fuel Hfuel.
    exact (build_day_payloads_returns fuel day issues R mth g
             Hd Hpre Hclock Hfloat Hfuel).
  - intros st st' Hbody. apply loop_body_returned in Hbody.
    destruct Hbody as (h & k & Hh & _ & Hrem & _). lia.
  - intros fuel ps g' Hrun. destruct Hpre as (HR & _).
    destruct (build_day_payloads_returned _ _ _ _ _ _ _ _ Hd HR Hrun)
      as (st' & Hinv & Hlt & <-).
    destruct (invariant_whole_hours _ _ _ _ _ Hinv) as [_ Hlen].
    destruct Hinv as (Hrem & Hsum & _).
    apply Z.div_le_lower_bound; lia.
Qed.

Lemma build_day_payloads_terminates_witness :
  valid_date monday /\ preconditions two_issues 30000 3
  /\ enough_fuel 30000 8
  /\ @build_day_payloads tape_source 8 monday two_issues 30000 3 [2; 5; 0]
     <> OutOfFuel
  /\ exists ps g',
       @build_day_payloads tape_source 8 monday two_issues 30000 3 [2; 5; 0]
       = Returned (ps, g')
       /\ Z.of_nat (List.length ps) <= 30000 / 3600.
Proof.
  assert (Hd : valid_date monday) by reflexivity.
  assert (Hpre : preconditions two_issues 30000 3) by sample_preconditions.
  assert (Hfuel : enough_fuel 30000 8) by (vm_compute; lia).
  destruct (@build_day_payloads_terminates tape_source monday two_issues
              30000 3 [2; 5; 0] Hd Hpre) as (Hrun & _ & _ & Hlen).
  refine (conj Hd (conj Hpre (conj Hfuel (conj (Hrun 8%nat Hfuel) _)))).
  eexists _, _. split; [vm_compute; reflexivity |].
  eapply (Hlen 8%nat). vm_compute. reflexivity.
Defined.

(** C6.  The first entry the allocator emits starts at 10:00:00, at the
    fixed offset UTC+3, on the target day, and the entries start at
    strictly increasing instants; and the allocator does emit its entries
    whenever the clock stays within range and the weights total within
    what a float can hold. *)
Theorem build_day_payloads_clock {RS : RandomSource}
    (day : date) (issues : list Issue) (R mth : Z) (g : rng) :
  valid_date day -> preconditions issues R mth ->
  (forall fuel ps g',
      build_day_payloads fuel day issues R mth g = Returned (ps, g') ->
      (forall e rest, ps = e :: rest ->
                      started (snd e) = mkdatetime day 10 0 0 (3 * 3600))
      /\ StronglySorted Z.lt (starts ps))
  /\ (clock_in_range day R -> weights_in_float_range issues ->
      forall fuel, enough_fuel R fuel ->
      exists ps g',
        build_day_payloads fuel day issues R mth g = Returned (ps, g')).
Proof.
  intros Hd Hpre. split.
  - intros fuel ps g' Hrun. destruct Hpre as (HR & _).
    destruct (build_day_payloads_returned _ _ _ _ _ _ _ _ Hd HR Hrun)
      as (st' & (_ & _ & _ & _ & _ & Hok & _ & Htiles & Hhead) & _ & <-).
    split.
    + intros e rest Hps. rewrite Hps in Hhead. exact Hhead.
    + exact (proj2 (tiles_increasing _ _ _ _ Htiles Hok)).
  - intros Hclock Hfloat fuel Hfuel.
    exact (build_day_payloads_returns fuel day issues R mth g
             Hd Hpre Hclock Hfloat Hfuel).
Qed.

Lemma build_day_payloads_clock_witness :
  valid_date monday /\ preconditions two_issues 18000 2
  /\ exists ps g',
       @build_day_payloads tape_source 5 monday two_issues 18000 2
         [1; 0; 0; 1; 3; 6] = Returned (ps, g')
       /\ List.length ps = 3%nat
       /\ (forall e rest, ps = e :: rest ->
                          started (snd e) = mkdatetime monday 10 0 0 (3 * 3600))
       /\ StronglySorted Z.lt (starts ps).
Proof.
  assert (Hd : valid_date monday) by reflexivity.
  assert (Hpre : preconditions two_issues 18000 2) by sample_preconditions.
  destruct (@build_day_payloads_clock tape_source monday two_issues
              18000 2 [1; 0; 0; 1; 3; 6] Hd Hpre) as [Hclock _].
  refine (conj Hd (conj Hpre _)).
  eexists _, _. split; [vm_compute; reflexivity |].
  split; [reflexivity |].
  eapply (Hclock 5%nat). vm_compute. reflexivity.
Defined.

(** C9, as amended.  Under the preconditions, when the clock stays within
    what a [datetime] can hold and the weights total less than the least
    integer that no float can hold, the allocator returns, and the
    durations it emits sum to exactly [3600 * (R / 3600)]: what is left
    unallocated is [R mod 3600], and a budget that is a whole number of
    hours is consumed exactly. *)
Theorem build_day_payloads_total {RS : RandomSource}
    (fuel : nat) (day : date) (issues : list Issue) (R mth : Z) (g : rng) :
  valid_date day -> preconditions issues R mth -> clock_in_range day R ->
  weights_in_float_range issues -> enough_fuel R fuel ->
  exists ps g',
    build_day_payloads fuel day issues R mth g = Returned (ps, g')
    /\ total_duration ps = 3600 * (R / 3600)
    /\ R - total_duration ps = R mod 3600
    /\ (R mod 3600 = 0 -> total_duration ps = R).
Proof.
  intros Hd Hpre Hclock Hfloat Hfuel.
  destruct (build_day_payloads_returns fuel day issues R mth g
              Hd Hpre Hclock Hfloat Hfuel) as (ps & g' & Hrun).
  exists ps, g'. split; [exact Hrun |].
  destruct Hpre as (HR & _).
  destruct (build_day_payloads_returned _ _ _ _ _ _ _ _ Hd HR Hrun)
    as (st' & Hinv & Hlt & <-).
  destruct (invariant_whole_hours _ _ _ _ _ Hinv) as [Hmod _].
  destruct Hinv as (Hrem & Hsum & _).
  repeat split; intros; euclid.
Qed.

Lemma build_day_payloads_total_witness :
  valid_date monday /\ preconditions two_issues 12000 2
  /\ clock_in_range monday 12000 /\ weights_in_float_range two_issues
  /\ enough_fuel 12000 3
  /\ exists ps g',
       @build_day_payloads tape_source 3 monday two_issues 12000 2 [5; 1; 2; 3]
       = Returned (ps, g')
       /\ total_duration ps = 3600 * (12000 / 3600)
       /\ 12000 - total_duration ps = 12000 mod 3600
       /\ (12000 mod 3600 = 0 -> total_duration ps = 12000).
Proof.
  assert (Hd : valid_date monday) by reflexivity.
  assert (Hpre : preconditions two_issues 12000 2) by sample_preconditions.
  assert (Hclock : clock_in_range monday 12000) by (vm_compute; reflexivity).
  assert (Hfloat : weights_in_float_range two_issues)
    by (vm_compute; reflexivity).
  assert (Hfuel : enough_fuel 12000 3) by (vm_compute; lia).
  refine (conj Hd (conj Hpre (conj Hclock (conj Hfloat (conj Hfuel _))))).
  exact (@build_day_payloads_total tape_source 3 monday two_issues
           12000 2 [5; 1; 2; 3] Hd Hpre Hclock Hfloat Hfuel).
Defined.

(** C9 as stated fails: on 9999-12-31, with a budget of 14 hours and a
    half and a maximum of 14 hours per entry, the preconditions hold and
    the allocator raises [OverflowError], at once with a generator that
    draws the 14 hours in one entry and sooner or later with any
    generator; the 50400 seconds the claim promises are not emitted. *)
Lemma build_day_payloads_total_overflow :
  valid_date last_day /\ preconditions two_issues 52200 14
  /\ (forall fuel,
        @build_day_payloads greedy_source (S fuel) last_day two_issues 52200 14 tt
        = Raised OverflowError)
  /\ (forall (RS : RandomSource) (g : rng) (fuel : nat),
        enough_fuel 52200 fuel ->
        build_day_payloads fuel last_day two_issues 52200 14 g
        = Raised OverflowError)
  /\ (forall fuel,
        ~ exists ps g',
            @build_day_payloads greedy_source fuel last_day two_issues 52200 14 tt
            = Returned (ps, g')
            /\ total_duration ps = 3600 * (52200 / 3600)).
Proof.
  assert (Hd : valid_date last_day) by reflexivity.
  assert (Hpre : preconditions two_issues 52200 14) by sample_preconditions.
  assert (Hraise : forall fuel,
             @build_day_payloads greedy_source (S fuel) last_day two_issues
               52200 14 tt = Raised OverflowError)
    by (intros fuel; lazy; reflexivity).
  refine (conj Hd (conj Hpre (conj Hraise (conj _ _)))).
  - intros RS g fuel Hfuel.
    apply (build_day_payloads_raises fuel last_day two_issues 52200 14 g
             Hd Hpre); [| vm_compute; reflexivity | exact Hfuel].
    vm_compute. discriminate.
  - intros [| fuel] (ps & g' & Hrun & _).
    + lazy in Hrun. discriminate.
    + rewrite Hraise in Hrun. discriminate.
Qed.

(** C10.  The entries of one call tile time: each entry after the first
    starts at the instant its predecessor started plus the predecessor's
    duration in seconds; and the allocator does emit its entries, under its
    preconditions, whenever the clock stays within range and the weights
    total within what a float can hold. *)
Theorem build_day_payloads_contiguous {RS : RandomSource}
    (day : date) (issues : list Issue) (R mth : Z) (g : rng) :
  valid_date day ->
  (forall fuel ps g',
      build_day_payloads fuel day issues R mth g = Returned (ps, g') ->
      forall i e1 e2,
        nth_error ps i = Some e1 -> nth_error ps (S i) = Some e2 ->
        utc_seconds (started (snd e2))
        = utc_seconds (started (snd e1)) + duration e1)
  /\ (preconditions issues R mth -> clock_in_range day R ->
      weights_in_float_range issues ->
      forall fuel, enough_fuel R fuel ->
      exists ps g',
        build_day_payloads fuel day issues R mth g = Returned (ps, g')).
Proof.
  intros Hd. split.
  - intros fuel ps g' Hrun i e1 e2 H1 H2.
    destruct (Z.lt_ge_cases R 3600) as [Hsmall | Hbig].
    + rewrite (build_day_payloads_small fuel day issues R mth g Hsmall) in Hrun.
      injection Hrun as <- _. destruct i; discriminate.
    + assert (HR : 0 <= R) by lia.
      destruct (build_day_payloads_returned _ _ _ _ _ _ _ _ Hd HR Hrun)
        as (st' & (_ & _ & _ & _ & _ & _ & _ & Htiles & _) & _ & <-).
      exact (tiles_consecutive _ _ _ _ _ _ Htiles H1 H2).
  - intros Hpre Hclock Hfloat fuel Hfuel.
    exact (build_day_payloads_returns fuel day issues R mth g
             Hd Hpre Hclock Hfloat Hfuel).
Qed.

Lemma build_day_payloads_contiguous_witness :
  valid_date monday
  /\ exists ps g',
       @build_day_payloads tape_source 6 monday two_issues 21600 3
         [2; 0; 1; 1; 0; 0] = Returned (ps, g')
       /\ List.length ps = 3%nat
       /\ forall i e1 e2,
            nth_error ps i = Some e1 -> nth_error ps (S i) = Some e2 ->
            utc_seconds (started (snd e2))
            = utc_seconds (started (snd e1)) + duration e1.
Proof.
  assert (Hd : valid_date monday) by reflexivity.
  destruct (@build_day_payloads_contiguous tape_source monday two_issues
              21600 3 [2; 0; 1; 1; 0; 0] Hd) as [Htile _].
  refine (conj Hd _).
  eexists _, _. split; [vm_compute; reflexivity |].
  split; [reflexivity |].
  eapply (Htile 6%nat). vm_compute. reflexivity.
Defined.

(** ** The fill loop of [main] *)





(** ** [working_days] *)

Lemma toordinal_below_max d :
  valid_date d -> d <> date_max -> toordinal d < _MAXORDINAL.
Proof.
  intros Hd Hne. pose proof (toordinal_bounds d Hd) as Hb.
  destruct (Z.eq_dec (toordinal d) _MAXORDINAL) as [E | E]; [| lia].
  exfalso. apply Hne. apply toordinal_inj; [assumption | reflexivity |].
  rewrite E. reflexivity.
Qed.

(** C7, as amended.  For dates [start_date <= end_date], [end_date] not
    being the last date there is (9999-12-31), [working_days] returns
    exactly the Monday-to-Friday dates of the inclusive range, in calendar
    order, and so no Saturday and no Sunday; and for the span from Monday
    2025-01-06 to Sunday 2025-01-12 it returns the five weekdays. *)
Theorem working_days_weekdays :
  (forall (start_date end_date : date) (fuel : nat),
      valid_date start_date -> valid_date end_date ->
      date_le start_date end_date -> end_date <> date_max ->
      (Z.to_nat (toordinal end_date - toordinal start_date + 1) <= fuel)%nat ->
      exists days,
        working_days fuel start_date end_date = Returned days
        /\ (forall d, In d days <->
                      valid_date d /\ date_le start_date d
                      /\ date_le d end_date /\ weekday d < 5)
        /\ StronglySorted date_lt days)
  /\ working_days 7 (mkdate 2025 1 6) (mkdate 2025 1 12)
     = Returned [mkdate 2025 1 6; mkdate 2025 1 7; mkdate 2025 1 8;
                 mkdate 2025 1 9; mkdate 2025 1 10].
Proof.
  split; [| vm_compute; reflexivity].
  intros start_date end_date fuel Hs He Hle Hmax Hfuel.
  exists (weekdays_between start_date end_date).
  unfold working_days.
  rewrite (working_days_loop_returns fuel start_date end_date [] Hs He
             (toordinal_below_max _ He Hmax) Hfuel).
  split; [reflexivity |].
  exact (weekdays_between_spec start_date end_date Hs He).
Qed.

Lemma working_days_weekdays_witness :
  valid_date monday /\ valid_date sunday /\ date_le monday sunday
  /\ sunday <> date_max
  /\ exists days,
       working_days 7 monday sunday = Returned days
       /\ (forall d, In d days <->
                     valid_date d /\ date_le monday d
                     /\ date_le d sunday /\ weekday d < 5)
       /\ StronglySorted date_lt days.
Proof.
  assert (Hs : valid_date monday) by reflexivity.
  assert (He : valid_date sunday) by reflexivity.
  assert (Hle : date_le monday sunday) by reflexivity.
  assert (Hmax : sunday <> date_max) by discriminate.
  assert (Hfuel : (Z.to_nat (toordinal sunday - toordinal monday + 1) <= 7)%nat)
    by (vm_compute; lia).
  refine (conj Hs (conj He (conj Hle (conj Hmax _)))).
  exact (proj1 working_days_weekdays monday sunday 7%nat Hs He Hle Hmax Hfuel).
Defined.

(** C7 as stated fails when the range ends on the last date there is:
    [working_days(date(9999, 12, 31), date(9999, 12, 31))] appends that
    Friday and then raises [OverflowError] on stepping to the next day. *)
Lemma working_days_overflow_at_date_max :
  valid_date date_max /\ date_le date_max date_max
  /\ (forall fuel,
        working_days (S fuel) date_max date_max = Raised OverflowError)
  /\ (forall fuel,
        ~ exists days, working_days fuel date_max date_max = Returned days).
Proof.
  assert (Hraise : forall fuel,
             working_days (S fuel) date_max date_max = Raised OverflowError)
    by (intros fuel; lazy; reflexivity).
  split; [reflexivity |]. split; [reflexivity |]. split; [exact Hraise |].
  intros [| fuel] (days & Hrun).
  - lazy in Hrun. discriminate.
  - rewrite Hraise in Hrun. discriminate.
Qed.

(** ** [subtract_one_month] *)

Lemma monthrange_ndays_days_in_month y m :
  1 <= m <= 12 -> monthrange_ndays y m = Returned (_days_in_month y m).
Proof.
  intros Hm. unfold monthrange_ndays, _days_in_month.
  change (isleap y) with (_is_leap y).
  replace ((1 <=? m) && (m <=? 12)) with true
    by (symmetry; apply andb_true_iff; rewrite !Z.leb_le; lia).
  f_equal. destruct (_is_leap y); month_cases m; reflexivity.
Qed.

Lemma days_in_month_bounds y m :
  1 <= m <= 12 -> 28 <= _days_in_month y m <= 31.
Proof.
  intros Hm. unfold _days_in_month.
  destruct (_is_leap y); month_cases m; table; lia.
Qed.

(** C8, as amended.  For every valid date other than those of January of
    year 1, [subtract_one_month] returns a valid date of the previous
    month (December of the previous year for a date of January) whose day
    is the smaller of the day given and the last day of that month; on 31
    March it returns the last day of February, the 29th in a leap year and
    the 28th otherwise. *)
Theorem subtract_one_month_previous_month :
  (forall today : date,
      valid_date today -> ~ (year today = 1 /\ month today = 1) ->
      exists d,
        subtract_one_month today = Returned d
        /\ valid_date d
        /\ ((month today = 1 /\ year d = year today - 1 /\ month d = 12)
            \/ (1 < month today /\ year d = year today
                /\ month d = month today - 1))
        /\ day d = Z.min (day today) (_days_in_month (year d) (month d)))
  /\ (forall y, 1 <= y <= 9999 ->
        subtract_one_month (mkdate y 3 31)
        = Returned (mkdate y 2 (if _is_leap y then 29 else 28))).
Proof.
  split.
  - intros today Hv Hnot. apply valid_date_iff in Hv.
    destruct Hv as (Hy & Hm & Hd). unfold MINYEAR, MAXYEAR in Hy.
    unfold subtract_one_month.
    destruct (Z.eqb_spec (month today - 1) 0) as [E | E].
    + rewrite (monthrange_ndays_days_in_month (year today - 1) 12) by lia.
      cbn [bind].
      pose proof (days_in_month_bounds (year today - 1) 12 ltac:(lia)) as Hb.
      set (d := mkdate (year today - 1) 12
                       (Z.min (day today) (_days_in_month (year today - 1) 12))).
      assert (Hvd : valid_date d)
        by (apply valid_date_iff; unfold MINYEAR, MAXYEAR; subst d;
            cbn [year month day]; lia).
      unfold new_date. fold d. rewrite Hvd.
      exists d. repeat split; try assumption.
      left. subst d. cbn [year month day]. lia.
    + rewrite (monthrange_ndays_days_in_month (year today) (month today - 1))
        by lia.
      cbn [bind].
      pose proof (days_in_month_bounds (year today) (month today - 1)
                    ltac:(lia)) as Hb.
      set (d := mkdate (year today) (month today - 1)
                       (Z.min (day today)
                              (_days_in_month (year today) (month today - 1)))).
      assert (Hvd : valid_date d)
        by (apply valid_date_iff; unfold MINYEAR, MAXYEAR; subst d;
            cbn [year month day]; lia).
      unfold new_date. fold d. rewrite Hvd.
      exists d. repeat split; try assumption.
      right. subst d. cbn [year month day]. lia.
  - intros y Hy. unfold subtract_one_month. cbn [year month day].
    change (3 - 1 =? 0) with false. cbv iota.
    rewrite (monthrange_ndays_days_in_month y (3 - 1)) by lia.
    cbn [bind]. change (3 - 1) with 2.
    unfold new_date, valid_dateb, _days_in_month, MINYEAR, MAXYEAR.
    cbn [year month day]. change (2 =? 2) with true. cbn [andb].
    replace (1 <=? y) with true by (symmetry; apply Z.leb_le; lia).
    replace (y <=? 9999) with true by (symmetry; apply Z.leb_le; lia).
    destruct (_is_leap y); reflexivity.
Qed.

Lemma subtract_one_month_previous_month_witness :
  valid_date (mkdate 2024 3 31)
  /\ ~ (year (mkdate 2024 3 31) = 1 /\ month (mkdate 2024 3 31) = 1)
  /\ exists d,
       subtract_one_month (mkdate 2024 3 31) = Returned d
       /\ valid_date d
       /\ ((month (mkdate 2024 3 31) = 1
            /\ year d = year (mkdate 2024 3 31) - 1 /\ month d = 12)
           \/ (1 < month (mkdate 2024 3 31)
               /\ year d = year (mkdate 2024 3 31)
               /\ month d = month (mkdate 2024 3 31) - 1))
       /\ day d = Z.min (day (mkdate 2024 3 31))
                        (_days_in_month (year d) (month d)).
Proof.
  assert (Hv : valid_date (mkdate 2024 3 31)) by reflexivity.
  assert (Hnot : ~ (year (mkdate 2024 3 31) = 1 /\ month (mkdate 2024 3 31) = 1))
    by (cbn [year month]; lia).
  refine (conj Hv (conj Hnot _)).
  exact (proj1 subtract_one_month_previous_month (mkdate 2024 3 31) Hv Hnot).
Defined.

(** C8 as stated fails in January of year 1: the month before is December
    of year 0, which is no date, and [date(0, 12, 15)] raises
    [ValueError]. *)
Lemma subtract_one_month_year_one :
  valid_date (mkdate 1 1 15)
  /\ subtract_one_month (mkdate 1 1 15) = Raised ValueError
  /\ ~ exists d, subtract_one_month (mkdate 1 1 15) = Returned d.
Proof.
  split; [reflexivity |]. split; [reflexivity |].
  intros (d & Hd). discriminate Hd.
Qed.
(** ** More facts about the dates and the fill loop *)

Module DayFacts.
Import PyDatetime PyCalendar PyRandom Timesheet Spec DaySpec Sources Samples.
Import CalendarFacts AllocatorFacts BuildFacts WorkingDaysFacts.

Lemma days_before_next_month y m :
  2 <= m <= 12 ->
  _days_before_month y m = _days_before_month y (m - 1) + _days_in_month y (m - 1).
Proof.
  intros Hm. unfold _days_before_month, _days_in_month.
  destruct (_is_leap y); month_cases m; try lia; reflexivity.
Qed.

Lemma days_in_month_range y m :
  1 <= m <= 12 -> 28 <= _days_in_month y m <= 31.
Proof.
  intros Hm. unfold _days_in_month.
  destruct (_is_leap y); month_cases m; table; lia.
Qed.

Lemma monthrange_ndays_is_days_in_month y m :
  1 <= m <= 12 -> monthrange_ndays y m = Returned (_days_in_month y m).
Proof.
  intros Hm. unfold monthrange_ndays, _days_in_month.
  change (isleap y) with (_is_leap y).
  replace ((1 <=? m) && (m <=? 12)) with true
    by (symmetry; apply andb_true_iff; rewrite !Z.leb_le; lia).
  f_equal. destruct (_is_leap y); month_cases m; reflexivity.
Qed.

Lemma new_date_returned y m d x :
  new_date y m d = Returned x -> x = mkdate y m d /\ valid_date x.
Proof.
  unfold new_date. destruct (valid_dateb (mkdate y m d)) eqn:E; [| discriminate].
  intros H. injection H as <-. split; [reflexivity | exact E].
Qed.

(** X1.  Whenever [subtract_one_month] returns, its result is a valid date
    strictly before the date given, by 28 to 31 days. *)
Theorem subtract_one_month_earlier (today d : date) :
  valid_date today -> subtract_one_month today = Returned d ->
  valid_date d /\ date_lt d today
  /\ 28 <= toordinal today - toordinal d <= 31.
Proof.
  intros Hv Hrun. pose proof Hv as Hv0. apply valid_date_iff in Hv.
  destruct Hv as (Hy & Hm & Hd). unfold MINYEAR, MAXYEAR in Hy.
  pose proof (days_in_month_range (year today) (month today) Hm) as Hdim.
  unfold subtract_one_month in Hrun.
  assert (Hord : valid_date d /\ 28 <= toordinal today - toordinal d <= 31).
  { destruct (Z.eqb_spec (month today - 1) 0) as [E | E].
    - rewrite (monthrange_ndays_is_days_in_month (year today - 1) 12) in Hrun
        by lia.
      cbn [bind] in Hrun. apply new_date_returned in Hrun.
      destruct Hrun as [-> Hvd]. split; [exact Hvd |].
      unfold toordinal, _ymd2ord. cbn [year month day].
      replace (month today) with 1 by lia.
      pose proof (days_before_year_succ (year today - 1)) as Hs.
      replace (year today - 1 + 1) with (year today) in Hs by lia.
      unfold year_length in Hs.
      assert (H1 : _days_before_month (year today) 1 = 0)
        by (unfold _days_before_month; destruct (_is_leap (year today));
            reflexivity).
      assert (H12 : _days_before_month (year today - 1) 12
                    = if _is_leap (year today - 1) then 335 else 334)
        by (unfold _days_before_month; destruct (_is_leap (year today - 1));
            reflexivity).
      assert (H31 : _days_in_month (year today - 1) 12 = 31)
        by (unfold _days_in_month; destruct (_is_leap (year today - 1));
            reflexivity).
      replace (month today) with 1 in Hdim by lia.
      rewrite H1, H12, H31.
      assert (Hd31 : day today <= 31)
        by (unfold _days_in_month in Hd;
            replace (month today) with 1 in Hd by lia;
            destruct (_is_leap (year today)); table; lia).
      destruct (_is_leap (year today - 1)); lia.
    - rewrite (monthrange_ndays_is_days_in_month (year today) (month today - 1))
        in Hrun by lia.
      cbn [bind] in Hrun. apply new_date_returned in Hrun.
      destruct Hrun as [-> Hvd]. split; [exact Hvd |].
      unfold toordinal, _ymd2ord. cbn [year month day].
      rewrite (days_before_next_month (year today) (month today)) by lia.
      pose proof (days_in_month_range (year today) (month today - 1)
                    ltac:(lia)).
      lia. }
  destruct Hord as [Hvd Hord]. split; [exact Hvd |]. split; [| exact Hord].
  apply date_lt_toordinal; [assumption | assumption | lia].
Qed.

(** X2.  Seven days in a row hold exactly five working days, whichever
    weekday they start on. *)
Theorem working_days_full_week (start_date end_date : date) (fuel : nat) :
  valid_date start_date -> valid_date end_date ->
  toordinal end_date = toordinal start_date + 6 ->
  end_date <> date_max -> (7 <= fuel)%nat ->
  exists days,
    working_days fuel start_date end_date = Returned days
    /\ List.length days = 5%nat.
Proof.
  intros Hs He Hspan Hmax Hfuel.
  assert (Hlt : toordinal end_date < _MAXORDINAL).
  { pose proof (toordinal_bounds _ He) as Hb.
    destruct (Z.eq_dec (toordinal end_date) _MAXORDINAL) as [E | E]; [| lia].
    exfalso. apply Hmax. apply toordinal_inj; [assumption | reflexivity |].
    rewrite E. reflexivity. }
  exists (weekdays_between start_date end_date). split.
  - unfold working_days.
    rewrite (working_days_loop_returns fuel start_date end_date [] Hs He Hlt)
      by (rewrite Hspan; lia).
    reflexivity.
  - unfold weekdays_between. rewrite Hspan.
    replace (Z.to_nat (toordinal start_date + 6 - toordinal start_date + 1))
      with 7%nat by lia.
    pose proof (toordinal_bounds _ Hs) as Bs.
    set (a := toordinal start_date) in *.
    assert (Hw : forall i, 0 <= i <= 6 ->
                 weekday (fromordinal (a + i)) = (a + i + 6) mod 7).
    { intros i Hi. unfold weekday.
      destruct (fromordinal_ok (a + i) ltac:(lia)) as [_ ->]. reflexivity. }
    cbn [dates_from filter].
    replace (a + 1 + 1) with (a + 2) by lia.
    replace (a + 2 + 1) with (a + 3) by lia.
    replace (a + 3 + 1) with (a + 4) by lia.
    replace (a + 4 + 1) with (a + 5) by lia.
    replace (a + 5 + 1) with (a + 6) by lia.
    replace (fromordinal a) with (fromordinal (a + 0)) by (f_equal; lia).
    rewrite !Hw by lia.
    assert (Hr : 0 <= a mod 7 < 7) by (apply Z.mod_pos_bound; lia).
    assert (Hc : a mod 7 = 0 \/ a mod 7 = 1 \/ a mod 7 = 2 \/ a mod 7 = 3
                 \/ a mod 7 = 4 \/ a mod 7 = 5 \/ a mod 7 = 6) by lia.
    assert (Hmod : forall i, (a + i + 6) mod 7 = (a mod 7 + (i + 6)) mod 7)
      by (intros i; rewrite <- Z.add_assoc, Zplus_mod_idemp_l; reflexivity).
    rewrite !Hmod.
    destruct Hc as [-> | [-> | [-> | [-> | [-> | [-> | ->]]]]]]; reflexivity.
Qed.

Lemma subtract_one_month_earlier_witness :
  valid_date (mkdate 2025 3 31)
  /\ subtract_one_month (mkdate 2025 3 31) = Returned (mkdate 2025 2 28)
  /\ valid_date (mkdate 2025 2 28)
  /\ date_lt (mkdate 2025 2 28) (mkdate 2025 3 31)
  /\ 28 <= toordinal (mkdate 2025 3 31) - toordinal (mkdate 2025 2 28) <= 31.
Proof.
  assert (Hv : valid_date (mkdate 2025 3 31)) by reflexivity.
  assert (Hrun : subtract_one_month (mkdate 2025 3 31)
                 = Returned (mkdate 2025 2 28)) by reflexivity.
  exact (conj Hv (conj Hrun (subtract_one_month_earlier _ _ Hv Hrun))).
Defined.

Lemma working_days_full_week_witness :
  valid_date monday /\ valid_date sunday
  /\ toordinal sunday = toordinal monday + 6 /\ sunday <> date_max
  /\ exists days,
       working_days 7 monday sunday = Returned days
       /\ List.length days = 5%nat.
Proof.
  assert (Hs : valid_date monday) by reflexivity.
  assert (He : valid_date sunday) by reflexivity.
  assert (Hspan : toordinal sunday = toordinal monday + 6) by reflexivity.
  assert (Hmax : sunday <> date_max) by discriminate.
  refine (conj Hs (conj He (conj Hspan (conj Hmax _)))).
  exact (working_days_full_week monday sunday 7 Hs He Hspan Hmax (le_n 7)).
Defined.

Section FillDay.
Context {RS : RandomSource}.

Lemma submit_all_dry_run post c ps :
  submit_all true post c ps
  = Returned (mkcounters (created c + Z.of_nat (List.length ps))
                         (skipped_days c) (errors c)).
Proof.
  revert c. induction ps as [| e ps IH]; intros c.
  - cbn [submit_all List.length]. destruct c; cbn. f_equal. f_equal. lia.
  - cbn [submit_all submit bind]. rewrite IH.
    cbn [created skipped_days errors List.length]. f_equal. f_equal. lia.
Qed.

Lemma submit_all_posted post c ps :
  (forall k p, post k p = Returned tt \/ post k p = Raised RuntimeError) ->
  submit_all false post c ps
  = Returned (mkcounters
                (created c + Z.of_nat (List.length (accepted post ps)))
                (skipped_days c)
                (errors c + Z.of_nat (List.length ps)
                 - Z.of_nat (List.length (accepted post ps)))).
Proof.
  intros Hpost. revert c. induction ps as [| e ps IH]; intros c.
  - cbn [submit_all accepted filter List.length]. destruct c; cbn.
    f_equal. f_equal; lia.
  - cbn [submit_all submit accepted filter].
    destruct (Hpost (fst e) (snd e)) as [-> | ->]; cbn [bind]; rewrite IH;
      cbn [created skipped_days errors List.length]; fold (accepted post ps);
      f_equal; f_equal; lia.
Qed.

Lemma fill_day_returned fuel dry_run post logged_seconds day issues dh mth c g
    c' g' ps :
  fill_day fuel dry_run post (Returned logged_seconds) day issues dh mth c g
  = Returned (c', g', ps) ->
  (ps = [] /\ created c' = created c /\ errors c' = errors c
   /\ skipped_days c' = skipped_days c + 1)
  \/ (ps <> [] /\ 3600 <= dh * 3600 - logged_seconds
      /\ build_day_payloads fuel day issues (dh * 3600 - logged_seconds) mth g
         = Returned (ps, g')
      /\ submit_all dry_run post c ps = Returned c').
Proof.
  unfold fill_day.
  destruct (Z.ltb_spec (dh * 3600 - logged_seconds) 3600) as [Hlt | Hge].
  - intros H. injection H as <- <- <-. left. cbn. auto.
  - intros H. apply bind_returned in H. destruct H as ([qs g1] & Hrun & H).
    destruct qs as [| q qs].
    + injection H as <- <- <-. left. cbn. auto.
    + apply bind_returned in H. destruct H as (c1 & Hsub & H).
      injection H as <- <- <-. right.
      repeat split; try assumption; discriminate.
Qed.

(** X3.  In dry-run mode the tracker is never posted to: the outcome of a day
    is the same whatever [post] would do, and every generated entry is
    counted as created. *)
Theorem fill_day_dry_run
    (fuel : nat) (post : string -> payload -> outcome unit)
    (logged : outcome Z) (day : date) (issues : list Issue)
    (dh mth : Z) (c : counters) (g : rng) :
  (forall post',
      fill_day fuel true post' logged day issues dh mth c g
      = fill_day fuel true post logged day issues dh mth c g)
  /\ (forall logged_seconds c' g' ps,
        logged = Returned logged_seconds ->
        fill_day fuel true post logged day issues dh mth c g
        = Returned (c', g', ps) ->
        ps <> [] ->
        created c' = created c + Z.of_nat (List.length ps)
        /\ errors c' = errors c /\ skipped_days c' = skipped_days c).
Proof.
  split.
  - intros post'. unfold fill_day.
    destruct logged as [l | e |]; try reflexivity.
    destruct (dh * 3600 - l <? 3600); [reflexivity |].
    destruct (build_day_payloads fuel day issues (dh * 3600 - l) mth g)
      as [[ps g'] | e |]; try reflexivity.
    cbn [bind]. destruct ps as [| p ps]; [reflexivity |].
    now rewrite !submit_all_dry_run.
  - intros l c' g' ps -> Hrun Hne.
    apply fill_day_returned in Hrun.
    destruct Hrun as [(Hnil & _) | (_ & _ & _ & Hsub)]; [contradiction |].
    rewrite submit_all_dry_run in Hsub. injection Hsub as <-. cbn. auto.
Qed.

(** X4.  Posting for real, against a tracker whose posts succeed or raise
    [RuntimeError]: a failed post does not stop the entries after it; the
    accepted entries are counted as created and the others as errors. *)
Theorem fill_day_posts_every_entry
    (fuel : nat) (post : string -> payload -> outcome unit)
    (logged_seconds : Z) (day : date) (issues : list Issue)
    (dh mth : Z) (c : counters) (g : rng) :
  (forall k p, post k p = Returned tt \/ post k p = Raised RuntimeError) ->
  (forall ps g',
      build_day_payloads fuel day issues (dh * 3600 - logged_seconds) mth g
      = Returned (ps, g') ->
      3600 <= dh * 3600 - logged_seconds -> ps <> [] ->
      fill_day fuel false post (Returned logged_seconds) day issues dh mth c g
      = Returned
          (mkcounters
             (created c + Z.of_nat (List.length (accepted post ps)))
             (skipped_days c)
             (errors c + Z.of_nat (List.length ps)
              - Z.of_nat (List.length (accepted post ps))),
           g', ps)).
Proof.
  intros Hpost ps g' Hrun Hge Hne. unfold fill_day.
  destruct (Z.ltb_spec (dh * 3600 - logged_seconds) 3600); [lia |].
  rewrite Hrun. cbn [bind]. destruct ps as [| p ps]; [contradiction |].
  rewrite (submit_all_posted post c (p :: ps) Hpost). reflexivity.
Qed.

Lemma fill_day_budget
    (fuel : nat) (dry_run : bool) (post : string -> payload -> outcome unit)
    (logged_seconds : Z) (day : date) (issues : list Issue)
    (dh mth : Z) (c : counters) (g : rng)
    (c' : counters) (g' : rng) (ps : list (string * payload)) :
  valid_date day ->
  fill_day fuel dry_run post (Returned logged_seconds) day issues dh mth c g
  = Returned (c', g', ps) ->
  ps = [] \/ logged_seconds + total_duration ps <= dh * 3600.
Proof.
  intros Hd Hrun. apply fill_day_returned in Hrun.
  destruct Hrun as [(-> & _) | (Hne & Hge & Hbuild & _)]; [now left |].
  assert (HR : 0 <= dh * 3600 - logged_seconds) by lia.
  destruct (build_day_payloads_returned _ _ _ _ _ _ _ _ Hd HR Hbuild)
    as (st' & (Hrem & Hsum & _) & _ & <-).
  right. lia.
Qed.

(** X5.  Whatever is already logged, the entries generated for a day never take
    the day above its target, and none is longer than the per-entry
    maximum. *)
Theorem fill_day_within_target
    (fuel : nat) (dry_run : bool) (post : string -> payload -> outcome unit)
    (logged_seconds : Z) (day : date) (issues : list Issue)
    (dh mth : Z) (c : counters) (g : rng)
    (c' : counters) (g' : rng) (ps : list (string * payload)) :
  valid_date day ->
  fill_day fuel dry_run post (Returned logged_seconds) day issues dh mth c g
  = Returned (c', g', ps) ->
  (ps = [] \/ logged_seconds + total_duration ps <= dh * 3600)
  /\ Forall (fun e => 0 < duration e <= mth * 3600) ps.
Proof.
  intros Hd Hrun. apply fill_day_returned in Hrun.
  destruct Hrun as [(-> & _) | (Hne & Hge & Hbuild & _)].
  - split; [now left | constructor].
  - assert (HR : 0 <= dh * 3600 - logged_seconds) by lia.
    destruct (build_day_payloads_returned _ _ _ _ _ _ _ _ Hd HR Hbuild)
      as (st' & (Hrem & Hsum & _ & _ & _ & Hok & _) & _ & <-).
    split; [right; lia |].
    eapply Forall_impl; [| exact Hok]. cbn beta.
    intros e (Hpos & _ & Hmax). lia.
Qed.

End FillDay.
Lemma fill_day_dry_run_witness :
  (forall post',
      @fill_day tape_source 3 true post' (Returned 3600) monday two_issues
        4 2 (mkcounters 0 0 0) [1; 7; 0; 3; 5]
      = @fill_day tape_source 3 true post_flaky (Returned 3600) monday
          two_issues 4 2 (mkcounters 0 0 0) [1; 7; 0; 3; 5])
  /\ exists c' g' ps,
       @fill_day tape_source 3 true post_flaky (Returned 3600) monday
         two_issues 4 2 (mkcounters 0 0 0) [1; 7; 0; 3; 5]
       = Returned (c', g', ps)
       /\ ps <> []
       /\ created c' = 0 + Z.of_nat (List.length ps)
       /\ errors c' = 0 /\ skipped_days c' = 0.
Proof.
  destruct (@fill_day_dry_run tape_source 3 post_flaky (Returned 3600) monday
              two_issues 4 2 (mkcounters 0 0 0) [1; 7; 0; 3; 5])
    as [Hsame Hcount].
  split; [exact Hsame |].
  eexists _, _, _. split; [vm_compute; reflexivity |].
  split; [discriminate |].
  eapply (Hcount 3600); [reflexivity | vm_compute; reflexivity | discriminate].
Defined.

Lemma fill_day_posts_every_entry_witness :
  (forall k p, post_flaky k p = Returned tt \/ post_flaky k p = Raised RuntimeError)
  /\ exists ps g',
       @build_day_payloads tape_source 3 monday two_issues (4 * 3600 - 3600) 2
         [1; 0; 0; 1; 0; 0] = Returned (ps, g')
       /\ @fill_day tape_source 3 false post_flaky (Returned 3600) monday
            two_issues 4 2 (mkcounters 0 0 0) [1; 0; 0; 1; 0; 0]
          = Returned
              (mkcounters
                 (0 + Z.of_nat (List.length (accepted post_flaky ps)))
                 0
                 (0 + Z.of_nat (List.length ps)
                  - Z.of_nat (List.length (accepted post_flaky ps))),
               g', ps).
Proof.
  assert (Hpost : forall k p, post_flaky k p = Returned tt
                              \/ post_flaky k p = Raised RuntimeError)
    by (intros k p; unfold post_flaky; destruct (k =? "PRJ-2")%string; auto).
  split; [exact Hpost |].
  eexists _, _. split; [vm_compute; reflexivity |].
  apply (@fill_day_posts_every_entry tape_source 3 post_flaky 3600 monday
           two_issues 4 2 (mkcounters 0 0 0) [1; 0; 0; 1; 0; 0] Hpost);
    [vm_compute; reflexivity | lia | discriminate].
Defined.

Lemma fill_day_within_target_witness :
  valid_date monday
  /\ exists c' g' ps,
       @fill_day tape_source 3 false post_flaky (Returned 3600) monday
         two_issues 4 2 (mkcounters 0 0 0) [1; 0; 0; 1; 0; 0]
       = Returned (c', g', ps)
       /\ (ps = [] \/ 3600 + total_duration ps <= 4 * 3600)
       /\ Forall (fun e => 0 < duration e <= 2 * 3600) ps.
Proof.
  assert (Hd : valid_date monday) by reflexivity.
  split; [exact Hd |].
  eexists _, _, _. split; [vm_compute; reflexivity |].
  eapply (@fill_day_within_target tape_source 3 false post_flaky 3600 monday
            two_issues 4 2 (mkcounters 0 0 0) [1; 0; 0; 1; 0; 0]);
    [exact Hd | vm_compute; reflexivity].
Defined.


End DayFacts.
(** ** Facts about the tracker client *)

Module TrackerFacts.
Import PyDatetime Tracker TrackerSpec Samples.
Import AllocatorFacts.

Lemma firstn_next {A : Type} (a b : nat) : forall l : list A,
  firstn a l ++ firstn b (skipn a l) = firstn (a + b) l.
Proof.
  induction a as [| a IH]; intros l; [reflexivity |].
  destruct l as [| x l]; cbn [firstn skipn Nat.add app].
  - now rewrite firstn_nil.
  - now rewrite IH.
Qed.

Lemma serves_step {A : Type} (all : list A) (L s : Z) :
  0 < L -> 0 <= s ->
  firstn (Z.to_nat s) all ++ firstn (Z.to_nat L) (skipn (Z.to_nat s) all)
  = firstn (Z.to_nat (s + L)) all.
Proof.
  intros HL Hs. rewrite firstn_next. f_equal. lia.
Qed.

Lemma firstn_past {A : Type} (all : list A) (n : Z) :
  len all <= n -> firstn (Z.to_nat n) all = all.
Proof. unfold len. intros H. apply firstn_all2. lia. Qed.

Lemma fetch_open_issues_loop_complete {A : Type} (all : list A) (L : Z)
    (request : Z -> outcome (page A)) :
  0 < L -> serves all L request ->
  forall fuel s,
    0 <= s <= len all -> len all - s < Z.of_nat fuel * L ->
    fetch_open_issues_loop fuel request s (firstn (Z.to_nat s) all)
    = Returned all.
Proof.
  intros HL Hserve. induction fuel as [| fuel IH]; intros s Hs Hfuel; [lia |].
  cbn [fetch_open_issues_loop]. rewrite (Hserve s) by lia.
  cbn [bind p_items p_startAt p_maxResults p_total get].
  rewrite (serves_step all L s HL) by lia.
  destruct (Z.leb_spec (len all) (s + L)) as [Hstop | Hmore].
  - now rewrite firstn_past.
  - apply IH; lia.
Qed.

(** X6.  Against a server that pages a list honestly, [fetch_open_issues]
    returns the whole list, each item once and in order. *)
Theorem fetch_open_issues_complete {A : Type} (all : list A) (L : Z)
    (request : Z -> outcome (page A)) (fuel : nat) :
  0 < L -> serves all L request -> len all < Z.of_nat fuel * L ->
  fetch_open_issues fuel request = Returned all.
Proof.
  intros HL Hserve Hfuel. unfold fetch_open_issues.
  apply (fetch_open_issues_loop_complete all L request HL Hserve fuel 0);
    unfold len in *; lia.
Qed.

Lemma fetch_issue_worklogs_loop_complete {A : Type} (all : list A) (L : Z)
    (request : Z -> outcome (page A)) :
  0 < L -> serves_slices all L request ->
  forall fuel s,
    0 <= s <= len all -> len all - s < Z.of_nat fuel * L ->
    fetch_issue_worklogs_loop fuel request s (firstn (Z.to_nat s) all)
    = Returned all.
Proof.
  intros HL Hserve. induction fuel as [| fuel IH]; intros s Hs Hfuel; [lia |].
  cbn [fetch_issue_worklogs_loop].
  destruct (Hserve s ltac:(lia)) as (echo & ->).
  cbn [bind p_items p_startAt p_maxResults p_total get].
  rewrite (serves_step all L s HL) by lia.
  destruct (Z.leb_spec (len all) (s + L)) as [Hstop | Hmore].
  - now rewrite firstn_past.
  - apply IH; lia.
Qed.

(** X8.  Against a server that pages a list honestly, whatever it echoes
    as ["startAt"], [fetch_issue_worklogs] returns the whole list, each
    item once and in order. *)
Theorem fetch_issue_worklogs_complete {A : Type} (all : list A) (L : Z)
    (request : Z -> outcome (page A)) (fuel : nat) :
  0 < L -> serves_slices all L request -> len all < Z.of_nat fuel * L ->
  fetch_issue_worklogs fuel request = Returned all.
Proof.
  intros HL Hserve Hfuel. unfold fetch_issue_worklogs.
  apply (fetch_issue_worklogs_loop_complete all L request HL Hserve fuel 0);
    unfold len in *; lia.
Qed.

Lemma append_keys_present keys items :
  append_keys keys items = keys ++ present_keys items.
Proof.
  revert keys. induction items as [| i items IH]; intros keys;
    cbn [append_keys present_keys flat_map].
  - now rewrite app_nil_r.
  - fold (present_keys items).
    destruct (found_key i) as [key |]; [| apply IH].
    destruct (key =? "")%string; [apply IH |].
    rewrite IH, <- app_assoc. reflexivity.
Qed.

Lemma present_keys_app a b :
  present_keys (a ++ b) = present_keys a ++ present_keys b.
Proof. unfold present_keys. apply flat_map_app. Qed.

Lemma fetch_day_issue_keys_loop_complete (all : list found_issue) (L : Z)
    (request : Z -> outcome (page found_issue)) :
  0 < L -> serves all L request ->
  forall fuel s,
    0 <= s <= len all -> len all - s < Z.of_nat fuel * L ->
    fetch_day_issue_keys_loop fuel request s
      (present_keys (firstn (Z.to_nat s) all))
    = Returned (present_keys all).
Proof.
  intros HL Hserve. induction fuel as [| fuel IH]; intros s Hs Hfuel; [lia |].
  cbn [fetch_day_issue_keys_loop]. rewrite (Hserve s) by lia.
  cbn [bind p_items p_startAt p_maxResults p_total get].
  rewrite append_keys_present, <- present_keys_app.
  rewrite (serves_step all L s HL) by lia.
  destruct (Z.leb_spec (len all) (s + L)) as [Hstop | Hmore].
  - now rewrite firstn_past.
  - apply IH; lia.
Qed.

(** X7.  Against a server that pages a list of issues honestly,
    [fetch_day_issue_keys] returns the non-empty keys of the whole list,
    each occurrence once and in order. *)
Theorem fetch_day_issue_keys_complete (all : list found_issue) (L : Z)
    (request : Z -> outcome (page found_issue)) (fuel : nat) :
  0 < L -> serves all L request -> len all < Z.of_nat fuel * L ->
  fetch_day_issue_keys fuel request = Returned (present_keys all).
Proof.
  intros HL Hserve Hfuel. unfold fetch_day_issue_keys.
  apply (fetch_day_issue_keys_loop_complete all L request HL Hserve fuel 0);
    unfold len in *; lia.
Qed.






(** *** The day's logged time *)

Lemma add_worklogs_day_seconds strptime day worklogs total :
  add_worklogs strptime day worklogs total
  = total + day_seconds strptime day worklogs.
Proof.
  revert total. unfold day_seconds.
  induction worklogs as [| w worklogs IH]; intros total;
    cbn [add_worklogs filter].
  - cbn. lia.
  - unfold counts at 1.
    destruct (wl_started w) as [started |]; [| apply IH].
    destruct (started =? "")%string; cbn [negb andb orb]; [apply IH |].
    destruct (Z.leb_spec (get (wl_timeSpentSeconds w) 0) 0) as [Hle | Hgt].
    + replace (0 <? get (wl_timeSpentSeconds w) 0) with false
        by (symmetry; apply Z.ltb_ge; lia).
      cbn [andb]. apply IH.
    + replace (0 <? get (wl_timeSpentSeconds w) 0) with true
        by (symmetry; apply Z.ltb_lt; lia).
      cbn [andb].
      destruct (strptime started) as [started_dt |]; [| apply IH].
      destruct (date_eqb (dt_date started_dt) day); [| apply IH].
      rewrite IH. cbn [map zsum fold_right].
      fold (zsum (map (fun w0 => get (wl_timeSpentSeconds w0) 0)
                     (filter (counts strptime day) worklogs))).
      lia.
Qed.

Lemma day_seconds_nonneg strptime day worklogs :
  0 <= day_seconds strptime day worklogs.
Proof.
  unfold day_seconds. induction worklogs as [| w worklogs IH];
    cbn [filter map zsum fold_right]; [lia |].
  destruct (counts strptime day w) eqn:E; [| exact IH].
  cbn [map zsum fold_right].
  fold (zsum (map (fun w0 => get (wl_timeSpentSeconds w0) 0)
                 (filter (counts strptime day) worklogs))).
  unfold counts in E. destruct (wl_started w); [| discriminate].
  apply andb_true_iff in E. destruct E as [E _].
  apply andb_true_iff in E. destruct E as [_ E]. apply Z.ltb_lt in E. lia.
Qed.

Lemma issue_seconds_nonneg fuel tr strptime day key :
  0 <= issue_seconds fuel tr strptime day key.
Proof.
  unfold issue_seconds.
  destruct (fetch_issue_worklogs fuel (issue_worklogs tr key)); try lia.
  apply day_seconds_nonneg.
Qed.

Lemma sum_cons a l : zsum (a :: l) = a + zsum l.
Proof. reflexivity. Qed.

Lemma existsb_eqb_In key seen :
  existsb (String.eqb key) seen = true <-> In key seen.
Proof.
  rewrite existsb_exists. split.
  - intros (x & Hx & E). apply String.eqb_eq in E. now subst.
  - intros H. exists key. split; [assumption | apply String.eqb_refl].
Qed.

Lemma sum_unseen_absent (f : string -> Z) seen key l :
  ~ In key l ->
  zsum (map f (filter (unseen (key :: seen)) l))
  = zsum (map f (filter (unseen seen) l)).
Proof.
  intros Hnot. f_equal. f_equal. apply filter_ext_in. intros x Hx.
  unfold unseen. cbn [existsb].
  destruct (String.eqb_spec x key) as [-> | _]; [contradiction | reflexivity].
Qed.

Lemma sum_unseen_present (f : string -> Z) seen key l :
  NoDup l -> In key l -> ~ In key seen ->
  zsum (map f (filter (unseen seen) l))
  = f key + zsum (map f (filter (unseen (key :: seen)) l)).
Proof.
  induction 1 as [| x l Hx Hnd IH]; intros Hin Hseen; [contradiction |].
  cbn [filter]. destruct Hin as [-> | Hin].
  - replace (unseen seen key) with true
      by (symmetry; unfold unseen; apply negb_true_iff;
          destruct (existsb (String.eqb key) seen) eqn:E; [| reflexivity];
          apply existsb_eqb_In in E; contradiction).
    replace (unseen (key :: seen) key) with false
      by (unfold unseen; cbn [existsb]; now rewrite String.eqb_refl).
    cbn [map]. rewrite sum_cons, (sum_unseen_absent f seen key l Hx).
    reflexivity.
  - assert (Hne : x <> key) by (intros ->; contradiction).
    replace (unseen (key :: seen) x) with (unseen seen x)
      by (unfold unseen; cbn [existsb];
          destruct (String.eqb_spec x key); [contradiction | reflexivity]).
    destruct (unseen seen x); cbn [map]; rewrite ?sum_cons;
      rewrite (IH Hin Hseen); lia.
Qed.

Lemma add_issues_sum fuel tr strptime day : forall keys seen total,
  fetches_settle fuel tr keys ->
  add_issues fuel tr strptime day keys seen total
  = Returned (total
              + zsum (map (issue_seconds fuel tr strptime day)
                         (filter (unseen seen) (nodup string_dec keys)))).
Proof.
  induction keys as [| key keys IH]; intros seen total Hsettle.
  - cbn. f_equal. lia.
  - assert (Hrest : fetches_settle fuel tr keys)
      by (intros k Hk; apply Hsettle; now right).
    cbn [add_issues nodup].
    destruct (existsb (String.eqb key) seen) eqn:Eseen.
    + rewrite (IH seen total Hrest). f_equal. f_equal.
      destruct (in_dec string_dec key keys) as [Hin | Hnot]; [reflexivity |].
      cbn [filter]. unfold unseen at 2. rewrite Eseen. reflexivity.
    + assert (Hseen : ~ In key seen)
        by (intros H; apply existsb_eqb_In in H; congruence).
      assert (Hstep :
                zsum (map (issue_seconds fuel tr strptime day)
                         (filter (unseen seen)
                                 (if in_dec string_dec key keys
                                  then nodup string_dec keys
                                  else key :: nodup string_dec keys)))
                = issue_seconds fuel tr strptime day key
                  + zsum (map (issue_seconds fuel tr strptime day)
                             (filter (unseen (key :: seen))
                                     (nodup string_dec keys)))).
      { destruct (in_dec string_dec key keys) as [Hin | Hnot].
        - apply sum_unseen_present;
            [apply NoDup_nodup | now apply nodup_In | assumption].
        - cbn [filter]. unfold unseen at 1. rewrite Eseen. cbn [negb map].
          rewrite sum_cons.
          rewrite (sum_unseen_absent _ seen key);
            [reflexivity | now rewrite nodup_In]. }
      rewrite Hstep. unfold issue_seconds at 1.
      destruct (Hsettle key (or_introl eq_refl)) as [(ws & ->) | ->].
      * rewrite (IH (key :: seen) _ Hrest), add_worklogs_day_seconds.
        f_equal; lia.
      * rewrite (IH (key :: seen) _ Hrest). f_equal; lia.
Qed.

(** X10.  The day's logged time is, over the distinct issues found for the
    day, the zsum of the seconds of the worklogs that count; an issue
    listed twice is counted once, one whose worklogs cannot be fetched
    counts for nothing. *)
Theorem calculate_logged_seconds_for_day_sum
    (fuel : nat) (tr : tracker) (strptime : string -> option datetime)
    (day : date) (keys : list string) :
  fetch_day_issue_keys fuel (search_day tr (isoformat day)) = Returned keys ->
  fetches_settle fuel tr keys ->
  calculate_logged_seconds_for_day fuel tr strptime day
  = Returned (zsum (map (issue_seconds fuel tr strptime day)
                       (nodup string_dec keys))).
Proof.
  intros Hkeys Hsettle. unfold calculate_logged_seconds_for_day.
  rewrite Hkeys. cbn [bind].
  destruct keys as [| key keys]; [reflexivity |].
  rewrite (add_issues_sum fuel tr strptime day (key :: keys) [] 0 Hsettle).
  f_equal. rewrite Z.add_0_l. f_equal. f_equal.
  generalize (nodup string_dec (key :: keys)) as l.
  induction l as [| x l IHl]; [reflexivity |].
  cbn [filter unseen existsb negb]. now rewrite IHl.
Qed.

Lemma add_issues_nonneg fuel tr strptime day : forall keys seen total v,
  0 <= total ->
  add_issues fuel tr strptime day keys seen total = Returned v -> 0 <= v.
Proof.
  induction keys as [| key keys IH]; intros seen total v Htotal;
    cbn [add_issues].
  - intros H. injection H as <-. exact Htotal.
  - destruct (existsb (String.eqb key) seen); [apply IH; exact Htotal |].
    destruct (fetch_issue_worklogs fuel (issue_worklogs tr key))
      as [ws | e |]; try discriminate.
    + apply IH. rewrite add_worklogs_day_seconds.
      pose proof (day_seconds_nonneg strptime day ws). lia.
    + destruct e; try discriminate. apply IH. exact Htotal.
Qed.

Lemma logged_seconds_nonneg
    (fuel : nat) (tr : tracker) (strptime : string -> option datetime)
    (day : date) (v : Z) :
  calculate_logged_seconds_for_day fuel tr strptime day = Returned v ->
  0 <= v.
Proof.
  unfold calculate_logged_seconds_for_day. intros H.
  apply bind_returned in H. destruct H as (keys & _ & H).
  destruct keys as [| key keys].
  - injection H as <-. lia.
  - assert (H0 : 0 <= 0) by lia.
    exact (add_issues_nonneg _ _ _ _ _ _ _ _ H0 H).
Qed.

(** X11.  The day's logged time is never negative. *)
Theorem calculate_logged_seconds_for_day_nonneg
    (fuel : nat) (tr : tracker) (strptime : string -> option datetime)
    (day : date) (v : Z) :
  calculate_logged_seconds_for_day fuel tr strptime day = Returned v ->
  0 <= v.
Proof. apply logged_seconds_nonneg. Qed.

Lemma fetch_open_issues_complete_witness :
  0 < 2 /\ serves [1; 2; 3; 4; 5] 2 (paged [1; 2; 3; 4; 5] 2)
  /\ len [1; 2; 3; 4; 5] < Z.of_nat 3 * 2
  /\ fetch_open_issues 3 (paged [1; 2; 3; 4; 5] 2) = Returned [1; 2; 3; 4; 5].
Proof.
  assert (HL : 0 < 2) by lia.
  assert (Hserve : serves [1; 2; 3; 4; 5] 2 (paged [1; 2; 3; 4; 5] 2))
    by (intros s Hs; reflexivity).
  assert (Hfuel : len [1; 2; 3; 4; 5] < Z.of_nat 3 * 2) by (vm_compute; reflexivity).
  exact (conj HL (conj Hserve (conj Hfuel
           (fetch_open_issues_complete _ _ _ _ HL Hserve Hfuel)))).
Defined.

Lemma fetch_issue_worklogs_complete_witness :
  0 < 4 /\ serves_slices sample_worklogs 4 (paged sample_worklogs 4)
  /\ len sample_worklogs < Z.of_nat 2 * 4
  /\ fetch_issue_worklogs 2 (paged sample_worklogs 4) = Returned sample_worklogs.
Proof.
  assert (HL : 0 < 4) by lia.
  assert (Hserve : serves_slices sample_worklogs 4 (paged sample_worklogs 4))
    by (intros s Hs; eexists; reflexivity).
  assert (Hfuel : len sample_worklogs < Z.of_nat 2 * 4)
    by (vm_compute; reflexivity).
  exact (conj HL (conj Hserve (conj Hfuel
           (fetch_issue_worklogs_complete _ _ _ _ HL Hserve Hfuel)))).
Defined.

Lemma fetch_day_issue_keys_complete_witness :
  0 < 2
  /\ serves [mkfound (Some "A"%string); mkfound None;
             mkfound (Some ""%string); mkfound (Some "B"%string);
             mkfound (Some "A"%string)] 2
            (paged [mkfound (Some "A"%string); mkfound None;
                    mkfound (Some ""%string); mkfound (Some "B"%string);
                    mkfound (Some "A"%string)] 2)
  /\ fetch_day_issue_keys 3
       (paged [mkfound (Some "A"%string); mkfound None;
               mkfound (Some ""%string); mkfound (Some "B"%string);
               mkfound (Some "A"%string)] 2)
     = Returned ["A"%string; "B"%string; "A"%string].
Proof.
  assert (HL : 0 < 2) by lia.
  set (all := [mkfound (Some "A"%string); mkfound None;
               mkfound (Some ""%string); mkfound (Some "B"%string);
               mkfound (Some "A"%string)]).
  assert (Hserve : serves all 2 (paged all 2)) by (intros s Hs; reflexivity).
  assert (Hfuel : len all < Z.of_nat 3 * 2) by (vm_compute; reflexivity).
  exact (conj HL (conj Hserve
           (fetch_day_issue_keys_complete all 2 (paged all 2) 3 HL Hserve Hfuel))).
Defined.


Lemma sample_tracker_keys :
  fetch_day_issue_keys 2 (search_day sample_tracker (isoformat (mkdate 2025 1 6)))
  = Returned ["PRJ-1"%string; "PRJ-2"%string; "PRJ-1"%string].
Proof. vm_compute. reflexivity. Defined.

Lemma sample_tracker_settles :
  fetches_settle 2 sample_tracker ["PRJ-1"%string; "PRJ-2"%string; "PRJ-1"%string].
Proof.
  intros key [<- | [<- | [<- | []]]].
  - left. eexists. vm_compute. reflexivity.
  - right. vm_compute. reflexivity.
  - left. eexists. vm_compute. reflexivity.
Defined.

Lemma calculate_logged_seconds_for_day_sum_witness :
  fetch_day_issue_keys 2 (search_day sample_tracker (isoformat (mkdate 2025 1 6)))
  = Returned ["PRJ-1"%string; "PRJ-2"%string; "PRJ-1"%string]
  /\ fetches_settle 2 sample_tracker
       ["PRJ-1"%string; "PRJ-2"%string; "PRJ-1"%string]
  /\ calculate_logged_seconds_for_day 2 sample_tracker sample_strptime
       (mkdate 2025 1 6)
     = Returned (zsum (map (issue_seconds 2 sample_tracker sample_strptime
                                          (mkdate 2025 1 6))
                           (nodup string_dec
                              ["PRJ-1"%string; "PRJ-2"%string; "PRJ-1"%string])))
  /\ zsum (map (issue_seconds 2 sample_tracker sample_strptime (mkdate 2025 1 6))
               (nodup string_dec
                  ["PRJ-1"%string; "PRJ-2"%string; "PRJ-1"%string]))
     = 5400.
Proof.
  refine (conj sample_tracker_keys (conj sample_tracker_settles (conj _ _))).
  - exact (calculate_logged_seconds_for_day_sum 2 sample_tracker
             sample_strptime (mkdate 2025 1 6) _ sample_tracker_keys
             sample_tracker_settles).
  - vm_compute. reflexivity.
Defined.

Lemma calculate_logged_seconds_for_day_nonneg_witness :
  calculate_logged_seconds_for_day 2 sample_tracker sample_strptime
    (mkdate 2025 1 6) = Returned 5400
  /\ 0 <= 5400.
Proof.
  assert (Hrun : calculate_logged_seconds_for_day 2 sample_tracker
                   sample_strptime (mkdate 2025 1 6) = Returned 5400)
    by (vm_compute; reflexivity).
  exact (conj Hrun (calculate_logged_seconds_for_day_nonneg _ _ _ _ _ Hrun)).
Defined.

End TrackerFacts.
(** ** Facts about the settings and the prompts *)

Module ConsoleFacts.
Import PyStr Env Console ConsoleSpec Timesheet Spec Samples Sources.

Lemma eqb_eq a b : eqb a b = true <-> a = b.
Proof.
  revert b. induction a as [| x a IH]; intros [| y b]; cbn [eqb].
  - tauto.
  - split; discriminate.
  - split; discriminate.
  - rewrite andb_true_iff, N.eqb_eq, IH. split.
    + intros [-> ->]. reflexivity.
    + intros E. injection E as -> ->. auto.
Qed.

Lemma eqb_refl a : eqb a a = true.
Proof. now apply eqb_eq. Qed.

Lemma eqb_neq a b : eqb a b = false <-> a <> b.
Proof.
  rewrite <- eqb_eq. destruct (eqb a b); split; congruence.
Qed.

Lemma load_lines_value : forall lines env env',
  load_lines lines env = Returned env' ->
  forall k,
    env' k = match env k with
             | Some v => Some v
             | None => file_value lines k
             end.
Proof.
  induction lines as [| raw_line lines IH]; intros env env' Hload k.
  - cbn in Hload. injection Hload as <-. cbn. now destruct (env k).
  - cbn [load_lines] in Hload. cbn [file_value]. unfold assignment.
    destruct (eqb (strip raw_line) [] || startswith (lit "#") (strip raw_line)
              || negb (member 61%N (strip raw_line))).
    + exact (IH _ _ Hload k).
    + destruct (split_once 61%N (strip raw_line)) as [key value].
      destruct (eqb (strip key) []) eqn:Ekey; cbn [negb andb] in Hload.
      * exact (IH _ _ Hload k).
      * destruct (env (strip key)) as [old |] eqn:Eold.
        -- rewrite (IH _ _ Hload k).
           destruct (eqb (strip key) k) eqn:Ek; [| reflexivity].
           apply eqb_eq in Ek. subst k. now rewrite Eold.
        -- unfold setitem in Hload.
           destruct (member 0%N (strip key) || member 0%N _);
             [discriminate |].
           cbn [bind] in Hload. rewrite (IH _ _ Hload k).
           destruct (eqb (strip key) k) eqn:Ek.
           ++ apply eqb_eq in Ek. subst k. now rewrite eqb_refl, Eold.
           ++ replace (eqb k (strip key)) with false
                by (symmetry; apply eqb_neq; apply eqb_neq in Ek; congruence).
              reflexivity.
Qed.

(** X12.  After the settings file is loaded, a variable that the environment
    does not set has the value of the first line of the file that sets
    it, and one that the environment sets keeps its value. *)
Theorem load_env_file_first_wins (lines : list str) (env env' : environ)
    (k : str) :
  load_env_file (Some lines) env = Returned env' ->
  env' k = match env k with
           | Some v => Some v
           | None => file_value lines k
           end.
Proof. intros Hload. exact (load_lines_value lines env env' Hload k). Qed.

(** X13.  Loading the settings file never changes a variable the environment
    already sets, whether the file exists or not. *)
Theorem load_env_file_keeps_environment (file : option (list str))
    (env env' : environ) (k v : str) :
  load_env_file file env = Returned env' ->
  env k = Some v -> env' k = Some v.
Proof.
  intros Hload Hk. destruct file as [lines |].
  - rewrite (load_lines_value lines env env' Hload k), Hk. reflexivity.
  - cbn in Hload. injection Hload as <-. exact Hk.
Qed.

(** What [parse_positive_int_env] strips is what the variable holds, the
    empty text when it is unset. *)
Lemma parse_positive_int_env_unfold (int_of : str -> option Z)
    (env : environ) (var_name : str) (fallback : Z) :
  parse_positive_int_env int_of env var_name fallback
  = let raw_value :=
      strip (match env var_name with Some raw => raw | None => [] end) in
    match raw_value with
    | [] => fallback
    | _ :: _ =>
        match int_of raw_value with
        | None => fallback
        | Some parsed => if parsed <? 1 then fallback else parsed
        end
    end.
Proof.
  unfold parse_positive_int_env. destruct (env var_name) as [[| c v] |];
    reflexivity.
Qed.

Lemma parse_positive_int_env_bound (int_of : str -> option Z)
    (env : environ) (var_name : str) (fallback : Z) :
  1 <= fallback ->
  1 <= parse_positive_int_env int_of env var_name fallback.
Proof.
  intros Hf. rewrite parse_positive_int_env_unfold. cbv zeta.
  destruct (strip _) as [| c v]; [exact Hf |].
  destruct (int_of (c :: v)) as [parsed |]; [| exact Hf].
  destruct (Z.ltb_spec parsed 1); lia.
Qed.

(** X14.  A default read from the environment is the integer the variable
    holds when that is an integer of at least 1, and the fallback in every
    other case: the variable unset, empty or blank, not an integer, zero
    or negative.  So it is at least 1 whenever its fallback is, whatever
    the environment holds. *)
Theorem parse_positive_int_env_positive (int_of : str -> option Z)
    (env : environ) (var_name : str) (fallback : Z) :
  (1 <= fallback ->
   1 <= parse_positive_int_env int_of env var_name fallback)
  /\ (env var_name = None ->
      parse_positive_int_env int_of env var_name fallback = fallback)
  /\ (forall raw, env var_name = Some raw ->
        (strip raw = [] ->
         parse_positive_int_env int_of env var_name fallback = fallback)
        /\ (int_of (strip raw) = None ->
            parse_positive_int_env int_of env var_name fallback = fallback)
        /\ (forall parsed, int_of (strip raw) = Some parsed ->
              (parsed < 1 ->
               parse_positive_int_env int_of env var_name fallback = fallback)
              /\ (strip raw <> [] -> 1 <= parsed ->
                  parse_positive_int_env int_of env var_name fallback
                  = parsed))).
Proof.
  split; [apply parse_positive_int_env_bound |].
  rewrite parse_positive_int_env_unfold. cbv zeta. split.
  - intros ->. reflexivity.
  - intros raw ->. split; [| split].
    + intros ->. reflexivity.
    + intros ->. destruct (strip raw); reflexivity.
    + intros parsed ->. split.
      * intros Hlow. destruct (strip raw) as [| c v]; [reflexivity |].
        destruct (Z.ltb_spec parsed 1); [reflexivity | lia].
      * intros Hne Hhigh. destruct (strip raw) as [| c v]; [congruence |].
        destruct (Z.ltb_spec parsed 1); [lia | reflexivity].
Qed.

(** X15.  [ask_weight] answers with a weight from 1 to 5: that of the first
    line typed that holds one; the lines before it are passed over. *)
Theorem ask_weight_first_answer (inputs : list str) (w : Z) (rest : list str) :
  ask_weight inputs = Told w rest ->
  1 <= w <= 5
  /\ exists skipped line,
       inputs = skipped ++ line :: rest
       /\ Forall (fun l => answers_weight l = false) skipped
       /\ answers_weight line = true
       /\ strip line = [Z.to_N (w + 48)].
Proof.
  induction inputs as [| line inputs IH]; cbn [ask_weight]; [discriminate |].
  intros H.
  assert (Hskip : answers_weight line = false ->
                  ask_weight inputs = Told w rest ->
                  1 <= w <= 5
                  /\ exists skipped line0,
                       line :: inputs = skipped ++ line0 :: rest
                       /\ Forall (fun l => answers_weight l = false) skipped
                       /\ answers_weight line0 = true
                       /\ strip line0 = [Z.to_N (w + 48)]).
  { intros Hno Hrest.
    destruct (IH Hrest) as (Hw & skipped & line0 & -> & Hall & Hyes & Hs).
    split; [exact Hw |]. exists (line :: skipped), line0.
    repeat split; try assumption. now constructor. }
  unfold answers_weight in Hskip.
  destruct (strip line) as [| c [| c' s]] eqn:Es;
    try (apply Hskip; [reflexivity | exact H]).
  destruct ((49 <=? c)%N && (c <=? 53)%N) eqn:Ec;
    [| apply Hskip; [reflexivity | exact H]].
  injection H as <- <-.
  apply andb_true_iff in Ec. destruct Ec as [E1 E2].
  apply N.leb_le in E1. apply N.leb_le in E2.
  split; [lia |]. exists [], line.
  repeat split; [constructor | unfold answers_weight; rewrite Es; cbn |].
  - apply andb_true_iff. split; apply N.leb_le; lia.
  - rewrite Es. f_equal. lia.
Qed.

Lemma ask_weight_range : forall inputs w rest,
  ask_weight inputs = Told w rest -> 1 <= w <= 5.
Proof.
  induction inputs as [| line inputs IH]; intros w rest; cbn [ask_weight];
    [discriminate |].
  destruct (strip line) as [| c [| c' s]]; try apply IH.
  destruct ((49 <=? c)%N && (c <=? 53)%N) eqn:Ec; [| apply IH].
  intros H. injection H as <- _.
  apply andb_true_iff in Ec. destruct Ec as [E1 E2].
  apply N.leb_le in E1. apply N.leb_le in E2. lia.
Qed.

Lemma weigh_issues_spec : forall rows acc inputs issues rest,
  weigh_issues rows acc inputs = Told issues rest ->
  exists added,
    issues = acc ++ added
    /\ map key added = map fst rows
    /\ map summary added = map snd rows
    /\ Forall (fun i => 1 <= weight i <= 5) added.
Proof.
  induction rows as [| [k s] rows IH]; intros acc inputs issues rest H;
    cbn [weigh_issues] in H.
  - injection H as <- <-. exists []. rewrite app_nil_r.
    repeat split; constructor.
  - destruct (ask_weight inputs) as [w rest0 | |] eqn:Ew; try discriminate.
    pose proof (ask_weight_range _ _ _ Ew) as Hw.
    destruct (IH _ _ _ _ H) as (added & -> & Hk & Hs & Hall).
    exists (mkIssue k s w :: added). rewrite <- app_assoc.
    cbn [app map fst snd key summary]. rewrite Hk, Hs.
    repeat split. constructor; [exact Hw | exact Hall].
Qed.

(** X16.  The issues that [main] weighs are the rows it was given, in order,
    each with a weight from 1 to 5. *)
Theorem weigh_issues_weights (issue_rows : list (string * string))
    (inputs : list str) (issues : list Issue) (rest : list str) :
  weigh_issues issue_rows [] inputs = Told issues rest ->
  map key issues = map fst issue_rows
  /\ map summary issues = map snd issue_rows
  /\ Forall (fun i => 1 <= weight i <= 5) issues.
Proof.
  intros H. destruct (weigh_issues_spec _ _ _ _ _ H) as (added & -> & Hrest).
  exact Hrest.
Qed.

Lemma ask_int_bound isdigit int_of : forall inputs default min_value v rest,
  ask_int isdigit int_of inputs default min_value = Told v rest ->
  v = default \/ min_value <= v.
Proof.
  induction inputs as [| line inputs IH]; intros default min_value v rest;
    cbn [ask_int]; [discriminate |].
  destruct (strip line) as [| c value].
  - intros H. injection H as <- _. now left.
  - destruct (isdigit (c :: value)); [| apply IH].
    destruct (int_of (c :: value)) as [n |]; [| discriminate].
    destruct (Z.leb_spec min_value n) as [Hle | Hgt]; [| apply IH].
    intros E. injection E as <- _. now right.
Qed.

Lemma workload_settings_range (isdigit : str -> bool)
    (int_of : str -> option Z) (env : environ) (use_defaults : bool)
    (inputs : list str) (daily_hours max_task_hours : Z) (rest : list str) :
  workload_settings isdigit int_of use_defaults
    (DEFAULT_HOURS int_of env) (DEFAULT_MAX_DURATION int_of env) inputs
  = Told (inl (daily_hours, max_task_hours)) rest ->
  1 <= max_task_hours <= daily_hours.
Proof.
  pose proof (parse_positive_int_env_bound int_of env
                (lit "DEFAULT_HOURS") 4 ltac:(lia)) as Hh.
  pose proof (parse_positive_int_env_bound int_of env
                (lit "DEFAULT_MAX_DURATION") 2 ltac:(lia)) as Hm.
  fold (DEFAULT_HOURS int_of env) in Hh.
  fold (DEFAULT_MAX_DURATION int_of env) in Hm.
  unfold workload_settings. destruct use_defaults.
  - destruct (Z.ltb_spec (DEFAULT_HOURS int_of env)
                         (DEFAULT_MAX_DURATION int_of env)) as [Hlt | Hge];
      intros E; [discriminate |].
    injection E as <- <- _. lia.
  - destruct (ask_int isdigit int_of inputs (DEFAULT_HOURS int_of env) 1)
      as [dh r1 | |] eqn:E1; try discriminate.
    destruct (ask_int isdigit int_of r1 (DEFAULT_MAX_DURATION int_of env) 1)
      as [mth r2 | |] eqn:E2; try discriminate.
    destruct (Z.ltb_spec dh mth) as [Hlt | Hge]; intros E; [discriminate |].
    injection E as <- <- _.
    apply ask_int_bound in E2. lia.
Qed.

(** X17.  When the settings step goes through, the maximum per entry is at
    least one hour and at most the hours per day, whatever the environment
    and whatever is typed. *)
Theorem workload_settings_bounds (isdigit : str -> bool)
    (int_of : str -> option Z) (env : environ) (use_defaults : bool)
    (inputs : list str) (daily_hours max_task_hours : Z) (rest : list str) :
  workload_settings isdigit int_of use_defaults
    (DEFAULT_HOURS int_of env) (DEFAULT_MAX_DURATION int_of env) inputs
  = Told (inl (daily_hours, max_task_hours)) rest ->
  1 <= max_task_hours <= daily_hours.
Proof. apply workload_settings_range. Qed.

(** X18.  What [main] hands to the allocator satisfies the allocator's
    preconditions: the issues weighed from a non-empty list of rows, the
    settings of step 3, and a gap of an hour or more. *)
Theorem main_meets_preconditions (isdigit : str -> bool)
    (int_of : str -> option Z) (env : environ) (use_defaults : bool)
    (issue_rows : list (string * string))
    (answers rest answers' rest' : list str)
    (issues : list Issue) (daily_hours max_task_hours logged_seconds : Z) :
  issue_rows <> [] ->
  weigh_issues issue_rows [] answers = Told issues rest ->
  workload_settings isdigit int_of use_defaults
    (DEFAULT_HOURS int_of env) (DEFAULT_MAX_DURATION int_of env) answers'
  = Told (inl (daily_hours, max_task_hours)) rest' ->
  3600 <= daily_hours * 3600 - logged_seconds ->
  preconditions issues (daily_hours * 3600 - logged_seconds) max_task_hours.
Proof.
  intros Hrows Hweigh Hset Hgap.
  destruct (weigh_issues_spec _ _ _ _ _ Hweigh) as (added & -> & Hk & _ & Hw).
  cbn [app] in *.
  pose proof (workload_settings_range _ _ _ _ _ _ _ _ Hset) as Hb.
  unfold preconditions. repeat split; try lia.
  - intros ->. destruct issue_rows; [contradiction | discriminate].
  - eapply Forall_impl; [| exact Hw]. cbn beta. intros i Hi. lia.
Qed.

Lemma load_env_file_first_wins_witness :
  exists env',
    load_env_file (Some sample_file) sample_environ = Returned env'
    /\ env' (lit "DEFAULT_MAX_DURATION")
       = match sample_environ (lit "DEFAULT_MAX_DURATION") with
         | Some v => Some v
         | None => file_value sample_file (lit "DEFAULT_MAX_DURATION")
         end
    /\ env' (lit "DEFAULT_MAX_DURATION") = Some (lit "3")
    /\ env' (lit "DEFAULT_HOURS") = Some (lit "6").
Proof.
  set (env' := match load_env_file (Some sample_file) sample_environ with
               | Returned e => e
               | _ => sample_environ
               end).
  assert (Hload : load_env_file (Some sample_file) sample_environ = Returned env')
    by (vm_compute; reflexivity).
  exists env'. split; [exact Hload |].
  split; [exact (load_env_file_first_wins sample_file sample_environ env'
                   (lit "DEFAULT_MAX_DURATION") Hload) |].
  split; vm_compute; reflexivity.
Defined.

Lemma load_env_file_keeps_environment_witness :
  exists env',
    load_env_file (Some sample_file) sample_environ = Returned env'
    /\ sample_environ (lit "DEFAULT_HOURS") = Some (lit "6")
    /\ env' (lit "DEFAULT_HOURS") = Some (lit "6").
Proof.
  set (env' := match load_env_file (Some sample_file) sample_environ with
               | Returned e => e
               | _ => sample_environ
               end).
  assert (Hload : load_env_file (Some sample_file) sample_environ = Returned env')
    by (vm_compute; reflexivity).
  assert (Hk : sample_environ (lit "DEFAULT_HOURS") = Some (lit "6"))
    by reflexivity.
  exists env'.
  exact (conj Hload (conj Hk
           (load_env_file_keeps_environment (Some sample_file) sample_environ
              env' (lit "DEFAULT_HOURS") (lit "6") Hload Hk))).
Defined.

Lemma parse_positive_int_env_positive_witness :
  1 <= 4
  /\ 1 <= parse_positive_int_env signed_int sample_environ
            (lit "DEFAULT_HOURS") 4
  /\ parse_positive_int_env signed_int sample_environ (lit "DEFAULT_HOURS") 4
     = 6
  /\ parse_positive_int_env signed_int sample_environ
       (lit "DEFAULT_MAX_DURATION") 2 = 2
  /\ parse_positive_int_env signed_int (fun _ => Some (lit "   "))
       (lit "DEFAULT_HOURS") 4 = 4
  /\ parse_positive_int_env signed_int (fun _ => Some (lit "four"))
       (lit "DEFAULT_HOURS") 4 = 4
  /\ parse_positive_int_env signed_int (fun _ => Some (lit "0"))
       (lit "DEFAULT_HOURS") 4 = 4
  /\ parse_positive_int_env signed_int (fun _ => Some (lit " -3 "))
       (lit "DEFAULT_HOURS") 4 = 4.
Proof.
  assert (Hf : 1 <= 4) by lia.
  pose proof (parse_positive_int_env_positive signed_int sample_environ
                (lit "DEFAULT_HOURS") 4) as (Hpos & _ & Hset).
  destruct (Hset (lit "6") eq_refl) as (_ & _ & Hsix).
  pose proof (parse_positive_int_env_positive signed_int sample_environ
                (lit "DEFAULT_MAX_DURATION") 2) as (_ & Hunset & _).
  pose proof (parse_positive_int_env_positive signed_int
                (fun _ => Some (lit "   ")) (lit "DEFAULT_HOURS") 4)
    as (_ & _ & Hblank).
  pose proof (parse_positive_int_env_positive signed_int
                (fun _ => Some (lit "four")) (lit "DEFAULT_HOURS") 4)
    as (_ & _ & Hword).
  pose proof (parse_positive_int_env_positive signed_int
                (fun _ => Some (lit "0")) (lit "DEFAULT_HOURS") 4)
    as (_ & _ & Hzero).
  pose proof (parse_positive_int_env_positive signed_int
                (fun _ => Some (lit " -3 ")) (lit "DEFAULT_HOURS") 4)
    as (_ & _ & Hneg).
  refine (conj Hf (conj (Hpos Hf) (conj _ (conj (Hunset eq_refl)
           (conj _ (conj _ (conj _ _))))))).
  - apply (proj2 (Hsix 6 eq_refl)); [discriminate | lia].
  - apply (proj1 (Hblank _ eq_refl)). reflexivity.
  - apply (proj1 (proj2 (Hword _ eq_refl))). reflexivity.
  - apply (proj1 (proj2 (proj2 (Hzero _ eq_refl)) 0 eq_refl)). lia.
  - apply (proj1 (proj2 (proj2 (Hneg _ eq_refl)) (-3) eq_refl)). lia.
Defined.

Lemma ask_weight_first_answer_witness :
  ask_weight [lit "x"; lit "6"; lit " 3 "; lit "4"] = Told 3 [lit "4"]
  /\ 1 <= 3 <= 5
  /\ exists skipped line,
       [lit "x"; lit "6"; lit " 3 "; lit "4"] = skipped ++ line :: [lit "4"]
       /\ Forall (fun l => answers_weight l = false) skipped
       /\ answers_weight line = true
       /\ strip line = [Z.to_N (3 + 48)].
Proof.
  assert (Hrun : ask_weight [lit "x"; lit "6"; lit " 3 "; lit "4"]
                 = Told 3 [lit "4"]) by reflexivity.
  exact (conj Hrun (ask_weight_first_answer _ _ _ Hrun)).
Defined.

Lemma weigh_issues_weights_witness :
  weigh_issues [("PRJ-1", "first task"); ("PRJ-2", "second task")]%string []
    [lit "9"; lit "5"; lit ""; lit "1"; lit "2"]
  = Told [mkIssue "PRJ-1" "first task" 5; mkIssue "PRJ-2" "second task" 1]
         [lit "2"]
  /\ map key [mkIssue "PRJ-1" "first task" 5; mkIssue "PRJ-2" "second task" 1]
     = map fst [("PRJ-1", "first task"); ("PRJ-2", "second task")]%string
  /\ map summary [mkIssue "PRJ-1" "first task" 5; mkIssue "PRJ-2" "second task" 1]
     = map snd [("PRJ-1", "first task"); ("PRJ-2", "second task")]%string
  /\ Forall (fun i => 1 <= weight i <= 5)
            [mkIssue "PRJ-1" "first task" 5; mkIssue "PRJ-2" "second task" 1].
Proof.
  assert (Hrun : weigh_issues
                   [("PRJ-1", "first task"); ("PRJ-2", "second task")]%string []
                   [lit "9"; lit "5"; lit ""; lit "1"; lit "2"]
                 = Told [mkIssue "PRJ-1" "first task" 5;
                         mkIssue "PRJ-2" "second task" 1] [lit "2"])
    by reflexivity.
  exact (conj Hrun (weigh_issues_weights _ _ _ _ Hrun)).
Defined.

Lemma workload_settings_bounds_witness :
  workload_settings ascii_isdigit ascii_int false
    (DEFAULT_HOURS ascii_int sample_environ)
    (DEFAULT_MAX_DURATION ascii_int sample_environ)
    [lit "0"; lit "8"; lit ""]
  = Told (inl (8, 2)) []
  /\ 1 <= 2 <= 8.
Proof.
  assert (Hrun : workload_settings ascii_isdigit ascii_int false
                   (DEFAULT_HOURS ascii_int sample_environ)
                   (DEFAULT_MAX_DURATION ascii_int sample_environ)
                   [lit "0"; lit "8"; lit ""]
                 = Told (inl (8, 2)) []) by reflexivity.
  exact (conj Hrun (workload_settings_bounds _ _ _ _ _ _ _ _ Hrun)).
Defined.

Lemma main_meets_preconditions_witness :
  [("PRJ-1", "first task"); ("PRJ-2", "second task")]%string <> []
  /\ 3600 <= 8 * 3600 - 7200
  /\ preconditions
       [mkIssue "PRJ-1" "first task" 5; mkIssue "PRJ-2" "second task" 1]
       (8 * 3600 - 7200) 2.
Proof.
  assert (Hrows : [("PRJ-1", "first task"); ("PRJ-2", "second task")]%string
                  <> []) by discriminate.
  assert (Hweigh : weigh_issues
                     [("PRJ-1", "first task"); ("PRJ-2", "second task")]%string
                     [] [lit "9"; lit "5"; lit ""; lit "1"; lit "2"]
                   = Told [mkIssue "PRJ-1" "first task" 5;
                           mkIssue "PRJ-2" "second task" 1] [lit "2"])
    by reflexivity.
  assert (Hset : workload_settings ascii_isdigit ascii_int false
                   (DEFAULT_HOURS ascii_int sample_environ)
                   (DEFAULT_MAX_DURATION ascii_int sample_environ)
                   [lit "0"; lit "8"; lit ""]
                 = Told (inl (8, 2)) []) by reflexivity.
  assert (Hgap : 3600 <= 8 * 3600 - 7200) by lia.
  exact (conj Hrows (conj Hgap
           (main_meets_preconditions _ _ _ _ _ _ _ _ _ _ _ _ 7200
              Hrows Hweigh Hset Hgap))).
Defined.

End ConsoleFacts.
(** ** Facts about the table of open issues *)

Module TableFacts.
Import PyStr Table TableSpec.

Lemma digits_length_mono : forall f2 f1 i n,
  0 <= i <= n -> i < Z.of_nat f1 -> n < Z.of_nat f2 ->
  (List.length (digits f1 i) <= List.length (digits f2 n))%nat.
Proof.
  induction f2 as [| f2 IH]; intros f1 i n Hin Hi Hn; [lia |].
  destruct f1 as [| f1]; [lia |]. cbn [digits].
  destruct (Z.ltb_spec n 10) as [Hn10 | Hn10].
  - destruct (Z.ltb_spec i 10); [cbn; lia | lia].
  - rewrite length_app. cbn [List.length].
    destruct (Z.ltb_spec i 10) as [Hi10 | Hi10]; [cbn; lia |].
    rewrite length_app. cbn [List.length].
    assert (H := IH f1 (i / 10) (n / 10)).
    assert ((List.length (digits f1 (i / 10))
             <= List.length (digits f2 (n / 10)))%nat).
    { apply H.
      - split; [apply Z.div_pos; lia | apply Z.div_le_mono; lia].
      - Z.to_euclidean_division_equations; lia.
      - Z.to_euclidean_division_equations; lia. }
    lia.
Qed.

Lemma str_of_nat_length_mono i n :
  (i <= n)%nat ->
  (List.length (str_of_nat i) <= List.length (str_of_nat n))%nat.
Proof.
  intros H. unfold str_of_nat. apply digits_length_mono; lia.
Qed.

Lemma ljust_length width s :
  (List.length s <= width)%nat -> List.length (ljust width s) = width.
Proof.
  intros H. unfold ljust. rewrite length_app, repeat_length. lia.
Qed.

Lemma row_line_length iw kw index key summary :
  (List.length index <= iw)%nat -> (List.length key <= kw)%nat ->
  (List.length summary <= summary_width)%nat ->
  List.length (row_line iw kw index key summary) = (iw + kw + 100)%nat.
Proof.
  intros Hi Hk Hs. unfold row_line.
  rewrite !length_app, !ljust_length by assumption.
  change (List.length (lit "| ")) with 2%nat.
  change (List.length (lit " | ")) with 3%nat.
  change (List.length (lit " |")) with 2%nat.
  unfold summary_width. lia.
Qed.

Lemma row_lines_length iw kw : forall issues index n,
  (index + List.length issues <= S n)%nat ->
  (List.length (str_of_nat n) <= iw)%nat ->
  (max_key_len issues <= kw)%nat ->
  Forall (fun line => List.length line = (iw + kw + 100)%nat)
         (row_lines iw kw index issues).
Proof.
  induction issues as [| [key summary] issues IH]; intros index n Hn Hiw Hkw;
    cbn [row_lines]; [constructor |].
  cbn [max_key_len fold_right fst List.length] in *.
  fold (max_key_len issues) in Hkw.
  constructor.
  - apply row_line_length.
    + pose proof (str_of_nat_length_mono index n ltac:(lia)). lia.
    + lia.
    + destruct (Nat.leb_spec (List.length summary) summary_width); [lia |].
      rewrite length_app, length_firstn.
      change (List.length (lit "...")) with 3%nat.
      unfold summary_width in *. lia.
  - apply (IH (S index) n); [lia | assumption | lia].
Qed.

Lemma shown_summary_length summary :
  (List.length (shown_summary summary) <= 90)%nat.
Proof.
  unfold shown_summary.
  destruct (Nat.ltb_spec 90 (List.length summary)) as [Hlong | Hshort];
    [| exact Hshort].
  rewrite length_app, length_firstn.
  change (List.length (lit "...")) with 3%nat. lia.
Qed.

(** The row of the [i]-th issue, counted from [index]. *)
Lemma row_lines_nth iw kw : forall issues index i key summary,
  nth_error issues i = Some (key, summary) ->
  nth_error (row_lines iw kw index issues) i
  = Some (row_line iw kw (str_of_nat (index + i)) key (shown_summary summary)).
Proof.
  induction issues as [| [k s] issues IH]; intros index i key summary Hnth;
    [destruct i; discriminate |].
  destruct i as [| i]; cbn [nth_error row_lines] in *.
  - injection Hnth as -> ->. rewrite Nat.add_0_r. unfold shown_summary.
    change (summary_width - 3)%nat with 87%nat. unfold summary_width.
    destruct (Nat.leb_spec (List.length summary) 90);
      destruct (Nat.ltb_spec 90 (List.length summary)); try lia; reflexivity.
  - rewrite (IH (S index) i key summary Hnth). do 3 f_equal. lia.
Qed.

Lemma row_lines_count iw kw : forall issues index,
  List.length (row_lines iw kw index issues) = List.length issues.
Proof.
  induction issues as [| [k s] issues IH]; intros index;
    cbn [row_lines List.length]; [reflexivity | now rewrite IH].
Qed.

(** X19.  The table of open issues is rectangular: after the title, the
    separators, the header and one row per issue all have the same
    length, however long the keys and the summaries are.  The row of the
    [i]-th issue, the fourth line of the table onwards, shows its number
    counted from 1, its key, and its summary: whole when it has at most 90
    characters, else cut to its first 87 characters and three dots. *)
Theorem print_issues_table_rectangular (issues : list (str * str)) :
  issues <> [] ->
  exists title table width,
    print_issues_table issues = title :: table
    /\ List.length table = (List.length issues + 4)%nat
    /\ Forall (fun line => List.length line = width) table
    /\ exists index_width key_width,
         index_width
         = Nat.max 1 (List.length (str_of_nat (List.length issues)))
         /\ key_width = Nat.max 9 (max_key_len issues)
         /\ width = (index_width + key_width + 100)%nat
         /\ forall i key summary,
              nth_error issues i = Some (key, summary) ->
              (List.length (shown_summary summary) <= 90)%nat
              /\ nth_error table (3 + i)
                 = Some (lit "| " ++ ljust index_width (str_of_nat (S i))
                         ++ lit " | " ++ ljust key_width key
                         ++ lit " | " ++ ljust 90 (shown_summary summary)
                         ++ lit " |").
Proof.
  intros Hne. destruct issues as [| row issues]; [contradiction |].
  unfold print_issues_table.
  set (all := row :: issues).
  set (iw := Nat.max (List.length (lit "#"))
                     (List.length (str_of_nat (List.length all)))).
  set (kw := Nat.max (List.length (lit "Issue Key")) (max_key_len all)).
  assert (Hsep : List.length
                   (lit "+-" ++ dashes iw ++ lit "-+-" ++ dashes kw
                    ++ lit "-+-" ++ dashes summary_width ++ lit "-+")
                 = (iw + kw + 100)%nat).
  { unfold dashes. rewrite !length_app, !repeat_length.
    change (List.length (lit "+-")) with 2%nat.
    change (List.length (lit "-+-")) with 3%nat.
    change (List.length (lit "-+")) with 2%nat.
    unfold summary_width. lia. }
  assert (Hrows : Forall (fun line => List.length line = (iw + kw + 100)%nat)
                         (row_lines iw kw 1 all)).
  { apply (row_lines_length iw kw all 1 (List.length all)); subst iw kw; lia. }
  assert (Hcount : forall iw kw index l,
             List.length (row_lines iw kw index l) = List.length l).
  { intros a b index l. revert index.
    induction l as [| [k s] l IHl]; intros index; cbn [row_lines List.length];
      [reflexivity | now rewrite IHl]. }
  eexists _, _, (iw + kw + 100)%nat. split; [reflexivity |].
  split; [| split].
  - cbn [app List.length]. rewrite length_app, Hcount. cbn [List.length]. lia.
  - cbn [app]. constructor; [exact Hsep |].
    constructor.
    + apply row_line_length;
        [ subst iw; change (List.length (lit "#")) with 1%nat; lia
        | subst kw; change (List.length (lit "Issue Key")) with 9%nat; lia
        | change (List.length (lit "Summary")) with 7%nat;
          unfold summary_width; lia ].
    + constructor; [exact Hsep |].
      apply Forall_app. split; [exact Hrows |].
      constructor; [exact Hsep | constructor].
  - exists iw, kw. split; [reflexivity |]. split; [reflexivity |].
    split; [reflexivity |].
    intros i key summary Hnth. split; [apply shown_summary_length |].
    cbn [app Nat.add nth_error].
    rewrite nth_error_app1
      by (rewrite Hcount; apply nth_error_Some; congruence).
    rewrite (row_lines_nth iw kw all 1 i key summary Hnth). reflexivity.
Qed.

Lemma print_issues_table_rectangular_witness :
  [(lit "PRJ-1", lit "first task"); (lit "PRJ-22", repeat 120%N 91)] <> []
  /\ exists title table width,
       print_issues_table
         [(lit "PRJ-1", lit "first task"); (lit "PRJ-22", repeat 120%N 91)]
       = title :: table
       /\ List.length table = (2 + 4)%nat
       /\ Forall (fun line => List.length line = width) table
       /\ nth_error table 4
          = Some (lit "| 2 | PRJ-22    | " ++ repeat 120%N 87 ++ lit "... |").
Proof.
  assert (Hne : [(lit "PRJ-1", lit "first task");
                 (lit "PRJ-22", repeat 120%N 91)] <> []) by discriminate.
  destruct (print_issues_table_rectangular _ Hne)
    as (title & table & width & Htable & Hlen & Hwidth
        & iw & kw & Hiw & Hkw & _ & Hrow).
  refine (conj Hne _). exists title, table, width.
  refine (conj Htable (conj Hlen (conj Hwidth _))).
  pose proof (proj2 (Hrow 1%nat (lit "PRJ-22") (repeat 120%N 91) eq_refl))
    as Hfour.
  change (3 + 1)%nat with 4%nat in Hfour.
  rewrite Hfour, Hiw, Hkw. reflexivity.
Defined.

End TableFacts.

(** ** The day's usage and the fill loop together *)

Module WholeDayFacts.
Import PyDatetime PyRandom Timesheet Spec Tracker Sources Samples.
Import DayFacts TrackerFacts.

(** X20.  A day of the fill loop, the logged time being what the usage
    calculator finds on the tracker: the entries generated last no more, in
    all, than the hours to fill per day. *)
Theorem day_within_daily_hours {RS : RandomSource}
    (fuel fuel' : nat) (dry_run : bool)
    (post : string -> payload -> outcome unit) (tr : tracker)
    (strptime : string -> option datetime) (day : date)
    (issues : list Issue) (daily_hours max_task_hours : Z)
    (c : counters) (g : rng)
    (c' : counters) (g' : rng) (ps : list (string * payload)) :
  valid_date day -> 0 <= daily_hours ->
  fill_day fuel dry_run post
           (calculate_logged_seconds_for_day fuel' tr strptime day)
           day issues daily_hours max_task_hours c g
  = Returned (c', g', ps) ->
  total_duration ps <= daily_hours * 3600.
Proof.
  intros Hd Hdh Hrun.
  destruct (calculate_logged_seconds_for_day fuel' tr strptime day)
    as [logged | e |] eqn:Ecalc.
  - pose proof (logged_seconds_nonneg _ _ _ _ _ Ecalc).
    destruct (fill_day_budget _ _ _ _ _ _ _ _ _ _ _ _ _ Hd Hrun)
      as [-> | Hsum]; [cbn; lia | lia].
  - destruct e; try discriminate. cbn [fill_day] in Hrun.
    injection Hrun as _ _ <-. cbn. lia.
  - discriminate.
Qed.

Lemma day_within_daily_hours_witness :
  valid_date monday /\ 0 <= 4
  /\ exists c' g' ps,
       @fill_day tape_source 3 true post_ok
         (calculate_logged_seconds_for_day 2 sample_tracker sample_strptime monday)
         monday two_issues 4 2 (mkcounters 0 0 0) [1; 0; 0; 1; 0; 0]
       = Returned (c', g', ps)
       /\ ps <> []
       /\ total_duration ps <= 4 * 3600.
Proof.
  assert (Hd : valid_date monday) by reflexivity.
  assert (Hdh : 0 <= 4) by lia.
  refine (conj Hd (conj Hdh _)).
  eexists _, _, _. split; [vm_compute; reflexivity |].
  split; [discriminate |].
  eapply (@day_within_daily_hours tape_source 3 2 true post_ok sample_tracker
            sample_strptime monday two_issues 4 2 (mkcounters 0 0 0)
            [1; 0; 0; 1; 0; 0]);
    [exact Hd | exact Hdh | vm_compute; reflexivity].
Defined.

End WholeDayFacts.
